(** * lib.reviews: search wrapper, error messages, thing routes, RTE pin

    A shallow embedding of the parts of lib.reviews that its specification
    talks about:

    - [ErrorMessage] (the class appended to [search.js]),
    - [search.js] (field lists, index requests, index mappings),
    - [routes/helpers/render.js], [routes/helpers/flash-error.js] and
      [routes/things.js],
    - the editor-switcher pin handler of the rich-text-editor glue.

    JavaScript values are an inductive type, objects used as dictionaries
    are [gmap]s, arrays are lists.  Promise chains are run to completion:
    a promise is the outcome it settles with, [.then] is sequencing and
    [.catch] is an exception handler.  Code of the repository that is not
    part of the sources at hand ([locales/languages], [models/thing],
    [models/helpers/ml-string], [util/debug], the resource error handler)
    enters as the fields of type classes. *)

From Stdlib Require Import Ascii Floats.
From stdpp Require Import gmap strings list fin_maps.

(** ** JavaScript values *)

Module Js.

(** The fields of an instance of the class [ErrorMessage] (defined below),
    over the type [V] of values.  The constructor lets only arrays of
    strings through as [msgParams], and the field is typed so. *)
Record ErrorMessageOf (V : Type) : Type := MkErrorMessage {
  msgKey : V;
  msgParams : list string;
  originalError : V
}.
Arguments MkErrorMessage {V} _ _ _.
Arguments msgKey {V} _.
Arguments msgParams {V} _.
Arguments originalError {V} _.

(** The values the modelled code inspects.  Numbers are IEEE 754 doubles.
    A plain object carries the name of its constructor (absent for an
    object without one, such as [Object.create(null)]) and its own data
    properties, in insertion order; it has no methods.  [JInstance] is an
    instance of the class [ErrorMessage]. *)
#[warnings="-register-all"]
Inductive JsValue : Type :=
| JUndefined
| JNull
| JBool (b : bool)
| JNumber (x : float)
| JString (s : string)
| JArray (elems : list JsValue)
| JObject (ctor : option string) (props : list (string * JsValue))
| JInstance (em : ErrorMessageOf JsValue).

Definition ErrorMessage : Type := ErrorMessageOf JsValue.

(** [ToBoolean]: what [if (v)] and [!v] test. *)
Definition truthy (v : JsValue) : bool :=
  match v with
  | JUndefined | JNull => false
  | JBool b => b
  | JNumber x => negb (PrimFloat.eqb x 0%float || PrimFloat.is_nan x)
  | JString s => negb (String.eqb s "")
  | JArray _ | JObject _ _ | JInstance _ => true
  end.

Definition typeof (v : JsValue) : string :=
  match v with
  | JUndefined => "undefined"
  | JNull => "object"
  | JBool _ => "boolean"
  | JNumber _ => "number"
  | JString _ => "string"
  | JArray _ | JObject _ _ | JInstance _ => "object"
  end.

(** [Array.isArray] *)
Definition isArray (v : JsValue) : bool :=
  match v with JArray _ => true | _ => false end.

(** [v.constructor.name] where the property chain exists: primitives are
    boxed, [undefined] and [null] have no properties. *)
Definition constructor_name (v : JsValue) : option string :=
  match v with
  | JUndefined | JNull => None
  | JBool _ => Some "Boolean"
  | JNumber _ => Some "Number"
  | JString _ => Some "String"
  | JArray _ => Some "Array"
  | JObject ctor _ => ctor
  | JInstance _ => Some "ErrorMessage"
  end.

(** A computation either returns or throws a value. *)
Inductive Result (A : Type) : Type :=
| Ok (a : A)
| Throw (e : JsValue).
Arguments Ok {A} a.
Arguments Throw {A} e.

Definition throws {A} (r : Result A) : bool :=
  match r with Ok _ => false | Throw _ => true end.

(** [new Error(msg)] and a [TypeError] raised by the runtime. *)
Definition Error (msg : string) : JsValue :=
  JObject (Some "Error") [("message", JString msg)].
Definition TypeError (msg : string) : JsValue :=
  JObject (Some "TypeError") [("message", JString msg)].

(** *** escape-html

    The npm package [escape-html] that [search.js] and [routes/things.js]
    import: the argument is coerced to a string and each of the five
    characters double quote, ampersand, apostrophe, less-than and
    greater-than is replaced by its entity.  Strings are byte strings
    here; the five characters are ASCII, so every other byte of a UTF-8
    string is copied. *)
Definition dquote : ascii := "034"%char.

Definition escapeChar (c : ascii) : string :=
  if Ascii.eqb c dquote then "&quot;"
  else if Ascii.eqb c "&" then "&amp;"
  else if Ascii.eqb c "'" then "&#39;"
  else if Ascii.eqb c "<" then "&lt;"
  else if Ascii.eqb c ">" then "&gt;"
  else String c "".

Fixpoint escapeHTML (s : string) : string :=
  match s with
  | "" => ""
  | String c rest => escapeChar c +:+ escapeHTML rest
  end.

(** [escapeHTML(x)] for a value that is a string or missing: the package
    starts with ['' + x], and ['' + undefined] is ["undefined"]. *)
Definition escapeHTML_opt (x : option string) : string :=
  escapeHTML (default "undefined" x).

(** A string is HTML-escaped when none of the four characters double
    quote, apostrophe, less-than, greater-than occurs in it and every
    ampersand starts one of the five entities. *)
Definition entity_tails : list string :=
  ["quot;"; "amp;"; "#39;"; "lt;"; "gt;"].

Fixpoint startsWith (t s : string) : bool :=
  match t, s with
  | "", _ => true
  | String a t', String b s' => Ascii.eqb a b && startsWith t' s'
  | String _ _, "" => false
  end.

Definition starts_entity (s : string) : bool :=
  existsb (fun t => startsWith t s) entity_tails.

Fixpoint html_escaped (s : string) : bool :=
  match s with
  | "" => true
  | String c rest =>
      if Ascii.eqb c dquote || Ascii.eqb c "'" || Ascii.eqb c "<"
         || Ascii.eqb c ">"
      then false
      else if Ascii.eqb c "&" then starts_entity rest && html_escaped rest
      else html_escaped rest
  end.

(** The names that an object literal inherits from [Object.prototype]:
    looking one of them up finds a value, a function or an object, also
    in an object that has no such key of its own. *)
Definition objectPrototypeProperties : list string :=
  ["constructor"; "__proto__"; "hasOwnProperty"; "isPrototypeOf";
   "propertyIsEnumerable"; "toLocaleString"; "toString"; "valueOf";
   "__defineGetter__"; "__defineSetter__"; "__lookupGetter__";
   "__lookupSetter__"].

Definition inheritedProperty (name : string) : bool :=
  bool_decide (name ∈ objectPrototypeProperties).

End Js.
Import Js.

(** ** The class ErrorMessage *)

(** [msgParams.forEach(ele => { if (typeof ele !== 'string') throw ... })]:
    the strings of the array, when every element is one. *)
Fixpoint stringElements (elems : list JsValue) : option (list string) :=
  match elems with
  | [] => Some []
  | ele :: rest =>
      if String.eqb (typeof ele) "string"
      then match ele with
           | JString s => cons s <$> stringElements rest
           | _ => None
           end
      else None
  end.

(** [new ErrorMessage(msgKey, msgParams, originalError)] *)
Definition new_ErrorMessage (msgKey msgParams originalError : JsValue)
  : Result ErrorMessage :=
  if negb (truthy msgKey)
  then Throw (Error "Must provide at least a message key for the error.")
  else if truthy msgParams && negb (isArray msgParams)
  then Throw (Error "Message parameters must be provided as an array.")
  else
    let msgParams := if negb (truthy msgParams) then JArray [] else msgParams in
    match msgParams with
    | JArray elems =>
        match stringElements elems with
        | Some strs => Ok (MkErrorMessage msgKey strs originalError)
        | None => Throw (Error "Message parameters must be strings.")
        end
    | _ => Throw (TypeError "msgParams.forEach is not a function")
    end.

(** [toArray() { return [this.msgKey].concat(this.msgParams); }] *)
Definition toArray (this : ErrorMessage) : list JsValue :=
  [msgKey this] ++ (JString <$> msgParams this).

(** [toEscapedArray() { return [this.msgKey].concat(this.msgParams.map(escapeHTML)); }] *)
Definition toEscapedArray (this : ErrorMessage) : list JsValue :=
  [msgKey this] ++ (JString <$> (escapeHTML <$> msgParams this)).

(** An entry of such an array is HTML-escaped when it is an HTML-escaped
    string. *)
Definition html_escaped_value (v : JsValue) : bool :=
  match v with
  | JString s => html_escaped s
  | _ => false
  end.

(** ** Records of the application *)

(** A multilingual string: an object from language codes to strings. *)
Abbreviation mlstring := (gmap string string) (only parsing).

(** A review subject, with the properties the sources read or write.
    [rest] holds every other property of the object. *)
Module Thing.
Record t : Type := mk {
  id : string;
  createdOn : JsValue;
  label : option mlstring;
  aliases : option (list mlstring);
  description : option mlstring;
  urls : option (list string);
  urlID : JsValue;
  mainURL : option string;
  otherURLs : option (list string);
  userCanEdit : bool;
  rest : gmap string JsValue
}.
End Thing.

Module Review.
Record t : Type := mk {
  id : string;
  thingID : string;
  createdOn : JsValue;
  title : option mlstring;
  html : option mlstring;
  starRating : JsValue
}.
End Review.

Module User.
Record t : Type := mk {
  displayName : string;
  suppressedNotices : option (list string)
}.
End User.

(** An Express request: the route parameter [id], the signed-in user, the
    parsed form body (fields are strings), the method, the locale chosen by
    the i18n middleware and the CSRF token function when there is one.
    The flash store of the session is part of the state below. *)
Module Req.
Record t : Type := mk {
  params_id : string;
  user : option User.t;
  body : gmap string string;
  method : string;
  locale : string;
  csrfToken : option string
}.
End Req.

(** What a promise settles with. *)
Inductive Settled (A : Type) : Type :=
| Fulfilled (v : A)
| Rejected (reason : JsValue).
Arguments Fulfilled {A} v.
Arguments Rejected {A} reason.

Definition fulfilled {A} (p : Settled A) : bool :=
  match p with Fulfilled _ => true | Rejected _ => false end.

(** *** util/debug *)

(** The object handed to [debug.error]. *)
Record LogEntry : Type := mkLogEntry {
  log_context : option string;
  log_req : option Req.t;
  log_error : JsValue
}.

(** Modelled from the spec: [debug.error] of [util/debug], which is not
    among the sources.  Failures are "logged, never thrown": the entry is
    appended to the diagnostic log and the call returns [undefined]. *)
Definition debug_error (entry : LogEntry) (log : list LogEntry)
  : JsValue * list LogEntry :=
  (JUndefined, log ++ [entry]).

(** ** locales/languages and models/helpers/ml-string *)

Record LangInfo : Type := mkLangInfo {
  messageKey : string;
  isCurrentLanguage : bool
}.

(** [locales/languages] is not among the sources: the fallback chain of a
    language and the table of all languages are what the application is
    configured with. *)
Class Languages : Type := {
  getFallbacks : string -> list string;
  getAll : gmap string LangInfo
}.

(** [models/helpers/ml-string] is not among the sources either. *)
Class MlString : Type := {
  stripHTML : option mlstring -> option mlstring;
  stripHTMLFromArray : option (list mlstring) -> option (list mlstring)
}.

(** ** search.js: index mappings *)

Module mapping.

(** The [processed] sub-field of a language's text field: the stemmed
    version, run through the language's analyzer. *)
Record Processed : Type := mkProcessed {
  processed_type : string;
  processed_analyzer : string;
  processed_index_options : string
}.

Record Completion : Type := mkCompletion {
  completion_type : string;
  completion_analyzer : string;
  max_input_length : nat
}.

(** [obj.properties[lang]] *)
Record LangField : Type := mkLangField {
  type : string;
  index_options : string;
  processed : Processed;
  completion : option Completion
}.

(** The value of [getURLProperties()]. *)
Record URLProperties : Type := mkURLProperties {
  url_type : string;
  url_raw_type : string;
  url_simple_type : string;
  url_simple_analyzer : string
}.

(** The [mappings] of the request of [createIndices()]; [obj.properties]
    of a multilingual field is a map from language codes. *)
Record Mappings : Type := mkMappings {
  reviews_parent_type : string;
  reviews_createdOn : string;
  reviews_text : gmap string LangField;
  reviews_title : gmap string LangField;
  things_createdOn : string;
  things_urls : URLProperties;
  things_label : gmap string LangField;
  things_aliases : gmap string LangField;
  things_description : gmap string LangField
}.

Record Settings : Type := mkSettings {
  tokenizer_whitespace_type : string;
  analyzer_label_type : string;
  analyzer_label_tokenizer : string;
  analyzer_label_filter : list string
}.

Record CreateRequest : Type := mkCreateRequest {
  index : string;
  settings : Settings;
  mappings : Mappings
}.

End mapping.

(** ** search.js *)

Module search.

(** All supported stemmers as of ElasticSearch 5.2.0 *)
Definition analyzers : list (string * string) :=
  [ ("ar", "arabic"); ("hy", "armenian"); ("eu", "basque");
    ("pt", "brazilian"); ("bg", "bulgarian"); ("ca", "catalan");
    ("zh", "cjk"); ("zh-Hant", "cjk"); ("cs", "czech"); ("da", "danish");
    ("nl", "dutch"); ("en", "english"); ("fi", "finnish"); ("fr", "french");
    ("gl", "galician"); ("de", "german"); ("el", "greek"); ("hi", "hindi");
    ("hu", "hungarian"); ("id", "indonesian"); ("ga", "irish");
    ("it", "italian"); ("lv", "latvian"); ("lt", "lithuanian");
    ("no", "norwegian"); ("fa", "persian"); ("pt-PT", "portuguese");
    ("ro", "romanian"); ("ru", "russian"); ("ckb", "sorani");
    ("es", "spanish"); ("sv", "swedish"); ("tr", "turkish"); ("th", "thai") ].

(** *** getSearchOptions *)

Record Highlight : Type := mkHighlight {
  pre_tags : list string;
  post_tags : list string;
  highlight_fields : gmap string unit
}.

Record SearchOptions : Type := mkSearchOptions {
  fields : list string;
  highlight : Highlight
}.

(** The template literal [`${fieldPrefix}.${lang}*`]. *)
Definition fieldPattern (fieldPrefix lang : string) : string :=
  fieldPrefix +:+ "." +:+ lang +:+ "*".

Definition highlightOpen : string :=
  "<span class=" +:+ String dquote "search-highlight" +:+ String dquote ">".

(** Generate language fallback and highlight options.  [getFallbacks]
    hands out an array of its own, which [unshift] then extends at the
    front. *)
Definition getSearchOptions `{Languages} (type fieldPrefix lang : string)
  : SearchOptions :=
  let langs := getFallbacks lang in
  let langs := if negb (String.eqb lang "en") then lang :: langs else langs in
  let fields := map (fun lang => fieldPattern fieldPrefix lang) langs in
  let highlight :=
    {| pre_tags := [highlightOpen];
       post_tags := ["</span>"];
       highlight_fields :=
         foldl (fun fs lang => <[fieldPrefix +:+ "." +:+ lang := tt]> fs)
               ∅ langs |} in
  {| fields := fields; highlight := highlight |}.

(** *** indexReview, indexThing *)

Inductive IndexBody : Type :=
| ReviewBody (createdOn : JsValue) (title text : option mlstring)
    (starRating : JsValue)
| ThingBody (createdOn : JsValue) (label : option mlstring)
    (aliases : option (list mlstring)) (description : option mlstring)
    (urls : option (list string)) (urlID : JsValue).

Record IndexRequest : Type := mkIndexRequest {
  index : string;
  type : string;
  id : string;
  parent : option string;
  body : IndexBody
}.

(** The ElasticSearch client: the promise [client.index(request)] returns
    settles as the search service decides. *)
Class Client : Type := {
  client_index : IndexRequest -> Settled JsValue
}.

(** The state the wrapper acts on: the requests handed to the client and
    the diagnostic log. *)
Record State : Type := mkState {
  submitted : list IndexRequest;
  errorLog : list LogEntry
}.

(** [promise.catch(error => debug.error({ error }))] *)
Definition catch_and_log (p : Settled JsValue) (log : list LogEntry)
  : Settled JsValue * list LogEntry :=
  match p with
  | Fulfilled v => (Fulfilled v, log)
  | Rejected error =>
      let '(v, log') := debug_error (mkLogEntry None None error) log in
      (Fulfilled v, log')
  end.

Definition submit `{Client} (request : IndexRequest) (st : State)
  : Settled JsValue * State :=
  let '(p, log) := catch_and_log (client_index request) (errorLog st) in
  (p, {| submitted := submitted st ++ [request]; errorLog := log |}).

(** Index a new review. Returns a promise; logs errors *)
Definition indexReview `{MlString} `{Client} (review : Review.t) (st : State)
  : Settled JsValue * State :=
  submit {| index := "libreviews";
            type := "reviews";
            id := Review.id review;
            parent := Some (Review.thingID review);
            body := ReviewBody (Review.createdOn review)
                      (stripHTML (Review.title review))
                      (stripHTML (Review.html review))
                      (Review.starRating review) |} st.

(** Index a new review subject (thing). Returns a promise; logs errors *)
Definition indexThing `{MlString} `{Client} (thing : Thing.t) (st : State)
  : Settled JsValue * State :=
  submit {| index := "libreviews";
            type := "things";
            id := Thing.id thing;
            parent := None;
            body := ThingBody (Thing.createdOn thing)
                      (stripHTML (Thing.label thing))
                      (stripHTMLFromArray (Thing.aliases thing))
                      (stripHTML (Thing.description thing))
                      (Thing.urls thing)
                      (Thing.urlID thing) |} st.

(** *** searchThings, searchReviews, suggestThing *)

Record SimpleQueryString : Type := mkSimpleQueryString {
  query_fields : list string;
  query_string : string;
  default_operator : string
}.

Inductive Query : Type :=
| simple_query_string (q : SimpleQueryString)
| has_child (child_type : string) (q : SimpleQueryString)
    (inner_hits_highlight : Highlight).

(** An entry of [query.body.suggest]. *)
Record Suggestion : Type := mkSuggestion {
  suggestion_prefix : string;
  completion_field : string
}.

Inductive SearchBody : Type :=
| QueryBody (query : Query) (top_highlight : option Highlight)
| SuggestBody (suggest : gmap string Suggestion).

Record SearchRequest : Type := mkSearchRequest {
  search_index : string;
  search_type : string;
  search_body : SearchBody
}.

Record DeleteRequest : Type := mkDeleteRequest {
  delete_index : string;
  delete_type : string;
  delete_parent : option string;
  delete_id : string
}.

(** [client.search] and [client.delete]: what their promises settle with. *)
Class Searcher : Type := {
  client_search : SearchRequest -> Settled JsValue;
  client_delete : DeleteRequest -> Settled JsValue
}.

(** For testing queries *)
Definition _raw `{Searcher} (obj : SearchRequest) : Settled JsValue :=
  client_search obj.

(** The request of [searchThings(query, lang = 'en')]; a parameter that is
    left out is [None]. *)
Definition searchThingsRequest `{Languages} (query : string)
  (lang : option string) : SearchRequest :=
  let lang := default "en" lang in
  let options := getSearchOptions "things" "label" lang in
  {| search_index := "libreviews";
     search_type := "things";
     search_body :=
       QueryBody
         (simple_query_string
            {| query_fields := fields options;
               query_string := query;
               default_operator := "and" |})
         (Some (highlight options)) |}.

(** Find things by their label; performs language fallback *)
Definition searchThings `{Languages} `{Searcher} (query : string)
  (lang : option string) : Settled JsValue :=
  client_search (searchThingsRequest query lang).

(** The request of [searchReviews(query, lang = 'en')]. *)
Definition searchReviewsRequest `{Languages} (query : string)
  (lang : option string) : SearchRequest :=
  let lang := default "en" lang in
  let options := getSearchOptions "reviews" "text" lang in
  {| search_index := "libreviews";
     search_type := "things";
     search_body :=
       QueryBody
         (has_child "reviews"
            {| query_fields := fields options;
               query_string := query;
               default_operator := "and" |}
            (highlight options))
         None |}.

(** Find reviews by their text; performs language fallback and includes
    the thing via parent-child join. The review is returned as an inner
    hit. *)
Definition searchReviews `{Languages} `{Searcher} (query : string)
  (lang : option string) : Settled JsValue :=
  client_search (searchReviewsRequest query lang).

(** The request of [suggestThing(prefix = '', lang = 'en')]: the loop
    assigns [query.body.suggest[`labels-${currentLanguage}`]] for every
    language of the list. *)
Definition suggestThingRequest `{Languages} (prefix lang : option string)
  : SearchRequest :=
  let prefix := default "" prefix in
  let lang := default "en" lang in
  let langs := getFallbacks lang in
  let langs := if negb (String.eqb lang "en") then lang :: langs else langs in
  {| search_index := "libreviews";
     search_type := "things";
     search_body :=
       SuggestBody
         (foldl
            (fun suggest currentLanguage =>
               <["labels-" +:+ currentLanguage :=
                   {| suggestion_prefix := prefix;
                      completion_field :=
                        "label." +:+ currentLanguage +:+ ".completion" |}]>
                 suggest)
            ∅ langs) |}.

(** Get search suggestions based on entered characters for review subjects
    (things). *)
Definition suggestThing `{Languages} `{Searcher} (prefix lang : option string)
  : Settled JsValue :=
  client_search (suggestThingRequest prefix lang).

(** *** deleteThing, deleteReview *)

Definition deleteThing `{Searcher} (thing : Thing.t) (log : list LogEntry)
  : Settled JsValue * list LogEntry :=
  catch_and_log
    (client_delete {| delete_index := "libreviews";
                      delete_type := "things";
                      delete_parent := None;
                      delete_id := Thing.id thing |}) log.

(** [deleteReview(review)] reads [review.thing.id]; [thing] is
    [review.thing], which a review may lack.  Reading [id] of [undefined]
    is a [TypeError] that the call throws before there is a promise. *)
Definition deleteReview `{Searcher} (review : Review.t)
  (thing : option Thing.t) (log : list LogEntry)
  : Result (Settled JsValue) * list LogEntry :=
  match thing with
  | None => (Throw (TypeError "Cannot read property 'id' of undefined"), log)
  | Some thing =>
      let '(p, log') :=
        catch_and_log
          (client_delete {| delete_index := "libreviews";
                            delete_type := "reviews";
                            delete_parent := Some (Thing.id thing);
                            delete_id := Review.id review |}) log in
      (Ok p, log')
  end.

(** *** createIndices *)


Definition getURLProperties : mapping.URLProperties :=
  {| mapping.url_type := "text";
     mapping.url_raw_type := "keyword";
     mapping.url_simple_type := "text";
     mapping.url_simple_analyzer := "simple" |}.

(** The body of the loop [for (let lang in analyzers)], on the properties
    built so far; [analyzer] is [analyzers[lang]]. *)
Definition addLanguage (completionMapping : bool)
  (properties : gmap string mapping.LangField) (entry : string * string)
  : gmap string mapping.LangField :=
  let '(lang, analyzer) := entry in
  let field :=
    {| mapping.type := "text";
       mapping.index_options := "offsets";
       mapping.processed :=
         {| mapping.processed_type := "text";
            mapping.processed_analyzer := analyzer;
            mapping.processed_index_options := "offsets" |};
       mapping.completion := None |} in
  let field :=
    if completionMapping
    then {| mapping.type := mapping.type field;
            mapping.index_options := mapping.index_options field;
            mapping.processed := mapping.processed field;
            mapping.completion :=
              Some {| mapping.completion_type := "completion";
                      mapping.completion_analyzer := "label";
                      mapping.max_input_length := 256 |} |}
    else field in
  <[lang := field]> properties.

(** What the loop body leaves in [obj.properties[lang]], in one piece. *)
Definition langField (completionMapping : bool) (analyzer : string)
  : mapping.LangField :=
  {| mapping.type := "text";
     mapping.index_options := "offsets";
     mapping.processed := mapping.mkProcessed "text" analyzer "offsets";
     mapping.completion :=
       if completionMapping
       then Some (mapping.mkCompletion "completion" "label" 256)
       else None |}.

(** Generate the mappings (ElasticSearch schemas) for indexing multilingual
    strings: one entry for every language of [analyzers], whether or not
    lib.reviews supports the language yet. *)
Definition getMultilingualTextProperties (completionMapping : bool)
  : gmap string mapping.LangField :=
  foldl (addLanguage completionMapping) ∅ analyzers.

(** The request [createIndices()] hands to [client.indices.create]. *)
Definition createIndicesRequest : mapping.CreateRequest :=
  {| mapping.index := "libreviews";
     mapping.settings :=
       {| mapping.tokenizer_whitespace_type := "whitespace";
          mapping.analyzer_label_type := "custom";
          mapping.analyzer_label_tokenizer := "whitespace";
          mapping.analyzer_label_filter := ["trim"; "lowercase"] |};
     mapping.mappings :=
       {| mapping.reviews_parent_type := "things";
          mapping.reviews_createdOn := "date";
          mapping.reviews_text := getMultilingualTextProperties false;
          mapping.reviews_title := getMultilingualTextProperties false;
          mapping.things_createdOn := "date";
          mapping.things_urls := getURLProperties;
          mapping.things_label := getMultilingualTextProperties true;
          mapping.things_aliases := getMultilingualTextProperties true;
          mapping.things_description := getMultilingualTextProperties false |}
  |}.

(** Create the initial index for holding reviews and review subjects
    (things).  Returns a promise; logs errors.  [create] is what the
    promise of [client.indices.create] settles with. *)
Definition createIndices
  (create : mapping.CreateRequest -> Settled JsValue) (log : list LogEntry)
  : Settled JsValue * list LogEntry :=
  catch_and_log (create createIndicesRequest) log.

(** The multilingual text fields of the mappings, by document type and
    field name. *)
Definition multilingualFields (m : mapping.Mappings)
  : list (string * gmap string mapping.LangField) :=
  [ ("reviews.text", mapping.reviews_text m);
    ("reviews.title", mapping.reviews_title m);
    ("things.label", mapping.things_label m);
    ("things.aliases", mapping.things_aliases m);
    ("things.description", mapping.things_description m) ].

(** The languages a multilingual field has a sub-field for. *)
Definition subFieldLanguages (properties : gmap string mapping.LangField)
  : gset string := dom properties.

End search.

(** ** The state of a request, and computations on it *)

(** The variables [render.template] hands to the view. *)
Record Edit : Type := mkEdit {
  edit_label : bool;
  edit_titleKey : string
}.

Record CurrentLanguage : Type := mkCurrentLanguage {
  langKey : string;
  currentMessageKey : string;
  currentLabel : string
}.

(** The [extraVars] the callers of [render.template] pass. *)
Record ExtraVars : Type := mkExtraVars {
  deferHeader : option bool;
  titleKey : option string;
  thing : option Thing.t;
  edit : option Edit;
  pageErrors : option (list string);
  showLanguageNotice : option bool;
  extraScripts : option (list string)
}.

Record Vars : Type := mkVars {
  configScript : string;
  extraVars : option ExtraVars;
  user : option User.t;
  scripts : list string;
  languages : gmap string LangInfo;
  currentLanguage : CurrentLanguage;
  csrfToken : option string;
  siteMessages : list string;
  siteErrors : list string
}.

(** What has been sent on the response [res]. *)
Inductive Sent : Type :=
| Rendered (view : string) (vars : Vars)
| Redirected (url : string).

Record Res : Type := mkRes {
  statusCode : nat;
  sent : option Sent
}.

(** Calls into [models/thing] that create or store a revision. *)
Inductive RevisionEvent : Type :=
| NewRevision (user : option User.t) (thing : Thing.t)
| Save (revision : Thing.t).

(** The state a request handler acts on: the flash store of the session
    (connect-flash: messages by type), the diagnostic log, the response and
    the revision calls made so far. *)
Record World : Type := mkWorld {
  flash : gmap string (list string);
  log : list LogEntry;
  res : Res;
  revisions : list RevisionEvent
}.

(** A computation on a state [S] that returns or throws. *)
Definition M (S A : Type) : Type := S -> Result A * S.

Definition ret {S A} (a : A) : M S A := fun s => (Ok a, s).

Definition throw {S A} (e : JsValue) : M S A := fun s => (Throw e, s).

Definition bind {S A B} (m : M S A) (f : A -> M S B) : M S B :=
  fun s =>
    match m s with
    | (Ok a, s') => f a s'
    | (Throw e, s') => (Throw e, s')
    end.

(** [.catch(handler)], and [try]/[catch]. *)
Definition catch {S A} (m : M S A) (handler : JsValue -> M S A) : M S A :=
  fun s =>
    match m s with
    | (Ok a, s') => (Ok a, s')
    | (Throw e, s') => handler e s'
    end.

(** A promise chain that is started and not returned: what it throws is
    an unhandled rejection, the code after it does not see it. *)
Definition detached {S} (m : M S unit) : M S unit :=
  catch m (fun _ => ret tt).

(** [promise.then(...)] on a settled promise: a rejection is thrown to
    the next [.catch]. *)
Definition await {S A} (p : Settled A) : M S A :=
  match p with
  | Fulfilled v => ret v
  | Rejected reason => throw reason
  end.

(** A computation on the world, run on a state that also holds a mutable
    object of type [T]. *)
Definition onWorld {T A} (m : M World A) : M (T * World) A :=
  fun s =>
    let '(r, w) := m s.2 in (r, (s.1, w)).

(** Run a computation that mutates the object [t], and forget the object. *)
Definition withObject {T A} (t : T) (m : M (T * World) A) : M World A :=
  fun w =>
    let '(r, s) := m (t, w) in (r, s.2).

Declare Scope js_scope.
Delimit Scope js_scope with js.
Notation "x <- m ;; k" := (bind m (fun x => k))
  (at level 100, m at next level, right associativity) : js_scope.
Notation "m ;; k" := (bind m (fun _ => k))
  (at level 100, right associativity) : js_scope.
Local Open Scope js_scope.

(** [req.flash(type)]: the messages of the type, which are removed. *)
Definition req_flash (type : string) : M World (list string) :=
  fun w =>
    (Ok (default [] (flash w !! type)),
     {| flash := delete type (flash w); log := log w; res := res w;
        revisions := revisions w |}).

(** [req.flash(type, msg)]: one more message of the type. *)
Definition req_flash_add (type msg : string) : M World unit :=
  fun w =>
    (Ok tt,
     {| flash := <[type := default [] (flash w !! type) ++ [msg]]> (flash w);
        log := log w; res := res w; revisions := revisions w |}).

(** [debug.error(entry)] on the log of the world. *)
Definition debug_error_M (entry : LogEntry) : M World unit :=
  fun w =>
    let '(_, log') := debug_error entry (log w) in
    (Ok tt,
     {| flash := flash w; log := log'; res := res w;
        revisions := revisions w |}).

(** [res.status(code)], [res.render(view, vars)], [res.redirect(url)] *)
Definition res_status (code : nat) : M World unit :=
  fun w =>
    (Ok tt,
     {| flash := flash w; log := log w;
        res := {| statusCode := code; sent := sent (res w) |};
        revisions := revisions w |}).

Definition res_send (s : Sent) : M World unit :=
  fun w =>
    (Ok tt,
     {| flash := flash w; log := log w;
        res := {| statusCode := statusCode (res w); sent := Some s |};
        revisions := revisions w |}).

Definition res_render (view : string) (vars : Vars) : M World unit :=
  res_send (Rendered view vars).

Definition res_redirect (url : string) : M World unit :=
  res_send (Redirected url).

Definition record (ev : RevisionEvent) : M World unit :=
  fun w =>
    (Ok tt,
     {| flash := flash w; log := log w; res := res w;
        revisions := revisions w ++ [ev] |}).

(** [keeps proj m]: running [m] does not change the part [proj] of the
    state, whether [m] returns or throws. *)
Definition keeps {S A B} (proj : S -> B) (m : M S A) : Prop :=
  forall s, proj (m s).2 = proj s.

(** [appends evs m]: running [m] adds the revision calls [evs], whether
    [m] returns or throws. *)
Definition appends {A} (evs : list RevisionEvent) (m : M World A) : Prop :=
  forall w, revisions (m w).2 = revisions w ++ evs.

(** ** What the route handlers import *)

(** The i18n function [req.__] of the request's locale, on its argument
    list, and [JSON.stringify] on the config object. *)
Class Runtime : Type := {
  __ : string -> list JsValue -> string;
  JSON_stringify : gmap string JsValue -> string
}.

(** [models/thing] and [routes/handlers/resource-error-handler] are not
    among the sources.  [getNotStaleOrDeleted], [newRevision] and [save]
    give what their promise settles with, [populateUserInfo] the thing
    with the permission flags of the user filled in, and
    [getResourceErrorHandler req type id] the handler of a failed lookup.
    [newRevisionIsThing user thing] tells whether the object that
    [thing.newRevision(user)] resolves with is [thing] itself rather than
    a copy: what is assigned to the new revision is then assigned to
    [thing]. *)
Class ThingModel : Type := {
  getNotStaleOrDeleted : string -> Settled Thing.t;
  populateUserInfo : option User.t -> Thing.t -> Thing.t;
  newRevision : option User.t -> Thing.t -> Settled Thing.t;
  newRevisionIsThing : option User.t -> Thing.t -> bool;
  save : Thing.t -> Settled Thing.t;
  resolveError : JsValue -> JsValue;
  getResourceErrorHandler : Req.t -> string -> string -> JsValue -> M World unit
}.

(** [String.prototype.trim], on ASCII white space. *)
Fixpoint dropSpace (l : list ascii) : list ascii :=
  match l with
  | c :: rest => if Ascii.is_space c then dropSpace rest else l
  | [] => []
  end.

Definition trim (s : string) : string :=
  String.string_of_list_ascii
    (reverse (dropSpace (reverse (dropSpace (String.list_ascii_of_string s))))).


(** ** routes/helpers/render.js *)

Module render.

Section Render.
Context `{Languages} `{Runtime}.

(** [render.template(req, res, view, extraVars, extraConfig)].  The
    language table is that of [languages.getAll()], with the entry of the
    request's locale marked as current; reading [messageKey] of an entry
    that is not there is a [TypeError].  The table is taken by its own
    keys: for a locale that names a property every object inherits (see
    [inheritedProperty]) the code finds that property, not an entry. *)
Definition template (req : Req.t) (view : string)
  (extraVars : option ExtraVars) (extraConfig : option (gmap string JsValue))
  : M World unit :=
  let config : gmap string JsValue :=
    {[ "userName" := match Req.user req with
                     | Some u => JString (User.displayName u)
                     | None => JUndefined
                     end;
       "language" := JString (Req.locale req) ]} in
  let config := match extraConfig with
                | Some extra => extra ∪ config
                | None => config
                end in
  let configScript := "window.config = " +:+ JSON_stringify config +:+ ";" in
  let scripts := ["lib.min.js"] in
  let scripts := match extraVars with
                 | Some {| extraScripts := Some more |} => scripts ++ more
                 | _ => scripts
                 end in
  let languages := getAll in
  let languages :=
    match languages !! Req.locale req with
    | Some info =>
        <[Req.locale req := mkLangInfo (messageKey info) true]> languages
    | None => languages
    end in
  match languages !! Req.locale req with
  | None => throw (TypeError "Cannot read property 'messageKey' of undefined")
  | Some info =>
      let currentLanguage :=
        {| langKey := Req.locale req;
           currentMessageKey := messageKey info;
           currentLabel := __ (Req.locale req) [JString (messageKey info)] |} in
      siteMessages <- req_flash "siteMessages";;
      siteErrors <- req_flash "siteErrors";;
      res_render view
        {| configScript := configScript;
           extraVars := extraVars;
           user := Req.user req;
           scripts := scripts;
           languages := languages;
           currentLanguage := currentLanguage;
           csrfToken := Req.csrfToken req;
           siteMessages := siteMessages;
           siteErrors := siteErrors |}
  end.

Definition signinRequired (req : Req.t) (extraVars : option ExtraVars)
  : M World unit :=
  template req "signin-required" extraVars None.

(** Pass detailsKey in extraVars for message providing further details
    about why permission is denied. *)
Definition permissionError (req : Req.t) (extraVars : option ExtraVars)
  : M World unit :=
  res_status 403;;
  template req "permission-error" extraVars None.

Definition resourceError (req : Req.t) (extraVars : option ExtraVars)
  : M World unit :=
  template req "resource-error" extraVars None.

End Render.
End render.

(** ** routes/helpers/flash-error.js *)

Section FlashError.
Context `{Runtime}.

(** [flashErrorMessage(req, errorMessage, context)].  A plain object has
    no method [toEscapedArray], whatever the name of its constructor. *)
Definition flashErrorMessage (req : Req.t) (errorMessage : JsValue)
  (context : string) : M World unit :=
  if truthy errorMessage
     && match constructor_name errorMessage with
        | Some name => String.eqb name "ErrorMessage"
        | None => false
        end
  then
    match errorMessage with
    | JInstance em =>
        req_flash_add "errors" (__ (Req.locale req) (toEscapedArray em))
    | _ => throw (TypeError "errorMessage.toEscapedArray is not a function")
    end
  else
    (* May be standard JS Error. We'll log the details for inspection. *)
    req_flash_add "errors" (__ (Req.locale req) [JString "unknown error"]);;
    debug_error_M {| log_context := Some context;
                     log_req := Some req;
                     log_error := errorMessage |}.

End FlashError.

(** ** routes/things.js *)

Module things.

Section Things.
Context `{Languages} `{Runtime} `{ThingModel}.

(** For convenient access to primary URL: the block of [sendThing] that
    shifts the first URL of [thing.urls] into [thing.mainURL].
    [thing.otherURLs] is then the array [thing.urls] itself. *)
Definition shiftURLs : M (Thing.t * World) unit :=
  fun s =>
    let thing := s.1 in
    match Thing.urls thing with
    | Some (first :: others) =>
        let thing :=
          {| Thing.id := Thing.id thing;
             Thing.createdOn := Thing.createdOn thing;
             Thing.label := Thing.label thing;
             Thing.aliases := Thing.aliases thing;
             Thing.description := Thing.description thing;
             Thing.urls := Some others;
             Thing.urlID := Thing.urlID thing;
             Thing.mainURL := Some first;
             Thing.otherURLs :=
               match others with
               | _ :: _ => Some others
               | [] => Thing.otherURLs thing
               end;
             Thing.userCanEdit := Thing.userCanEdit thing;
             Thing.rest := Thing.rest thing |} in
        (Ok tt, (thing, s.2))
    | _ => (Ok tt, s)
    end.

(** [sendThing(req, res, thing, edit)], on a state that holds the object
    [thing]. *)
Definition sendThing (req : Req.t) (edit : option Edit)
  : M (Thing.t * World) unit :=
  pageErrors <- onWorld (req_flash "pageErrors");;
  let user := Req.user req in
  shiftURLs;;
  showLanguageNotice <-
    (match edit with
     | Some _ =>
         if String.eqb (Req.method req) "GET"
         then match user with
              | None =>
                  throw (TypeError
                    "Cannot read property 'suppressedNotices' of undefined")
              | Some u =>
                  ret match User.suppressedNotices u with
                      | None => true
                      | Some notices =>
                          bool_decide ("language-notice-thing" ∉ notices)
                      end
              end
         else ret false
     | None => ret false
     end);;
  fun s =>
    onWorld
      (render.template req "thing"
         (Some {| deferHeader := Some (bool_decide (is_Some edit));
                  titleKey := edit_titleKey <$> edit;
                  thing := Some s.1;
                  edit := edit;
                  pageErrors := Some pageErrors;
                  showLanguageNotice := Some showLanguageNotice;
                  extraScripts := None |})
         None) s.

(** [router.get('/thing/:id', ...)] *)
Definition get_thing (req : Req.t) : M World unit :=
  let id := trim (Req.params_id req) in
  catch
    (thing <- await (getNotStaleOrDeleted id);;
     let thing := populateUserInfo (Req.user req) thing in
     withObject thing (sendThing req None))
    (getResourceErrorHandler req "thing" id).

Definition editLabelVars : option ExtraVars :=
  Some {| deferHeader := None; titleKey := Some "edit label"; thing := None;
          edit := None; pageErrors := None; showLanguageNotice := None;
          extraScripts := None |}.

(** [router.get('/thing/:id/edit/label', ...)] *)
Definition get_thing_edit_label (req : Req.t) : M World unit :=
  match Req.user req with
  | None => render.signinRequired req editLabelVars
  | Some _ =>
      let id := trim (Req.params_id req) in
      catch
        (thing <- await (getNotStaleOrDeleted id);;
         let thing := populateUserInfo (Req.user req) thing in
         if negb (Thing.userCanEdit thing)
         then render.permissionError req editLabelVars
         else
           let edit := {| edit_label := true; edit_titleKey := "edit label" |} in
           withObject thing (sendThing req (Some edit)))
        (getResourceErrorHandler req "thing" id)
  end.

(** [newRev.label[req.body['thing-label-language']] =
    escapeHTML(req.body['thing-label'])]: a field that is not in the body
    is [undefined], which names the property ["undefined"].  The label is
    a plain object: an assignment to its property [__proto__] goes to the
    setter of [Object.prototype], which ignores a string, and leaves the
    translations as they are. *)
Definition setLabel (body : gmap string string) (newRev : Thing.t) : Thing.t :=
  let label := default ∅ (Thing.label newRev) in
  let language := default "undefined" (body !! "thing-label-language") in
  let label :=
    if String.eqb language "__proto__"
    then label
    else <[language := escapeHTML_opt (body !! "thing-label")]> label in
  {| Thing.id := Thing.id newRev;
     Thing.createdOn := Thing.createdOn newRev;
     Thing.label := Some label;
     Thing.aliases := Thing.aliases newRev;
     Thing.description := Thing.description newRev;
     Thing.urls := Thing.urls newRev;
     Thing.urlID := Thing.urlID newRev;
     Thing.mainURL := Thing.mainURL newRev;
     Thing.otherURLs := Thing.otherURLs newRev;
     Thing.userCanEdit := Thing.userCanEdit newRev;
     Thing.rest := Thing.rest newRev |}.

(** [router.post('/thing/:id/edit/label', ...)] *)
Definition post_thing_edit_label (req : Req.t) : M World unit :=
  let id := trim (Req.params_id req) in
  catch
    (thing <- await (getNotStaleOrDeleted id);;
     let thing := populateUserInfo (Req.user req) thing in
     if negb (Thing.userCanEdit thing)
     then render.permissionError req editLabelVars
     else
       detached
         (catch
            (record (NewRevision (Req.user req) thing);;
             newRev <- await (newRevision (Req.user req) thing);;
             let newRev := setLabel (Req.body req) newRev in
             detached
               (catch
                  (record (Save newRev);;
                   _ <- await (save newRev);;
                   res_redirect ("/thing/" +:+ id))
                  (fun error =>
                     let errorMessage := resolveError error in
                     flashErrorMessage req errorMessage
                       "editing label - saving";;
                     (* [thing] is the object looked up: it has the new
                        label if the new revision is that object *)
                     let thing :=
                       if newRevisionIsThing (Req.user req) thing
                       then newRev else thing in
                     withObject thing (sendThing req None))))
            (fun error =>
               flashErrorMessage req error
                 "editing label - creating new revision";;
               withObject thing (sendThing req None))))
    (getResourceErrorHandler req "thing" id).

End Things.
End things.


(** ** The editor-switcher pin (rich-text-editor glue) *)

Module editor.

(** An element of the page: its classes, in the order of its [class]
    attribute, and its other attributes.  The page is the list of its
    elements. *)
Record Element : Type := mkElement {
  classes : list string;
  attrs : gmap string string
}.

Definition hasClass (c : string) (el : Element) : bool :=
  bool_decide (c ∈ classes el).

(** jQuery's [.addClass] and [.removeClass] with a list of class names,
    and [.attr(name, value)], which sets nothing for an [undefined]
    value. *)
Definition addClass (names : list string) (el : Element) : Element :=
  {| classes :=
       foldl (fun cs c => if bool_decide (c ∈ cs) then cs else cs ++ [c])
             (classes el) names;
     attrs := attrs el |}.

Definition removeClass (names : list string) (el : Element) : Element :=
  {| classes := filter (fun c => c ∉ names) (classes el);
     attrs := attrs el |}.

Definition attr (name : string) (value : option string) (el : Element)
  : Element :=
  match value with
  | Some v => {| classes := classes el; attrs := <[name := v]> (attrs el) |}
  | None => el
  end.

(** [$('.editor-switcher-pin')] followed by a chain of calls [f]: every
    element with the class goes through [f]. *)
Definition isPin (el : Element) : bool := hasClass "editor-switcher-pin" el.

Definition onPins (f : Element -> Element) (page : list Element)
  : list Element :=
  (fun el => if isPin el then f el else el) <$> page.

(** [$(this)] followed by a chain of calls [f], for the element at
    position [this]. *)
Definition onThis (this : nat) (f : Element -> Element) (page : list Element)
  : list Element :=
  alter f this page.

Definition spin (this : nat) : list Element -> list Element :=
  onThis this (fun pin =>
    addClass ["fa-spinner"; "fa-spin"; "editor-switcher-working"]
      (removeClass ["fa-thumb-tack"] pin)).

Definition unspin (this : nat) : list Element -> list Element :=
  onThis this (fun pin =>
    addClass ["fa-thumb-tack"]
      (removeClass ["fa-spinner"; "fa-spin"; "editor-switcher-working"] pin)).

(** What the Ajax request ends with: [.done(res)] with [res.newValue], or
    [.fail()]. *)
Inductive Reply : Type :=
| Done (newValue : string)
| Fail.

(** The callback of [setTimeout], which finds the flag [done] as the
    reply handlers left it. *)
Definition onTimeout (this : nat) (done : bool) (page : list Element)
  : list Element :=
  if done then page else spin this page.

(** The [.done] and [.fail] callbacks; both set [done]. *)
Definition onReply (messages : gmap string string) (this : nat)
  (reply : Reply) (page : list Element) : list Element :=
  let page := unspin this page in
  match reply with
  | Done newValue =>
      if String.eqb newValue "true"
      then
        (* Because we may have multiple editors on a page, all pins need
           to be restyled *)
        onPins (fun pin =>
          attr "title" (messages !! "forget rte preference")
            (addClass ["editor-switcher-pinned"]
               (removeClass ["editor-switcher-unpinned"] pin))) page
      else
        onPins (fun pin =>
          attr "title" (messages !! "remember rte preference")
            (addClass ["editor-switcher-unpinned"]
               (removeClass ["editor-switcher-pinned"] pin))) page
  | Fail =>
      (fun el =>
         if bool_decide (attrs el !! "id" = Some "generic-action-error")
         then removeClass ["hidden"] el else el) <$> page
  end.

(** A click on the pin at position [this]: the timer of 100 ms and the
    reply come in either order. *)
Definition clickPin (messages : gmap string string) (this : nat)
  (timerFirst : bool) (reply : Reply) (page : list Element) : list Element :=
  if timerFirst
  then onReply messages this reply (onTimeout this false page)
  else onTimeout this true (onReply messages this reply page).

(** Modelled from the spec: the endpoint [POST
    /api/actions/toggle-preference/], which is not among the sources.  It
    flips the stored preference and returns [{newValue: 'true'|'false'}],
    the new value. *)
Definition togglePreference (prefersRichTextEditor : bool) : bool * Reply :=
  let newValue := negb prefersRichTextEditor in
  (newValue, Done (if newValue then "true" else "false")).

(** One toggle: the request of a click on the pin at [this] reaches the
    server, and the reply reaches the page. *)
Definition toggle (messages : gmap string string) (this : nat)
  (timerFirst : bool) (st : bool * list Element) : bool * list Element :=
  let '(preference, reply) := togglePreference st.1 in
  (preference, clickPin messages this timerFirst reply st.2).

(** The pin shows the preference [preference]: the class and the title
    that the handler gives a pin for that value. *)
Definition shows (messages : gmap string string) (preference : bool)
  (pin : Element) : Prop :=
  hasClass "editor-switcher-pinned" pin = preference
  /\ hasClass "editor-switcher-unpinned" pin = negb preference
  /\ attrs pin !! "title"
     = messages !! (if preference then "forget rte preference"
                    else "remember rte preference").

End editor.


(** ** Characters that escape-html replaces *)

Definition needsEscape (c : ascii) : bool :=
  Ascii.eqb c dquote || Ascii.eqb c "&" || Ascii.eqb c "'"
  || Ascii.eqb c "<" || Ascii.eqb c ">".

(** A string without any of the five characters. *)
Fixpoint plainText (s : string) : bool :=
  match s with
  | "" => true
  | String c rest => negb (needsEscape c) && plainText rest
  end.


(** ** What flashErrorMessage flashes and logs *)

(** A plain object whose constructor is named [ErrorMessage] without
    being an instance of the class. *)
Definition namedLikeErrorMessage (v : JsValue) : bool :=
  match v with
  | JObject (Some name) _ => String.eqb name "ErrorMessage"
  | _ => false
  end.

(** The message for the user, and the entries for the diagnostic log. *)
Definition flashedMessage `{Runtime} (req : Req.t) (v : JsValue) : string :=
  match v with
  | JInstance em => __ (Req.locale req) (toEscapedArray em)
  | _ => __ (Req.locale req) [JString "unknown error"]
  end.

Definition loggedError (req : Req.t) (context : string) (v : JsValue)
  : list LogEntry :=
  match v with
  | JInstance _ => []
  | _ => [mkLogEntry (Some context) (Some req) v]
  end.


(** ** The thing as sendThing leaves it *)

(** The object [thing] after the URL block of [sendThing]
    ([things.shiftURLs]), as a function of the object before. *)
Definition afterSendThing (t : Thing.t) : Thing.t :=
  match Thing.urls t with
  | Some (first :: others) =>
      {| Thing.id := Thing.id t;
         Thing.createdOn := Thing.createdOn t;
         Thing.label := Thing.label t;
         Thing.aliases := Thing.aliases t;
         Thing.description := Thing.description t;
         Thing.urls := Some others;
         Thing.urlID := Thing.urlID t;
         Thing.mainURL := Some first;
         Thing.otherURLs :=
           match others with
           | _ :: _ => Some others
           | [] => Thing.otherURLs t
           end;
         Thing.userCanEdit := Thing.userCanEdit t;
         Thing.rest := Thing.rest t |}
  | _ => t
  end.


(** ** The pin handler, element by element *)

(** What the reply handlers make of one element of the page, after
    [unspin()]. *)
Definition afterReply (messages : gmap string string) (reply : editor.Reply)
  (el : editor.Element) : editor.Element :=
  match reply with
  | editor.Done newValue =>
      if editor.isPin el
      then
        if String.eqb newValue "true"
        then editor.attr "title" (messages !! "forget rte preference")
               (editor.addClass ["editor-switcher-pinned"]
                  (editor.removeClass ["editor-switcher-unpinned"] el))
        else editor.attr "title" (messages !! "remember rte preference")
               (editor.addClass ["editor-switcher-unpinned"]
                  (editor.removeClass ["editor-switcher-pinned"] el))
      else el
  | editor.Fail =>
      if bool_decide (editor.attrs el !! "id" = Some "generic-action-error")
      then editor.removeClass ["hidden"] el
      else el
  end.

(** What [spin()] (when the timer came first) and [unspin()] make of the
    clicked element. *)
Definition afterSpinner (timerFirst : bool) (el : editor.Element)
  : editor.Element :=
  editor.addClass ["fa-thumb-tack"]
    (editor.removeClass ["fa-spinner"; "fa-spin"; "editor-switcher-working"]
       (if timerFirst
        then editor.addClass ["fa-spinner"; "fa-spin"; "editor-switcher-working"]
               (editor.removeClass ["fa-thumb-tack"] el)
        else el)).


(** ** The textarea behind a rich-text editor *)

Module textarea.

(** A textarea: its attributes and its value. *)
Record t : Type := mk {
  attrs : gmap string string;
  value : string
}.

(** [String(x)] for a number [x], which is what [.attr(name, x)] stores. *)
Class Browser : Type := {
  numberToString : float -> string
}.

Definition removeAttr (name : string) (ta : t) : t :=
  {| attrs := delete name (attrs ta); value := value ta |}.

(** [.attr(name, value)]; for a value that is [undefined] nothing is set. *)
Definition attr (name : string) (v : option string) (ta : t) : t :=
  match v with
  | Some s => {| attrs := <[name := s]> (attrs ta); value := value ta |}
  | None => ta
  end.

(** We keep track of the RTE's caret and scroll position, but only if the
    markdown representation hasn't been changed: the handler bound by
    [$('textarea[data-markdown]').change(...)], which textareas with the
    attribute [data-markdown] have. *)
Definition onChange (ta : t) : t :=
  if bool_decide (is_Some (attrs ta !! "data-markdown"))
  then removeAttr "data-rte-scroll-y"
         (removeAttr "data-rte-sel-end"
            (removeAttr "data-rte-sel-start" ta))
  else ta.

(** Serialize RTE content into Markdown and update textarea.  [markdown]
    is what the serializer makes of the document of the editor;
    [.trigger('change')] runs [onChange] (handlers that other files bind
    for [keyup] and [change] are not modelled). *)
Definition updateTextarea (markdown : string) (ta : t) : t :=
  if negb (String.eqb markdown (value ta))
  then
    let ta := {| attrs := attrs ta; value := markdown |} in
    let ta := onChange ta in
    attr "data-reset-textarea" (Some "") ta
  else ta.

(** [sel.start] and [sel.end]: a property of a value that has properties. *)
Definition getProperty (name : string) (v : JsValue) : JsValue :=
  match v with
  | JObject _ props =>
      default JUndefined (snd <$> List.find (fun p => String.eqb (fst p) name) props)
  | _ => JUndefined
  end.

(** [updateRTESelectionData($textarea, $ce)].  [saveSelection] is what
    [saveSelection($ce[0])] returns, or [None] when the import is not
    there; [scrollY] is [$($ce[0]).scrollTop()].  [typeof null] is
    ['object'], and reading [start] of [null] is a [TypeError]. *)
Definition updateRTESelectionData `{Browser} (saveSelection : option JsValue)
  (scrollY : option float) (ta : t) : Result t :=
  match saveSelection with
  | None => Ok ta
  | Some sel =>
      if String.eqb (typeof sel) "object"
      then
        match sel with
        | JNull => Throw (TypeError "Cannot read property 'start' of null")
        | _ =>
            match getProperty "start" sel, getProperty "end" sel with
            | JNumber selStart, JNumber selEnd =>
                Ok (attr "data-rte-scroll-y" (numberToString <$> scrollY)
                      (attr "data-rte-sel-end" (Some (numberToString selEnd))
                         (attr "data-rte-sel-start"
                            (Some (numberToString selStart)) ta)))
            | _, _ =>
                Ok (attr "data-rte-scroll-y" (numberToString <$> scrollY) ta)
            end
        end
      else Ok (attr "data-rte-scroll-y" (numberToString <$> scrollY) ta)
  end.

(** The handler [renderRTE] binds with [$ce.blur(...)]. *)
Definition onBlur `{Browser} (saveSelection : option JsValue)
  (scrollY : option float) (markdown : string) (ta : t) : Result t :=
  match updateRTESelectionData saveSelection scrollY ta with
  | Ok ta =>
      (* Re-generating the markdown on blur is a performance compromise *)
      Ok (updateTextarea markdown ta)
  | Throw e => Throw e
  end.

End textarea.


(** ** The switcher between Markdown and the rich-text editor *)

Module switcher.

(** An element with the elements below it, in document order.  Text
    nodes are left out: no selector of the module matches them. *)
#[warnings="-register-all"]
Inductive Node : Type :=
| mkNode (element : editor.Element) (children : list Node).

Definition element (n : Node) : editor.Element :=
  match n with mkNode e _ => e end.

Definition children (n : Node) : list Node :=
  match n with mkNode _ cs => cs end.

(** The elements below a node, in document order: what jQuery's [.find]
    chooses from. *)
Fixpoint descendants (n : Node) : list Node :=
  match n with
  | mkNode _ cs => flat_map (fun c => c :: descendants c) cs
  end.

(** The selectors [[name]] and [.name]. *)
Definition byAttr (name : string) (e : editor.Element) : bool :=
  bool_decide (is_Some (editor.attrs e !! name)).

Definition byClass (name : string) (e : editor.Element) : bool :=
  editor.hasClass name e.

(** [$switcher[0].hasAttribute(name)] *)
Definition hasAttribute (name : string) (n : Node) : bool :=
  byAttr name (element n).

Definition removeAttr (name : string) (e : editor.Element)
  : editor.Element :=
  {| editor.classes := editor.classes e;
     editor.attrs := delete name (editor.attrs e) |}.

(** A chain of calls on the element itself, and [.prepend(new)]. *)
Definition onElement (g : editor.Element -> editor.Element) (n : Node)
  : Node :=
  mkNode (g (element n)) (children n).

Definition prepend (new : Node) (n : Node) : Node :=
  mkNode (element n) (new :: children n).

(** [$node.find(selector)] followed by [f]: the elements below the node
    that match the selector are chosen first, then each goes through
    [f]. *)
Fixpoint onFound (selector : editor.Element -> bool) (f : Node -> Node)
  (n : Node) : Node :=
  match n with
  | mkNode e cs =>
      mkNode e
        (map (fun c => if selector (element c)
                       then f (onFound selector f c)
                       else onFound selector f c) cs)
  end.

(** [$node.find(ancestor + ' ' + selector).remove()]: an element below
    the node goes, with all below it, when it matches [selector] and is
    below an element that matches [ancestor] and is itself below the
    node.  [inside] tells that such an element has been passed. *)
Fixpoint removeFound (ancestor selector : editor.Element -> bool)
  (inside : bool) (n : Node) : Node :=
  match n with
  | mkNode e cs =>
      mkNode e
        (flat_map
           (fun c => if inside && selector (element c)
                     then []
                     else [removeFound ancestor selector
                             (inside || ancestor (element c)) c]) cs)
  end.

(** What [.find(selector)] followed by calls [g] on the chosen elements
    makes of an element below the node. *)
Definition restyled (selector : editor.Element -> bool)
  (g : editor.Element -> editor.Element) (d : Node) : Node :=
  if selector (element d)
  then onElement g (onFound selector (onElement g) d)
  else onFound selector (onElement g) d.

(** [<span class="fa fa-fw fa-check-circle
    editor-switcher-selected-indicator">&nbsp;</span>] *)
Definition selectedIndicator : Node :=
  mkNode {| editor.classes := ["fa"; "fa-fw"; "fa-check-circle";
                               "editor-switcher-selected-indicator"];
            editor.attrs := ∅ |} [].

(** Checkbox indicator for mode switcher.  [selector] is the name of the
    attribute in the selector [[name]]; [pinEnabled] is [None] when the
    caller's object has no such property. *)
Definition addIndicator (pinEnabled : option bool) (selector : string)
  (sw : Node) : Node :=
  let sw := onFound (byAttr selector) (prepend selectedIndicator) sw in
  match pinEnabled with
  | Some true =>
      onFound editor.isPin (onElement (editor.removeClass ["hidden"])) sw
  | _ => sw
  end.

Definition removeIndicator (pinEnabled : option bool) (selector : string)
  (sw : Node) : Node :=
  let sw := removeFound (byAttr selector)
              (byClass "editor-switcher-selected-indicator") false sw in
  match pinEnabled with
  | Some true => sw
  | _ => onFound editor.isPin (onElement (editor.addClass ["hidden"])) sw
  end.

(** Flip classes and data- attributes for the two modes (markdown, RTE) *)
Definition toggleSwitcher (sw : Node) : Node :=
  let '(sw, (activateOption, deactivateOption,
             deactivateState, activateState)) :=
    if hasAttribute "data-rte-enabled" sw
    then (* => switch to markdown; the caller passes [addPin], which
            [addIndicator] does not read *)
      (removeIndicator None "data-enable-rte"
         (addIndicator None "data-enable-markdown" sw),
       ("data-enable-rte", "data-enable-markdown",
        "data-rte-enabled", "data-markdown-enabled"))
    else (* => switch to RTE *)
      (addIndicator (Some true) "data-enable-rte"
         (removeIndicator (Some false) "data-enable-markdown" sw),
       ("data-enable-markdown", "data-enable-rte",
        "data-markdown-enabled", "data-rte-enabled")) in
  let sw := onElement (fun e => editor.attr activateState (Some "")
                                  (removeAttr deactivateState e)) sw in
  let sw := onFound (byAttr activateOption)
              (onElement
                 (editor.removeClass ["editor-switcher-option-selected"]))
              sw in
  onFound (byAttr deactivateOption)
    (onElement (editor.addClass ["editor-switcher-option-selected"])) sw.

(** Toggle a switcher if it is selectable, return status.  [sw] is
    [$(optionElement).parent()], the switcher of the option. *)
Definition isSelectable (sw : Node) (activeOptionAttr : string)
  : bool * Node :=
  if hasAttribute activeOptionAttr sw
  then (false, sw)
  else (true, toggleSwitcher sw).

End switcher.

(** ** A sample configuration

    A site with three display languages, whose fallback chains end in the
    default language, used to run the definitions on concrete data. *)

#[local] Instance sampleLanguages : Languages := {|
  getFallbacks lang :=
    if String.eqb lang "pt-PT" then ["pt"; "en"] else ["en"];
  getAll :=
    {[ "en" := mkLangInfo "english" false;
       "fr" := mkLangInfo "french" false;
       "eo" := mkLangInfo "esperanto" false ]}
|}.



(** The sample site: messages are their keys, a thing with labels in two
    languages and two URLs that only alice may edit, revisions that start
    from the thing as it is and are saved without an error. *)

#[local] Instance sampleRuntime : Runtime := {|
  __ locale args :=
    match args with
    | JString key :: _ => key
    | _ => ""
    end;
  JSON_stringify config := "{}"
|}.

Definition sampleThing : Thing.t :=
  {| Thing.id := "t1";
     Thing.createdOn := JString "2017-02-01";
     Thing.label := Some {[ "en" := "Hat"; "de" := "Hut" ]};
     Thing.aliases := None;
     Thing.description := None;
     Thing.urls := Some ["https://hat.example/"; "https://hut.example/"];
     Thing.urlID := JUndefined;
     Thing.mainURL := None;
     Thing.otherURLs := None;
     Thing.userCanEdit := false;
     Thing.rest := ∅ |}.

Definition sampleCanEdit (user : option User.t) : bool :=
  match user with
  | Some u => String.eqb (User.displayName u) "alice"
  | None => false
  end.

#[local] Instance sampleThingModel : ThingModel := {|
  getNotStaleOrDeleted id :=
    if String.eqb id "t1" then Fulfilled sampleThing
    else Rejected (Error "not found");
  populateUserInfo user thing :=
    {| Thing.id := Thing.id thing;
       Thing.createdOn := Thing.createdOn thing;
       Thing.label := Thing.label thing;
       Thing.aliases := Thing.aliases thing;
       Thing.description := Thing.description thing;
       Thing.urls := Thing.urls thing;
       Thing.urlID := Thing.urlID thing;
       Thing.mainURL := Thing.mainURL thing;
       Thing.otherURLs := Thing.otherURLs thing;
       Thing.userCanEdit := sampleCanEdit user;
       Thing.rest := Thing.rest thing |};
  newRevision user thing := Fulfilled thing;
  newRevisionIsThing user thing := false;
  save revision := Fulfilled revision;
  resolveError error := error;
  getResourceErrorHandler req type id error :=
    bind (res_status 404) (fun _ => render.resourceError req None)
|}.

Definition sampleReq (name method : string) (body : gmap string string)
  : Req.t :=
  {| Req.params_id := " t1 ";
     Req.user := Some (User.mk name None);
     Req.body := body;
     Req.method := method;
     Req.locale := "en";
     Req.csrfToken := None |}.

Definition emptyWorld : World :=
  {| flash := ∅; log := []; res := {| statusCode := 200; sent := None |};
     revisions := [] |}.


(** Two more models of [models/thing] for the sample site: one whose
    [newRevision] resolves with the thing itself and whose [save] rejects
    with an [ErrorMessage], one whose [newRevision] rejects with a plain
    error. *)
Definition sampleSaveError : JsValue :=
  JInstance (MkErrorMessage (JString "invalid label") ["<b>"] JUndefined).

Definition rejectingSave : ThingModel :=
  {| getNotStaleOrDeleted := @getNotStaleOrDeleted sampleThingModel;
     populateUserInfo := @populateUserInfo sampleThingModel;
     newRevision := @newRevision sampleThingModel;
     newRevisionIsThing user thing := true;
     save revision := Rejected sampleSaveError;
     resolveError := @resolveError sampleThingModel;
     getResourceErrorHandler := @getResourceErrorHandler sampleThingModel |}.

Definition rejectingNewRevision : ThingModel :=
  {| getNotStaleOrDeleted := @getNotStaleOrDeleted sampleThingModel;
     populateUserInfo := @populateUserInfo sampleThingModel;
     newRevision user thing := Rejected (Error "database is down");
     newRevisionIsThing := @newRevisionIsThing sampleThingModel;
     save := @save sampleThingModel;
     resolveError := @resolveError sampleThingModel;
     getResourceErrorHandler := @getResourceErrorHandler sampleThingModel |}.


Definition anonymousReq : Req.t :=
  {| Req.params_id := " t1 "; Req.user := None; Req.body := ∅;
     Req.method := "GET"; Req.locale := "en"; Req.csrfToken := None |}.

Definition missingThingReq : Req.t :=
  {| Req.params_id := "nothing"; Req.user := Some (User.mk "alice" None);
     Req.body := ∅; Req.method := "GET"; Req.locale := "en";
     Req.csrfToken := None |}.

Definition frenchLabelBody : gmap string string :=
  {[ "thing-label-language" := "fr"; "thing-label" := "Chapeau <vert>" ]}.


(** A page with two editors, whose pins show that the rich-text editor is
    preferred, and the element for errors of actions. *)
Definition sampleMessages : gmap string string :=
  {[ "forget rte preference" := "Forget my preference";
     "remember rte preference" := "Remember my preference" ]}.

Definition samplePin : editor.Element :=
  {| editor.classes :=
       ["fa"; "fa-thumb-tack"; "editor-switcher-pin"; "editor-switcher-pinned"];
     editor.attrs := {[ "title" := "Forget my preference" ]} |}.

Definition samplePage : list editor.Element :=
  [ samplePin;
    {| editor.classes := ["hidden"];
       editor.attrs := {[ "id" := "generic-action-error" ]} |};
    samplePin ].


(** A browser asked for the strings of the positions 3 and 5 and of the
    offset 120 only. *)
Definition sampleBrowser : textarea.Browser := {|
  textarea.numberToString x :=
    if PrimFloat.eqb x 3 then "3"
    else if PrimFloat.eqb x 5 then "5"
    else "120"
|}.

(** A textarea that Markdown is written into, with the selection of an
    earlier visit to the rich-text editor. *)
Definition sampleTextarea : textarea.t :=
  {| textarea.attrs := {[ "data-markdown" := "";
                          "data-rte-sel-start" := "0";
                          "data-rte-sel-end" := "0" ]};
     textarea.value := "A review" |}.

Definition sampleSelection : JsValue :=
  JObject (Some "Object") [("start", JNumber 3); ("end", JNumber 5)].

(** A switcher as the server renders it for Markdown: the Markdown option
    is selected and carries the indicator, the pin is hidden. *)
Definition sampleSwitcher : switcher.Node :=
  switcher.mkNode
    {| editor.classes := ["editor-switcher"];
       editor.attrs := {[ "data-markdown-enabled" := "" ]} |}
    [ switcher.mkNode
        {| editor.classes := ["editor-switcher-option";
                              "editor-switcher-option-selected"];
           editor.attrs := {[ "data-enable-markdown" := "" ]} |}
        [ switcher.selectedIndicator;
          switcher.mkNode
            {| editor.classes := ["editor-switcher-label"];
               editor.attrs := ∅ |} [] ];
      switcher.mkNode
        {| editor.classes := ["editor-switcher-option"];
           editor.attrs := {[ "data-enable-rte" := "" ]} |}
        [ switcher.mkNode
            {| editor.classes := ["editor-switcher-label"];
               editor.attrs := ∅ |} [] ];
      switcher.mkNode (editor.addClass ["hidden"] samplePin) [] ].


(** * Properties *)

(** ** Values and escaping *)

Example escapeHTML_sample :
  escapeHTML "<b>Tom & Jerry's</b>" = "&lt;b&gt;Tom &amp; Jerry&#39;s&lt;/b&gt;".
Proof. reflexivity. Qed.

Example truthy_samples :
  truthy (JNumber (-0)%float) = false /\ truthy (JNumber nan) = false
  /\ truthy (JNumber 2%float) = true /\ truthy (JString "") = false
  /\ truthy (JArray []) = true.
Proof. repeat split. Qed.

Lemma html_escaped_app_entity c s :
  html_escaped s = true -> html_escaped (escapeChar c +:+ s) = true.
Proof.
  intros Hs. unfold escapeChar.
  destruct (Ascii.eqb c dquote) eqn:E1; [exact Hs|].
  destruct (Ascii.eqb c "&") eqn:E2; [exact Hs|].
  destruct (Ascii.eqb c "'") eqn:E3; [exact Hs|].
  destruct (Ascii.eqb c "<") eqn:E4; [exact Hs|].
  destruct (Ascii.eqb c ">") eqn:E5; [exact Hs|].
  change (html_escaped (String c s) = true). cbn [html_escaped].
  rewrite E1, E2, E3, E4, E5. exact Hs.
Qed.

Lemma escapeHTML_escaped s : html_escaped (escapeHTML s) = true.
Proof.
  induction s as [|c s IH]; [reflexivity|].
  cbn [escapeHTML]. now apply html_escaped_app_entity.
Qed.

(** ** The class ErrorMessage *)

Lemma stringElements_strings (strs : list string) :
  stringElements (JString <$> strs) = Some strs.
Proof.
  induction strs as [|s strs IH]; [reflexivity|].
  cbn. now rewrite IH.
Qed.

Lemma stringElements_not_string (elems : list JsValue) (ele : JsValue) :
  ele ∈ elems -> String.eqb (typeof ele) "string" = false ->
  stringElements elems = None.
Proof.
  intros Hin Hty. induction Hin as [ele rest|ele ele' rest Hin IH].
  - cbn. now rewrite Hty.
  - cbn. rewrite IH by assumption.
    destruct (String.eqb (typeof ele') "string"); [|reflexivity].
    now destruct ele'.
Qed.

(** C1, as the code has it.  [toEscapedArray()] and [toArray()] have the
    same length, one more than the number of parameters.  The first entry
    of both is the message key itself: [toEscapedArray()] does not escape
    it.  Every entry after it is the corresponding parameter, passed
    through [escapeHTML] in [toEscapedArray()], and that string is
    HTML-escaped. *)
Theorem toEscapedArray_params_escaped (em : ErrorMessage) :
  length (toEscapedArray em) = length (toArray em)
  /\ length (toEscapedArray em) = 1 + length (msgParams em)
  /\ toArray em !! 0 = Some (msgKey em)
  /\ toEscapedArray em !! 0 = Some (msgKey em)
  /\ forall (i : nat) (p : string),
       msgParams em !! i = Some p ->
       toArray em !! S i = Some (JString p)
       /\ toEscapedArray em !! S i = Some (JString (escapeHTML p))
       /\ html_escaped_value (JString (escapeHTML p)) = true.
Proof.
  unfold toEscapedArray, toArray.
  split; [|split; [|split; [|split]]].
  - rewrite !length_app, !length_fmap. reflexivity.
  - rewrite length_app, !length_fmap. reflexivity.
  - reflexivity.
  - reflexivity.
  - intros i p Hp.
    change (([msgKey em] ++ ?l) !! S i) with (l !! i).
    rewrite !list_lookup_fmap, Hp. repeat split.
    apply escapeHTML_escaped.
Qed.

(** C1 as stated fails on the first entry: a message key is stored and
    returned as it is, whatever characters it has. *)
Lemma toEscapedArray_key_not_escaped :
  new_ErrorMessage (JString "<b>") (JArray [JString "a&b"]) JUndefined
  = Ok (MkErrorMessage (JString "<b>") ["a&b"] JUndefined)
  /\ toEscapedArray (MkErrorMessage (JString "<b>") ["a&b"] JUndefined)
     = [JString "<b>"; JString "a&amp;b"]
  /\ forallb html_escaped_value
       (toEscapedArray (MkErrorMessage (JString "<b>") ["a&b"] JUndefined))
     = false.
Proof. repeat split. Qed.

(** C2, as the code has it.  Construction throws when [msgParams] is
    truthy and not an array, and when it is an array with an element that
    is not a string.  A falsy [msgParams] (left out, [undefined], [null],
    [0], the empty string) is not refused: it stands for the empty array.
    With a truthy [msgKey], construction succeeds for a falsy [msgParams]
    and for an array of strings, and stores the key, the strings and the
    original error. *)
Theorem new_ErrorMessage_checks (msgKey msgParams originalError : JsValue) :
  (truthy msgParams = true -> isArray msgParams = false ->
   throws (new_ErrorMessage msgKey msgParams originalError) = true)
  /\ (forall elems ele,
        msgParams = JArray elems -> ele ∈ elems ->
        String.eqb (typeof ele) "string" = false ->
        throws (new_ErrorMessage msgKey msgParams originalError) = true)
  /\ (truthy msgKey = true -> truthy msgParams = false ->
      new_ErrorMessage msgKey msgParams originalError
      = Ok (MkErrorMessage msgKey [] originalError))
  /\ (forall strs,
        truthy msgKey = true -> msgParams = JArray (JString <$> strs) ->
        new_ErrorMessage msgKey msgParams originalError
        = Ok (MkErrorMessage msgKey strs originalError)).
Proof.
  unfold new_ErrorMessage. repeat split.
  - intros Ht Ha. rewrite Ht, Ha. cbn. now destruct (truthy msgKey).
  - intros elems ele -> Hin Hty. cbn.
    rewrite (stringElements_not_string _ _ Hin Hty).
    now destruct (truthy msgKey).
  - intros Hk Hp. rewrite Hk, Hp. reflexivity.
  - intros strs Hk ->. rewrite Hk. cbn.
    now rewrite stringElements_strings.
Qed.

Lemma new_ErrorMessage_checks_witness :
  throws (new_ErrorMessage (JString "k") (JString "p") JUndefined) = true
  /\ throws (new_ErrorMessage (JString "k")
               (JArray [JString "p"; JNumber 1%float]) JUndefined) = true
  /\ new_ErrorMessage (JString "k") JUndefined JUndefined
     = Ok (MkErrorMessage (JString "k") [] JUndefined)
  /\ new_ErrorMessage (JString "k") (JArray (JString <$> ["p"; "q"])) JNull
     = Ok (MkErrorMessage (JString "k") ["p"; "q"] JNull).
Proof.
  split; [|split; [|split]].
  - apply (proj1 (new_ErrorMessage_checks (JString "k") (JString "p")
             JUndefined)); reflexivity.
  - apply (proj1 (proj2 (new_ErrorMessage_checks (JString "k")
             (JArray [JString "p"; JNumber 1%float]) JUndefined))
             [JString "p"; JNumber 1%float] (JNumber 1%float));
      [reflexivity | | reflexivity].
    apply list_elem_of_further, list_elem_of_here.
  - apply (proj1 (proj2 (proj2 (new_ErrorMessage_checks (JString "k")
             JUndefined JUndefined)))); reflexivity.
  - apply (proj2 (proj2 (proj2 (new_ErrorMessage_checks (JString "k")
             (JArray (JString <$> ["p"; "q"])) JNull))) ["p"; "q"]);
      reflexivity.
Defined.

(** C2 as stated fails for a [msgParams] that is not an array and falsy:
    nothing is thrown. *)
Lemma new_ErrorMessage_falsy_params_accepted :
  isArray JUndefined = false
  /\ new_ErrorMessage (JString "k") JUndefined JUndefined
     = Ok (MkErrorMessage (JString "k") [] JUndefined)
  /\ isArray (JNumber 0%float) = false
  /\ throws (new_ErrorMessage (JString "k") (JNumber 0%float) JUndefined)
     = false.
Proof. repeat split. Qed.

(** ** search.js: field lists *)

Section GetSearchOptions.
Context `{Languages}.

Lemma fieldPattern_inj (fieldPrefix : string) :
  forall lang1 lang2 : string,
    search.fieldPattern fieldPrefix lang1 = search.fieldPattern fieldPrefix lang2 ->
    lang1 = lang2.
Proof.
  unfold search.fieldPattern. intros lang1 lang2 Heq.
  apply String.app_inj in Heq. apply String.app_inj in Heq.
  revert lang2 Heq.
  induction lang1 as [|c1 l1 IH]; intros [|c2 l2] Heq; cbn in Heq.
  - reflexivity.
  - destruct l2; discriminate.
  - destruct l1; discriminate.
  - injection Heq as -> Heq. f_equal. now apply IH.
Qed.

Lemma fields_other_language (type fieldPrefix lang : string) :
  lang <> "en" ->
  search.fields (search.getSearchOptions type fieldPrefix lang)
  = search.fieldPattern fieldPrefix lang
    :: map (search.fieldPattern fieldPrefix) (getFallbacks lang).
Proof.
  intros Hne. unfold search.getSearchOptions; cbn.
  destruct (String.eqb_spec lang "en") as [->|_]; [done|reflexivity].
Qed.

Lemma fields_default_language (type fieldPrefix : string) :
  search.fields (search.getSearchOptions type fieldPrefix "en")
  = map (search.fieldPattern fieldPrefix) (getFallbacks "en").
Proof. reflexivity. Qed.

(** C3.  For [fr] the field list is the pattern of [fr] followed by the
    patterns of the fallback chain of [fr], in order.  When the requested
    language is the default language [en], nothing is put in front of its
    fallback chain: the pattern of [en] occurs in the field list as often
    as [en] occurs in the chain, so once for a chain that names the
    default language once. *)
Theorem getSearchOptions_fields (type fieldPrefix : string) :
  search.fields (search.getSearchOptions type fieldPrefix "fr")
  = search.fieldPattern fieldPrefix "fr"
    :: map (search.fieldPattern fieldPrefix) (getFallbacks "fr")
  /\ forall lang : string,
       lang = "en" ->
       search.fields (search.getSearchOptions type fieldPrefix lang)
       = map (search.fieldPattern fieldPrefix) (getFallbacks lang)
       /\ (count_occ String.eq_dec (getFallbacks lang) "en" = 1 ->
           count_occ String.eq_dec
             (search.fields (search.getSearchOptions type fieldPrefix lang))
             (search.fieldPattern fieldPrefix "en") = 1).
Proof.
  split.
  - now apply fields_other_language.
  - intros lang ->. split.
    + apply fields_default_language.
    + intros Hchain. rewrite fields_default_language.
      rewrite <- (count_occ_map (search.fieldPattern fieldPrefix)
                    String.eq_dec String.eq_dec (fieldPattern_inj fieldPrefix)).
      exact Hchain.
Qed.

End GetSearchOptions.

Lemma getSearchOptions_fields_witness :
  search.fields (search.getSearchOptions "things" "label" "fr")
  = ["label.fr*"; "label.en*"]
  /\ search.fields (search.getSearchOptions "things" "label" "en")
     = ["label.en*"]
  /\ count_occ String.eq_dec
       (search.fields (search.getSearchOptions "things" "label" "en"))
       "label.en*" = 1.
Proof.
  split; [|split].
  - exact (proj1 (@getSearchOptions_fields sampleLanguages "things" "label")).
  - exact (proj1 (proj2 (@getSearchOptions_fields sampleLanguages
                           "things" "label") "en" eq_refl)).
  - exact (proj2 (proj2 (@getSearchOptions_fields sampleLanguages
                           "things" "label") "en" eq_refl) eq_refl).
Defined.

(** ** search.js: indexing *)

Section Indexing.
Context `{MlString} `{search.Client}.

Lemma catch_and_log_fulfilled (p : Settled JsValue) (log : list LogEntry) :
  fulfilled (search.catch_and_log p log).1 = true.
Proof. now destruct p. Qed.

Lemma catch_and_log_log (p : Settled JsValue) (log : list LogEntry) :
  (search.catch_and_log p log).2
  = match p with
    | Fulfilled _ => log
    | Rejected error => log ++ [mkLogEntry None None error]
    end.
Proof. now destruct p. Qed.

Lemma submit_spec (request : search.IndexRequest) (st : search.State) :
  fulfilled (search.submit request st).1 = true
  /\ search.submitted (search.submit request st).2
     = search.submitted st ++ [request]
  /\ search.errorLog (search.submit request st).2
     = match search.client_index request with
       | Fulfilled _ => search.errorLog st
       | Rejected error => search.errorLog st ++ [mkLogEntry None None error]
       end.
Proof.
  unfold search.submit.
  pose proof (catch_and_log_fulfilled (search.client_index request)
                (search.errorLog st)) as Hf.
  pose proof (catch_and_log_log (search.client_index request)
                (search.errorLog st)) as Hl.
  destruct (search.catch_and_log _ _) as [p log]. cbn in *.
  now rewrite Hl.
Qed.

(** C4.  [indexReview] and [indexThing] hand one request to the client,
    whose free-text fields went through [stripHTML] (the title and the
    rendered text of a review; the label, the aliases and the description
    of a thing).  Whatever the client's promise settles with, the promise
    they return is fulfilled; a rejection leaves one entry in the
    diagnostic log and nothing else. *)
Theorem index_strips_and_never_rejects
  (review : Review.t) (thing : Thing.t) (st : search.State) :
  (exists request,
     search.submitted (search.indexReview review st).2
     = search.submitted st ++ [request]
     /\ search.body request
        = search.ReviewBody (Review.createdOn review)
            (stripHTML (Review.title review))
            (stripHTML (Review.html review))
            (Review.starRating review)
     /\ fulfilled (search.indexReview review st).1 = true
     /\ search.errorLog (search.indexReview review st).2
        = match search.client_index request with
          | Fulfilled _ => search.errorLog st
          | Rejected error =>
              search.errorLog st ++ [mkLogEntry None None error]
          end)
  /\ (exists request,
        search.submitted (search.indexThing thing st).2
        = search.submitted st ++ [request]
        /\ search.body request
           = search.ThingBody (Thing.createdOn thing)
               (stripHTML (Thing.label thing))
               (stripHTMLFromArray (Thing.aliases thing))
               (stripHTML (Thing.description thing))
               (Thing.urls thing) (Thing.urlID thing)
        /\ fulfilled (search.indexThing thing st).1 = true
        /\ search.errorLog (search.indexThing thing st).2
           = match search.client_index request with
             | Fulfilled _ => search.errorLog st
             | Rejected error =>
                 search.errorLog st ++ [mkLogEntry None None error]
             end).
Proof.
  split; eexists; unfold search.indexReview, search.indexThing;
    (split; [apply submit_spec|]);
    (split; [reflexivity|]);
    (split; apply submit_spec).
Qed.

End Indexing.

(** ** search.js: index mappings *)

Section Mappings.
Variable completionMapping : bool.

Let langField := search.langField completionMapping.

Lemma addLanguage_insert properties lang analyzer :
  search.addLanguage completionMapping properties (lang, analyzer)
  = <[lang := langField analyzer]> properties.
Proof.
  unfold search.addLanguage, langField, search.langField.
  now destruct completionMapping.
Qed.

(** The loop, from any properties built so far: later entries of the table
    overwrite earlier ones and what was there before. *)
Lemma foldl_addLanguage_lookup (table : list (string * string)) :
  forall (properties : gmap string mapping.LangField) (lang : string),
    foldl (search.addLanguage completionMapping) properties table !! lang
    = match (list_to_map (reverse table) : gmap string string) !! lang with
      | Some analyzer => Some (langField analyzer)
      | None => properties !! lang
      end.
Proof.
  induction table as [|[l a] table IH]; intros properties lang.
  - reflexivity.
  - cbn [foldl]. rewrite IH, addLanguage_insert, reverse_cons.
    rewrite list_to_map_app, lookup_union.
    destruct (list_to_map (reverse table) !! lang) as [a'|] eqn:E.
    + now rewrite union_Some_l.
    + rewrite (left_id None _). cbn.
      destruct (decide (l = lang)) as [->|Hne].
      * now rewrite !lookup_insert_eq.
      * now rewrite !lookup_insert_ne, lookup_empty by assumption.
Qed.

Lemma analyzers_NoDup : NoDup search.analyzers.*1.
Proof. apply (bool_decide_unpack _). vm_compute. exact I. Qed.

Lemma getMultilingualTextProperties_lookup (lang : string) :
  search.getMultilingualTextProperties completionMapping !! lang
  = langField <$> (list_to_map search.analyzers : gmap string string) !! lang.
Proof.
  unfold search.getMultilingualTextProperties.
  rewrite foldl_addLanguage_lookup, lookup_empty.
  rewrite (list_to_map_proper (reverse search.analyzers) search.analyzers).
  - now destruct (list_to_map search.analyzers !! lang).
  - rewrite fmap_reverse, reverse_Permutation. apply analyzers_NoDup.
  - apply reverse_Permutation.
Qed.

Lemma getMultilingualTextProperties_sub_fields
  (properties : gmap string mapping.LangField) :
  properties = search.getMultilingualTextProperties completionMapping ->
  search.subFieldLanguages properties = list_to_set search.analyzers.*1
  /\ size properties = 34
  /\ (forall lang : string,
        is_Some (properties !! lang) <-> lang ∈ search.analyzers.*1)
  /\ (forall (lang : string) (field : mapping.LangField),
        properties !! lang = Some field ->
        (lang, mapping.processed_analyzer (mapping.processed field))
          ∈ search.analyzers
        /\ mapping.type field = "text"
        /\ mapping.processed_type (mapping.processed field) = "text").
Proof.
  intros ->.
  assert (search.getMultilingualTextProperties completionMapping
          = langField <$> (list_to_map search.analyzers : gmap string string))
    as ->.
  { apply map_eq. intros lang.
    now rewrite getMultilingualTextProperties_lookup, lookup_fmap. }
  unfold search.subFieldLanguages.
  split; [|split; [|split]].
  - now rewrite dom_fmap_L, dom_list_to_map_L.
  - rewrite map_size_fmap, map_size_list_to_map by apply analyzers_NoDup.
    reflexivity.
  - intros lang. rewrite lookup_fmap, fmap_is_Some.
    rewrite <- elem_of_dom, dom_list_to_map_L. apply elem_of_list_to_set.
  - intros lang field. rewrite lookup_fmap.
    destruct (list_to_map search.analyzers !! lang) as [a|] eqn:E;
      [|discriminate].
    intros [= <-]. repeat split.
    now apply elem_of_list_to_map_2.
Qed.

End Mappings.

(** C8, as the code has it.  Each multilingual text field of the mappings
    of [createIndices()] has exactly one sub-field for every language of
    the table [analyzers], 34 of them: the languages ElasticSearch has a
    stemmer for, whether or not they are display languages of lib.reviews.
    Every sub-field is a text field with a [processed] sub-field that uses
    the analyzer the table gives for the language. *)
Theorem createIndices_sub_fields :
  Forall
    (fun '(name, properties) =>
       search.subFieldLanguages properties = list_to_set search.analyzers.*1
       /\ size properties = 34
       /\ (forall lang : string,
             is_Some (properties !! lang) <-> lang ∈ search.analyzers.*1)
       /\ (forall (lang : string) (field : mapping.LangField),
             properties !! lang = Some field ->
             (lang, mapping.processed_analyzer (mapping.processed field))
               ∈ search.analyzers
             /\ mapping.type field = "text"
             /\ mapping.processed_type (mapping.processed field) = "text"))
    (search.multilingualFields (mapping.mappings search.createIndicesRequest)).
Proof.
  unfold search.multilingualFields. cbn [mapping.mappings
    search.createIndicesRequest mapping.reviews_text mapping.reviews_title
    mapping.things_label mapping.things_aliases mapping.things_description].
  repeat (apply List.Forall_cons;
          [cbv beta iota;
           eapply getMultilingualTextProperties_sub_fields; reflexivity|]).
  apply List.Forall_nil.
Qed.

(** C8 as stated fails: the sub-fields are those of [analyzers], not those
    of the display languages.  On a site whose display languages are
    English, French and Esperanto, the text of a review has a sub-field
    for Thai, which is no display language, and none for Esperanto, which
    ElasticSearch has no stemmer for. *)
Lemma createIndices_sub_fields_not_display_languages :
  dom (@getAll sampleLanguages) = {[ "en"; "fr"; "eo" ]}
  /\ is_Some (mapping.reviews_text (mapping.mappings search.createIndicesRequest)
              !! "th")
  /\ mapping.reviews_text (mapping.mappings search.createIndicesRequest) !! "eo"
     = None
  /\ bool_decide
       (search.subFieldLanguages
          (mapping.reviews_text (mapping.mappings search.createIndicesRequest))
        = dom (@getAll sampleLanguages)) = false.
Proof.
  assert (mapping.reviews_text (mapping.mappings search.createIndicesRequest)
            !! "eo" = None) as Heo.
  { change (search.getMultilingualTextProperties false !! "eo" = None).
    rewrite getMultilingualTextProperties_lookup.
    now rewrite (not_elem_of_list_to_map_1 search.analyzers "eo")
      by (apply (bool_decide_unpack _); vm_compute; exact I). }
  split; [|split; [|split]].
  - apply (bool_decide_unpack _). vm_compute. exact I.
  - apply (getMultilingualTextProperties_sub_fields false _ eq_refl).
    apply (bool_decide_unpack _). vm_compute. exact I.
  - exact Heo.
  - apply bool_decide_eq_false. intros Heq.
    assert ("eo" ∈ dom (@getAll sampleLanguages)) as Hin
      by (apply (bool_decide_unpack _); vm_compute; exact I).
    rewrite <- Heq in Hin. unfold search.subFieldLanguages in Hin.
    apply elem_of_dom in Hin.
    rewrite Heo in Hin. now destruct Hin.
Qed.

(** ** Computations: what they leave alone *)

Section Keeps.
Context {S B : Type} (proj : S -> B).

Lemma keeps_ret {A} (a : A) : keeps proj (ret a).
Proof. now intros s. Qed.

Lemma keeps_throw {A} (e : JsValue) : keeps proj (throw (A := A) e).
Proof. now intros s. Qed.

Lemma keeps_await {A} (p : Settled A) : keeps proj (await p).
Proof. now destruct p. Qed.

Lemma keeps_bind {A C} (m : M S A) (f : A -> M S C) :
  keeps proj m -> (forall a, keeps proj (f a)) -> keeps proj (bind m f).
Proof.
  intros Hm Hf s. unfold bind. specialize (Hm s).
  destruct (m s) as [[a|e] s']; cbn in *.
  - now rewrite Hf.
  - exact Hm.
Qed.

Lemma keeps_catch {A} (m : M S A) (handler : JsValue -> M S A) :
  keeps proj m -> (forall e, keeps proj (handler e)) ->
  keeps proj (catch m handler).
Proof.
  intros Hm Hh s. unfold catch. specialize (Hm s).
  destruct (m s) as [[a|e] s']; cbn in *.
  - exact Hm.
  - now rewrite Hh.
Qed.

Lemma keeps_detached (m : M S unit) : keeps proj m -> keeps proj (detached m).
Proof. intros Hm. apply keeps_catch; [exact Hm|]. intros e. apply keeps_ret. Qed.

End Keeps.

Lemma keeps_onWorld {T A B} (proj : World -> B) (m : M World A) :
  keeps proj m -> keeps (fun s : T * World => proj s.2) (onWorld m).
Proof.
  intros Hm s. unfold onWorld. specialize (Hm s.2).
  now destruct (m s.2) as [r w].
Qed.

Lemma onWorld_object {T A} (m : M World A) :
  keeps (fun s : T * World => s.1) (onWorld m).
Proof. intros s. unfold onWorld. now destruct (m s.2). Qed.

Lemma keeps_withObject {T A B} (proj : World -> B) (t : T)
  (m : M (T * World) A) :
  keeps (fun s : T * World => proj s.2) m -> keeps proj (withObject t m).
Proof.
  intros Hm w. unfold withObject. specialize (Hm (t, w)).
  now destruct (m (t, w)) as [r s].
Qed.

Create HintDb keeps.
#[local] Hint Resolve keeps_ret keeps_throw keeps_await keeps_bind
  keeps_catch keeps_detached keeps_onWorld keeps_withObject : keeps.

(** The revision calls are only extended by [record]. *)
Lemma keeps_revisions_req_flash type : keeps revisions (req_flash type).
Proof. now intros w. Qed.

Lemma keeps_revisions_req_flash_add type msg :
  keeps revisions (req_flash_add type msg).
Proof. now intros w. Qed.

Lemma keeps_revisions_debug_error entry : keeps revisions (debug_error_M entry).
Proof. now intros w. Qed.

Lemma keeps_revisions_res_status code : keeps revisions (res_status code).
Proof. now intros w. Qed.

Lemma keeps_revisions_res_send s : keeps revisions (res_send s).
Proof. now intros w. Qed.

#[local] Hint Resolve keeps_revisions_req_flash keeps_revisions_req_flash_add
  keeps_revisions_debug_error keeps_revisions_res_status
  keeps_revisions_res_send : keeps.

Lemma appends_keeps {A} (m : M World A) : keeps revisions m -> appends [] m.
Proof. intros Hm w. now rewrite Hm, app_nil_r. Qed.

Lemma appends_record_bind {A} ev evs (k : unit -> M World A) :
  (forall a, appends evs (k a)) -> appends (ev :: evs) (bind (record ev) k).
Proof.
  intros Hk w. unfold bind. cbn [record]. rewrite Hk. cbn [revisions].
  now rewrite <- app_assoc.
Qed.

Lemma appends_await_fulfilled {A C} evs (v : A) (k : A -> M World C) :
  appends evs (k v) -> appends evs (bind (await (Fulfilled v)) k).
Proof. intros Hk w. exact (Hk w). Qed.

Lemma appends_catch {A} evs (m : M World A) (handler : JsValue -> M World A) :
  appends evs m -> (forall e, keeps revisions (handler e)) ->
  appends evs (catch m handler).
Proof.
  intros Hm Hh w. unfold catch. specialize (Hm w).
  destruct (m w) as [[a|e] w']; cbn in *.
  - exact Hm.
  - now rewrite Hh.
Qed.

Lemma appends_detached evs (m : M World unit) :
  appends evs m -> appends evs (detached m).
Proof. intros Hm. apply appends_catch; [exact Hm|]. intros e. apply keeps_ret. Qed.

Lemma detached_returns {S} (m : M S unit) (s : S) : (detached m s).1 = Ok tt.
Proof.
  unfold detached, catch. now destruct (m s) as [[[]|e] s'].
Qed.

Lemma catch_returned {S A} (m : M S A) (handler : JsValue -> M S A) (s : S) :
  throws (m s).1 = false -> catch m handler s = m s.
Proof.
  unfold catch. destruct (m s) as [[a|e] s']; [reflexivity|discriminate].
Qed.

Section RoutesKeep.
Context `{Languages} `{Runtime} `{ThingModel}.

Lemma keeps_revisions_template req view extraVars extraConfig :
  keeps revisions (render.template req view extraVars extraConfig).
Proof.
  unfold render.template.
  destruct (_ !! Req.locale req); [|apply keeps_throw].
  unfold res_render. auto 10 with keeps.
Qed.

Lemma keeps_revisions_flashErrorMessage req errorMessage context :
  keeps revisions (flashErrorMessage req errorMessage context).
Proof.
  unfold flashErrorMessage.
  destruct (_ && _); [destruct errorMessage|]; auto with keeps.
Qed.

Lemma keeps_revisions_sendThing req edit :
  keeps (fun s : Thing.t * World => revisions s.2) (things.sendThing req edit).
Proof.
  unfold things.sendThing.
  apply keeps_bind; [auto with keeps|]. intros pageErrors.
  apply keeps_bind.
  { intros s. unfold things.shiftURLs.
    now destruct (Thing.urls s.1) as [[|first others]|]. }
  intros _. apply keeps_bind.
  { destruct edit; [|apply keeps_ret].
    destruct (String.eqb _ _); [|apply keeps_ret].
    destruct (Req.user req); auto with keeps. }
  intros showLanguageNotice s.
  apply (keeps_onWorld revisions), keeps_revisions_template.
Qed.

End RoutesKeep.

(** ** routes/helpers/render.js *)

Section RenderFacts.
Context `{Languages} `{Runtime}.

(** With a locale of the language table, [template] renders the view and
    takes the site messages and errors out of the flash store. *)
Lemma template_renders req view extra extraConfig (w : World) :
  is_Some (getAll !! Req.locale req) ->
  exists vars,
    render.template req view extra extraConfig w
    = (Ok tt,
       {| flash := delete "siteErrors" (delete "siteMessages" (flash w));
          log := log w;
          res := {| statusCode := statusCode (res w);
                    sent := Some (Rendered view vars) |};
          revisions := revisions w |})
    /\ extraVars vars = extra.
Proof.
  intros [info Hinfo]. unfold render.template.
  rewrite Hinfo, lookup_insert_eq. eexists. split; reflexivity.
Qed.

Lemma permissionError_renders req extra (w : World) :
  is_Some (getAll !! Req.locale req) ->
  exists vars,
    render.permissionError req extra w
    = (Ok tt,
       {| flash := delete "siteErrors" (delete "siteMessages" (flash w));
          log := log w;
          res := {| statusCode := 403;
                    sent := Some (Rendered "permission-error" vars) |};
          revisions := revisions w |})
    /\ extraVars vars = extra.
Proof.
  intros Hlocale. unfold render.permissionError, bind.
  destruct (template_renders req "permission-error" extra None
              (res_status 403 w).2 Hlocale) as (vars & Heq & Hextra).
  exists vars. split; [|exact Hextra].
  cbn [res_status fst snd] in *. exact Heq.
Qed.

End RenderFacts.

(** ** routes/things.js: permission *)

Section Permission.
Context `{Languages} `{Runtime} `{ThingModel}.

(** C7.  A signed-in user requests [/thing/:id/edit/label] of a thing that
    exists and that the user may not edit, in a locale of the language
    table.  Both the GET and the POST handler return with status 403 and
    the view [permission-error] rendered, and without a call that creates
    or saves a revision. *)
Theorem edit_label_permission_denied
  (req : Req.t) (u : User.t) (thing : Thing.t) (w : World) :
  Req.user req = Some u ->
  getNotStaleOrDeleted (trim (Req.params_id req)) = Fulfilled thing ->
  Thing.userCanEdit (populateUserInfo (Req.user req) thing) = false ->
  is_Some (getAll !! Req.locale req) ->
  Forall
    (fun handler : Req.t -> M World unit =>
       exists vars,
         (handler req w).1 = Ok tt
         /\ res (handler req w).2
            = {| statusCode := 403;
                 sent := Some (Rendered "permission-error" vars) |}
         /\ extraVars vars = things.editLabelVars
         /\ revisions (handler req w).2 = revisions w)
    [things.get_thing_edit_label; things.post_thing_edit_label].
Proof.
  intros Huser Hthing Hedit Hlocale.
  destruct (permissionError_renders req things.editLabelVars w Hlocale)
    as (vars & Hrun & Hextra).
  assert (things.get_thing_edit_label req w
          = render.permissionError req things.editLabelVars w) as Hget.
  { unfold things.get_thing_edit_label.
    rewrite Huser in Hedit |- *.
    unfold catch, bind. rewrite Hthing. cbn [await ret].
    rewrite Hedit. cbn [negb]. now rewrite Hrun. }
  assert (things.post_thing_edit_label req w
          = render.permissionError req things.editLabelVars w) as Hpost.
  { unfold things.post_thing_edit_label.
    unfold catch, bind. rewrite Hthing. cbn [await ret].
    rewrite Hedit. cbn [negb]. now rewrite Hrun. }
  repeat apply List.Forall_cons; [| |apply List.Forall_nil]; exists vars.
  - rewrite Hget, Hrun. auto.
  - rewrite Hpost, Hrun. auto.
Qed.

End Permission.

Lemma edit_label_permission_denied_witness :
  Forall
    (fun handler : Req.t -> M World unit =>
       exists vars,
         (handler (sampleReq "bob" "POST" ∅) emptyWorld).1 = Ok tt
         /\ res (handler (sampleReq "bob" "POST" ∅) emptyWorld).2
            = {| statusCode := 403;
                 sent := Some (Rendered "permission-error" vars) |}
         /\ extraVars vars = things.editLabelVars
         /\ revisions (handler (sampleReq "bob" "POST" ∅) emptyWorld).2
            = revisions emptyWorld)
    [things.get_thing_edit_label; things.post_thing_edit_label].
Proof.
  apply (edit_label_permission_denied (sampleReq "bob" "POST" ∅)
           (User.mk "bob" None) sampleThing emptyWorld).
  - reflexivity.
  - reflexivity.
  - reflexivity.
  - eexists. vm_compute. reflexivity.
Defined.

(** ** routes/things.js: sendThing *)

Section SendThing.
Context `{Languages} `{Runtime} `{ThingModel}.

(** The object after [sendThing] is the object after its URL block,
    whether the rest of [sendThing] returns or throws. *)
Lemma sendThing_object req edit (thing : Thing.t) (w : World) :
  (things.sendThing req edit (thing, w)).2.1
  = (things.shiftURLs (thing, w)).2.1.
Proof.
  unfold things.sendThing, things.shiftURLs.
  unfold bind at 1 2. unfold onWorld at 1. cbn [req_flash fst snd].
  destruct (Thing.urls thing) as [[|first others]|];
    match goal with
    | |- (bind ?a ?f ?st).2.1 = _ =>
        assert (keeps (fun x : Thing.t * World => x.1) (bind a f)) as Hk;
          [|exact (Hk st)]
    end;
    (apply keeps_bind;
     [ destruct edit; [|apply keeps_ret];
       destruct (String.eqb _ _); [|apply keeps_ret];
       destruct (Req.user req); auto with keeps
     | intros showLanguageNotice x; apply onWorld_object ]).
Qed.

(** C10.  [sendThing] changes its argument [thing] as follows.  When
    [thing.urls] is a non-empty list, its first element is taken off the
    list and stored in [thing.mainURL], and [thing.otherURLs] is set to
    what remains when that is not empty, and left as it was otherwise.
    Every other property keeps its value, and a thing without URLs is not
    changed at all. *)
Theorem sendThing_mutates_urls
  (req : Req.t) (edit : option Edit) (thing : Thing.t) (w : World) :
  (forall (first : string) (others : list string),
     Thing.urls thing = Some (first :: others) ->
     (things.sendThing req edit (thing, w)).2.1
     = {| Thing.id := Thing.id thing;
          Thing.createdOn := Thing.createdOn thing;
          Thing.label := Thing.label thing;
          Thing.aliases := Thing.aliases thing;
          Thing.description := Thing.description thing;
          Thing.urls := Some others;
          Thing.urlID := Thing.urlID thing;
          Thing.mainURL := Some first;
          Thing.otherURLs :=
            if bool_decide (others = []) then Thing.otherURLs thing
            else Some others;
          Thing.userCanEdit := Thing.userCanEdit thing;
          Thing.rest := Thing.rest thing |})
  /\ (Thing.urls thing = None \/ Thing.urls thing = Some [] ->
      (things.sendThing req edit (thing, w)).2.1 = thing).
Proof.
  rewrite sendThing_object. unfold things.shiftURLs. cbn [fst snd]. split.
  - intros first others ->. now destruct others.
  - now intros [-> | ->].
Qed.

End SendThing.

Lemma sendThing_mutates_urls_witness :
  (things.sendThing (sampleReq "alice" "GET" ∅) None
     (sampleThing, emptyWorld)).2.1
  = {| Thing.id := "t1";
       Thing.createdOn := JString "2017-02-01";
       Thing.label := Some {[ "en" := "Hat"; "de" := "Hut" ]};
       Thing.aliases := None;
       Thing.description := None;
       Thing.urls := Some ["https://hut.example/"];
       Thing.urlID := JUndefined;
       Thing.mainURL := Some "https://hat.example/";
       Thing.otherURLs := Some ["https://hut.example/"];
       Thing.userCanEdit := false;
       Thing.rest := ∅ |}.
Proof.
  exact (proj1 (sendThing_mutates_urls (sampleReq "alice" "GET" ∅) None
                  sampleThing emptyWorld)
           "https://hat.example/" ["https://hut.example/"] eq_refl).
Defined.

(** ** routes/helpers/flash-error.js *)

Section FlashErrorFacts.
Context `{Runtime}.

(** C6.  [flashErrorMessage] knows two kinds of errors.  For an instance
    of [ErrorMessage] it flashes the message that [req.__] builds from the
    escaped array of the key and the parameters, and logs nothing.  For
    every value whose constructor is not named [ErrorMessage] (other
    objects, primitives, [null], [undefined]) it flashes the message of
    the key [unknown error] and sends the context, the request and the
    value to the diagnostic log. *)
Theorem flashErrorMessage_two_kinds
  (req : Req.t) (context : string) (w : World) :
  (forall em : ErrorMessage,
     flashErrorMessage req (JInstance em) context w
     = (Ok tt,
        {| flash :=
             <["errors" := default [] (flash w !! "errors")
                           ++ [__ (Req.locale req) (toEscapedArray em)]]>
               (flash w);
           log := log w; res := res w; revisions := revisions w |}))
  /\ (forall e : JsValue,
        constructor_name e <> Some "ErrorMessage" ->
        flashErrorMessage req e context w
        = (Ok tt,
           {| flash :=
                <["errors" := default [] (flash w !! "errors")
                              ++ [__ (Req.locale req) [JString "unknown error"]]]>
                  (flash w);
              log := log w ++ [mkLogEntry (Some context) (Some req) e];
              res := res w; revisions := revisions w |})).
Proof.
  split.
  - intros em. reflexivity.
  - intros e Hname. unfold flashErrorMessage.
    assert (truthy e
            && match constructor_name e with
               | Some name => String.eqb name "ErrorMessage"
               | None => false
               end = false) as ->.
    { destruct (constructor_name e) as [name|].
      - destruct (String.eqb_spec name "ErrorMessage") as [->|_];
          [done|apply andb_false_r].
      - apply andb_false_r. }
    reflexivity.
Qed.

End FlashErrorFacts.

Lemma flashErrorMessage_two_kinds_witness :
  flashErrorMessage (sampleReq "alice" "POST" ∅)
    (JInstance (MkErrorMessage (JString "invalid url") ["<x>"] JUndefined))
    "editing" emptyWorld
  = (Ok tt,
     {| flash := {[ "errors" := ["invalid url"] ]};
        log := []; res := res emptyWorld; revisions := [] |})
  /\ flashErrorMessage (sampleReq "alice" "POST" ∅) (Error "boom")
       "editing" emptyWorld
     = (Ok tt,
        {| flash := {[ "errors" := ["unknown error"] ]};
           log := [mkLogEntry (Some "editing")
                     (Some (sampleReq "alice" "POST" ∅)) (Error "boom")];
           res := res emptyWorld; revisions := [] |}).
Proof.
  split.
  - exact (proj1 (flashErrorMessage_two_kinds (sampleReq "alice" "POST" ∅)
                    "editing" emptyWorld)
             (MkErrorMessage (JString "invalid url") ["<x>"] JUndefined)).
  - assert (constructor_name (Error "boom") <> Some "ErrorMessage") as Hname
      by discriminate.
    exact (proj2 (flashErrorMessage_two_kinds (sampleReq "alice" "POST" ∅)
                    "editing" emptyWorld) (Error "boom") Hname).
Defined.

(** ** routes/things.js: editing a label *)

Section EditLabel.
Context `{Languages} `{Runtime} `{ThingModel}.

(** [setLabel] assigns one property of the label. *)
Lemma setLabel_label (body : gmap string string) (newRev : Thing.t) :
  default "undefined" (body !! "thing-label-language") <> "__proto__" ->
  Thing.label (things.setLabel body newRev)
  = Some (<[default "undefined" (body !! "thing-label-language")
            := escapeHTML_opt (body !! "thing-label")]>
            (default ∅ (Thing.label newRev))).
Proof.
  intros Hne. unfold things.setLabel. cbn [Thing.label].
  now destruct (String.eqb_spec
                  (default "undefined" (body !! "thing-label-language"))
                  "__proto__").
Qed.

Lemma setLabel_proto (body : gmap string string) (newRev : Thing.t) :
  default "undefined" (body !! "thing-label-language") = "__proto__" ->
  Thing.label (things.setLabel body newRev)
  = Some (default ∅ (Thing.label newRev)).
Proof.
  intros Heq. unfold things.setLabel. cbn [Thing.label].
  now rewrite Heq.
Qed.

Lemma setLabel_other_language (body : gmap string string) (newRev : Thing.t)
  (lang : string) :
  lang <> default "undefined" (body !! "thing-label-language") ->
  default ∅ (Thing.label (things.setLabel body newRev)) !! lang
  = default ∅ (Thing.label newRev) !! lang.
Proof.
  intros Hne.
  destruct (String.eqb_spec
              (default "undefined" (body !! "thing-label-language"))
              "__proto__") as [Heq|Hproto].
  - now rewrite setLabel_proto.
  - rewrite setLabel_label by exact Hproto. cbn [from_option id].
    now rewrite lookup_insert_ne.
Qed.

(** With permission and a new revision, the handler returns after one
    call of [newRevision] and one call of [save], on the new revision with
    its label set. *)
Lemma post_revision_calls (req : Req.t) (thing newRev : Thing.t) (w : World) :
  getNotStaleOrDeleted (trim (Req.params_id req)) = Fulfilled thing ->
  Thing.userCanEdit (populateUserInfo (Req.user req) thing) = true ->
  newRevision (Req.user req) (populateUserInfo (Req.user req) thing)
  = Fulfilled newRev ->
  (things.post_thing_edit_label req w).1 = Ok tt
  /\ revisions (things.post_thing_edit_label req w).2
     = revisions w
       ++ [NewRevision (Req.user req) (populateUserInfo (Req.user req) thing);
           Save (things.setLabel (Req.body req) newRev)].
Proof.
  intros Hthing Hedit Hrev. unfold things.post_thing_edit_label.
  rewrite Hthing.
  match goal with
  | |- context [catch (bind (await (Fulfilled thing)) ?f) ?h w] =>
      change (catch (bind (await (Fulfilled thing)) f) h w)
        with (catch (f thing) h w)
  end.
  cbv beta zeta. rewrite Hedit, Hrev. cbn [negb].
  rewrite catch_returned by now rewrite detached_returns.
  split; [apply detached_returns|].
  apply appends_detached, appends_catch.
  - apply appends_record_bind. intros _.
    apply appends_await_fulfilled.
    apply appends_detached, appends_catch.
    + apply appends_record_bind. intros _. apply appends_keeps.
      unfold res_redirect. auto with keeps.
    + intros e. apply keeps_bind; [apply keeps_revisions_flashErrorMessage|].
      intros _. apply keeps_withObject, keeps_revisions_sendThing.
  - intros e. apply keeps_bind; [apply keeps_revisions_flashErrorMessage|].
    intros _. apply keeps_withObject, keeps_revisions_sendThing.
Qed.

(** C5.  A POST to [/thing/:id/edit/label] with an empty body, by a user
    who may edit the thing, once the new revision exists: the revision
    handed to [save] has the label of the new revision with the one
    property ["undefined"] assigned (no field of the body names a
    language), and every translation for another language as the new
    revision had it; these are the translations of the thing when the new
    revision starts from the thing's label. *)
Theorem empty_body_keeps_label_translations
  (req : Req.t) (thing newRev : Thing.t) (w : World) :
  Req.body req = ∅ ->
  getNotStaleOrDeleted (trim (Req.params_id req)) = Fulfilled thing ->
  Thing.userCanEdit (populateUserInfo (Req.user req) thing) = true ->
  newRevision (Req.user req) (populateUserInfo (Req.user req) thing)
  = Fulfilled newRev ->
  exists saved : Thing.t,
    revisions (things.post_thing_edit_label req w).2
    = revisions w
      ++ [NewRevision (Req.user req) (populateUserInfo (Req.user req) thing);
          Save saved]
    /\ Thing.label saved
       = Some (<["undefined" := "undefined"]> (default ∅ (Thing.label newRev)))
    /\ (forall lang : string,
          lang <> "undefined" ->
          default ∅ (Thing.label saved) !! lang
          = default ∅ (Thing.label newRev) !! lang)
    /\ (Thing.label newRev
        = Thing.label (populateUserInfo (Req.user req) thing) ->
        forall lang : string,
          lang <> "undefined" ->
          default ∅ (Thing.label saved) !! lang
          = default ∅ (Thing.label (populateUserInfo (Req.user req) thing))
              !! lang).
Proof.
  intros Hbody Hthing Hedit Hrev.
  exists (things.setLabel (Req.body req) newRev).
  split; [now apply post_revision_calls|].
  assert (forall lang : string,
            lang <> "undefined" ->
            default ∅ (Thing.label (things.setLabel (Req.body req) newRev))
              !! lang
            = default ∅ (Thing.label newRev) !! lang) as Hframe.
  { intros lang Hne. apply setLabel_other_language.
    now rewrite Hbody, lookup_empty. }
  split; [|split].
  - rewrite setLabel_label by now rewrite Hbody, lookup_empty.
    rewrite Hbody, !lookup_empty. reflexivity.
  - exact Hframe.
  - intros <-. exact Hframe.
Qed.

End EditLabel.

Lemma empty_body_keeps_label_translations_witness :
  exists saved : Thing.t,
    revisions (things.post_thing_edit_label (sampleReq "alice" "POST" ∅)
                 emptyWorld).2
    = revisions emptyWorld
      ++ [NewRevision (Req.user (sampleReq "alice" "POST" ∅))
            (populateUserInfo (Req.user (sampleReq "alice" "POST" ∅))
               sampleThing);
          Save saved]
    /\ Thing.label saved
       = Some (<["undefined" := "undefined"]>
                 (default ∅ (Thing.label
                    (populateUserInfo (Req.user (sampleReq "alice" "POST" ∅))
                       sampleThing))))
    /\ (forall lang : string,
          lang <> "undefined" ->
          default ∅ (Thing.label saved) !! lang
          = default ∅ (Thing.label
              (populateUserInfo (Req.user (sampleReq "alice" "POST" ∅))
                 sampleThing)) !! lang)
    /\ (Thing.label (populateUserInfo (Req.user (sampleReq "alice" "POST" ∅))
                       sampleThing)
        = Thing.label (populateUserInfo (Req.user (sampleReq "alice" "POST" ∅))
                         sampleThing) ->
        forall lang : string,
          lang <> "undefined" ->
          default ∅ (Thing.label saved) !! lang
          = default ∅ (Thing.label
              (populateUserInfo (Req.user (sampleReq "alice" "POST" ∅))
                 sampleThing)) !! lang).
Proof.
  apply (empty_body_keeps_label_translations (sampleReq "alice" "POST" ∅)
           sampleThing
           (populateUserInfo (Req.user (sampleReq "alice" "POST" ∅))
              sampleThing)
           emptyWorld); reflexivity.
Defined.

Example empty_body_sample :
  revisions (things.post_thing_edit_label (sampleReq "alice" "POST" ∅)
               emptyWorld).2
  = [NewRevision (Some (User.mk "alice" None))
       (populateUserInfo (Some (User.mk "alice" None)) sampleThing);
     Save (things.setLabel ∅
             (populateUserInfo (Some (User.mk "alice" None)) sampleThing))]
  /\ Thing.label (things.setLabel ∅
       (populateUserInfo (Some (User.mk "alice" None)) sampleThing))
     = Some {[ "en" := "Hat"; "de" := "Hut"; "undefined" := "undefined" ]}
  /\ res (things.post_thing_edit_label (sampleReq "alice" "POST" ∅)
            emptyWorld).2
     = {| statusCode := 200; sent := Some (Redirected "/thing/t1") |}.
Proof.
  split; [reflexivity|split; [vm_compute; reflexivity|reflexivity]].
Qed.

(** ** The editor-switcher pin *)

Section Pin.
Import editor.

Lemma hasClass_addClass (c : string) (names : list string) (el : Element) :
  hasClass c (addClass names el) = hasClass c el || bool_decide (c ∈ names).
Proof.
  unfold hasClass, addClass. cbn [classes].
  generalize (classes el) as cs.
  induction names as [|n names IH]; intros cs; cbn [foldl].
  - rewrite (bool_decide_eq_false_2 (c ∈ [])) by apply not_elem_of_nil.
    now rewrite orb_false_r.
  - rewrite IH. apply eq_true_iff_eq.
    rewrite !orb_true_iff, !bool_decide_eq_true, elem_of_cons.
    destruct (bool_decide_reflect (n ∈ cs)) as [Hin|Hnin].
    + split; [tauto|]. intros [?|[->|?]]; tauto.
    + rewrite elem_of_app, list_elem_of_singleton. tauto.
Qed.

Lemma hasClass_removeClass (c : string) (names : list string) (el : Element) :
  hasClass c (removeClass names el)
  = hasClass c el && negb (bool_decide (c ∈ names)).
Proof.
  unfold hasClass, removeClass. cbn [classes]. apply eq_true_iff_eq.
  rewrite andb_true_iff, negb_true_iff, !bool_decide_eq_true,
    bool_decide_eq_false, list_elem_of_filter. tauto.
Qed.

Lemma hasClass_attr (c name : string) (value : option string) (el : Element) :
  hasClass c (attr name value el) = hasClass c el.
Proof. now destruct value. Qed.

Ltac class_simpl :=
  repeat first [ rewrite hasClass_attr
               | rewrite hasClass_addClass
               | rewrite hasClass_removeClass ].

Variable messages : gmap string string.

(** What a reply [newValue] makes of a pin: the pin shows that value, if
    the page has the message for its title. *)
Lemma restyled_pin_shows (value : bool) (pin : Element) :
  is_Some (messages !! (if value then "forget rte preference"
                        else "remember rte preference")) ->
  shows messages value
    (if value
     then attr "title" (messages !! "forget rte preference")
            (addClass ["editor-switcher-pinned"]
               (removeClass ["editor-switcher-unpinned"] pin))
     else attr "title" (messages !! "remember rte preference")
            (addClass ["editor-switcher-unpinned"]
               (removeClass ["editor-switcher-pinned"] pin)))
  /\ isPin
       (if value
        then attr "title" (messages !! "forget rte preference")
               (addClass ["editor-switcher-pinned"]
                  (removeClass ["editor-switcher-unpinned"] pin))
        else attr "title" (messages !! "remember rte preference")
               (addClass ["editor-switcher-unpinned"]
                  (removeClass ["editor-switcher-pinned"] pin)))
     = isPin pin.
Proof.
  intros [title Htitle]. unfold shows, isPin.
  destruct value; rewrite Htitle; class_simpl;
    cbn [attr attrs]; rewrite lookup_insert_eq;
    destruct (hasClass "editor-switcher-pinned" pin),
      (hasClass "editor-switcher-unpinned" pin),
      (hasClass "editor-switcher-pin" pin);
    (split; [split; [|split]|]); vm_compute; reflexivity.
Qed.

(** The spinner touches neither the pin classes nor the title. *)
Lemma spinner_keeps_pin (this k : nat) (timerFirst : bool)
  (page : list Element) (pin : Element) :
  page !! k = Some pin ->
  exists pin',
    unspin this (onTimeout this (negb timerFirst) page) !! k = Some pin'
    /\ isPin pin' = isPin pin.
Proof.
  intros Hk. unfold unspin, onTimeout, spin, onThis, isPin.
  destruct (decide (this = k)) as [->|Hne].
  - destruct timerFirst; cbn [negb].
    + rewrite !list_lookup_alter_eq, Hk. cbn [fmap option_fmap option_map].
      eexists; split; [reflexivity|].
      class_simpl.
      destruct (hasClass "editor-switcher-pin" pin); vm_compute; reflexivity.
    + rewrite !list_lookup_alter_eq, Hk. cbn [fmap option_fmap option_map].
      eexists; split; [reflexivity|].
      class_simpl.
      destruct (hasClass "editor-switcher-pin" pin); vm_compute; reflexivity.
  - exists pin. split; [|reflexivity].
    destruct timerFirst; cbn [negb];
      now rewrite !list_lookup_alter_ne by assumption.
Qed.

Lemma clickPin_done (this : nat) (timerFirst value : bool)
  (page : list Element) :
  clickPin messages this timerFirst
    (Done (if value then "true" else "false")) page
  = onPins
      (fun pin =>
         if value
         then attr "title" (messages !! "forget rte preference")
                (addClass ["editor-switcher-pinned"]
                   (removeClass ["editor-switcher-unpinned"] pin))
         else attr "title" (messages !! "remember rte preference")
                (addClass ["editor-switcher-unpinned"]
                   (removeClass ["editor-switcher-pinned"] pin)))
      (unspin this (onTimeout this (negb timerFirst) page)).
Proof. now destruct timerFirst, value. Qed.

(** After a click and its reply, every pin of the page is still a pin and
    shows the value of the reply. *)
Lemma clickPin_shows (this k : nat) (timerFirst value : bool)
  (page : list Element) (pin : Element) :
  is_Some (messages !! (if value then "forget rte preference"
                        else "remember rte preference")) ->
  page !! k = Some pin -> isPin pin = true ->
  exists pin',
    clickPin messages this timerFirst
      (Done (if value then "true" else "false")) page !! k = Some pin'
    /\ isPin pin' = true
    /\ shows messages value pin'.
Proof.
  intros Hmsg Hk Hpin. rewrite clickPin_done.
  destruct (spinner_keeps_pin this k timerFirst page pin Hk)
    as (pin1 & Hk1 & Hpin1).
  unfold onPins. rewrite list_lookup_fmap, Hk1. cbn [fmap option_fmap option_map].
  rewrite Hpin1, Hpin. eexists. split; [reflexivity|].
  destruct (restyled_pin_shows value pin1 Hmsg) as [Hshows Hpin'].
  split; [|exact Hshows]. now rewrite Hpin', Hpin1.
Qed.

Lemma clickPin_length this timerFirst reply (page : list Element) :
  length (clickPin messages this timerFirst reply page) = length page.
Proof.
  unfold clickPin, onReply, onTimeout, onPins, unspin, spin, onThis.
  destruct timerFirst, reply as [newValue|];
    try destruct (String.eqb newValue "true");
    now rewrite ?length_fmap, ?length_alter.
Qed.

End Pin.

(** C9.  The page and the server agree on the preference, every pin shows
    it, and the page has both titles.  After two toggles, by clicks on the
    elements at [this1] and [this2] and with the timer and the reply in
    either order each time, the server has the preference it had, and
    every pin of the page is a pin with the classes
    [editor-switcher-pinned] and [editor-switcher-unpinned] and the title
    it had. *)
Theorem toggle_twice_restores_pins
  (messages : gmap string string) (page : list editor.Element)
  (preference : bool) (this1 this2 : nat) (timerFirst1 timerFirst2 : bool) :
  is_Some (messages !! "forget rte preference") ->
  is_Some (messages !! "remember rte preference") ->
  (forall pin, pin ∈ page -> editor.isPin pin = true ->
     editor.shows messages preference pin) ->
  (editor.toggle messages this2 timerFirst2
     (editor.toggle messages this1 timerFirst1 (preference, page))).1
  = preference
  /\ forall (k : nat) (pin : editor.Element),
       page !! k = Some pin -> editor.isPin pin = true ->
       exists pin',
         (editor.toggle messages this2 timerFirst2
            (editor.toggle messages this1 timerFirst1 (preference, page))).2
           !! k = Some pin'
         /\ editor.isPin pin' = true
         /\ editor.hasClass "editor-switcher-pinned" pin'
            = editor.hasClass "editor-switcher-pinned" pin
         /\ editor.hasClass "editor-switcher-unpinned" pin'
            = editor.hasClass "editor-switcher-unpinned" pin
         /\ editor.attrs pin' !! "title" = editor.attrs pin !! "title".
Proof.
  intros Hforget Hremember Hshows.
  unfold editor.toggle, editor.togglePreference. cbn [fst snd].
  split; [apply negb_involutive|].
  intros k pin Hk Hpin.
  assert (forall value : bool,
            is_Some (messages !! (if value then "forget rte preference"
                                  else "remember rte preference"))) as Hmsg
    by now intros [].
  destruct (clickPin_shows messages this1 k timerFirst1 (negb preference)
              page pin (Hmsg _) Hk Hpin) as (pin1 & Hk1 & Hpin1 & _).
  destruct (clickPin_shows messages this2 k timerFirst2 (negb (negb preference))
              _ pin1 (Hmsg _) Hk1 Hpin1) as (pin2 & Hk2 & Hpin2 & Hshows2).
  exists pin2. split; [exact Hk2|]. split; [exact Hpin2|].
  rewrite negb_involutive in Hshows2.
  destruct (Hshows pin (list_elem_of_lookup_2 _ _ _ Hk) Hpin) as (Hp & Hu & Ht).
  destruct Hshows2 as (Hp2 & Hu2 & Ht2).
  now rewrite Hp, Hu, Ht, Hp2, Hu2, Ht2.
Qed.

Lemma toggle_twice_restores_pins_witness :
  (editor.toggle sampleMessages 2 false
     (editor.toggle sampleMessages 0 true (true, samplePage))).1 = true
  /\ forall (k : nat) (pin : editor.Element),
       samplePage !! k = Some pin -> editor.isPin pin = true ->
       exists pin',
         (editor.toggle sampleMessages 2 false
            (editor.toggle sampleMessages 0 true (true, samplePage))).2
           !! k = Some pin'
         /\ editor.isPin pin' = true
         /\ editor.hasClass "editor-switcher-pinned" pin'
            = editor.hasClass "editor-switcher-pinned" pin
         /\ editor.hasClass "editor-switcher-unpinned" pin'
            = editor.hasClass "editor-switcher-unpinned" pin
         /\ editor.attrs pin' !! "title" = editor.attrs pin !! "title".
Proof.
  apply (toggle_twice_restores_pins sampleMessages samplePage true 0 2
           true false).
  - eexists. vm_compute. reflexivity.
  - eexists. vm_compute. reflexivity.
  - intros pin Hin Hpin. unfold samplePage in Hin.
    repeat (apply elem_of_cons in Hin as [->|Hin]);
      [ | discriminate Hpin | | now apply elem_of_nil in Hin ];
      vm_compute; repeat split.
Defined.

(** C9 as stated, for every initial state of the pins, fails on a page
    that is out of step with the server.  The pins of the page are pinned
    and have the title for it, while the stored preference is [false]
    (it was switched off in another window).  The first toggle stores
    [true] and leaves the pins pinned, the second stores [false] again
    and unpins them: after two toggles the first pin is unpinned and has
    the other title. *)
Lemma toggle_twice_stale_page_not_restored :
  exists pin pin' : editor.Element,
    samplePage !! 0 = Some pin
    /\ editor.isPin pin = true
    /\ editor.hasClass "editor-switcher-pinned" pin = true
    /\ editor.hasClass "editor-switcher-unpinned" pin = false
    /\ editor.attrs pin !! "title" = Some "Forget my preference"
    /\ (editor.toggle sampleMessages 0 true
          (editor.toggle sampleMessages 0 true (false, samplePage))).1
       = false
    /\ (editor.toggle sampleMessages 0 true
          (editor.toggle sampleMessages 0 true (false, samplePage))).2 !! 0
       = Some pin'
    /\ editor.isPin pin' = true
    /\ editor.hasClass "editor-switcher-pinned" pin' = false
    /\ editor.hasClass "editor-switcher-unpinned" pin' = true
    /\ editor.attrs pin' !! "title" = Some "Remember my preference".
Proof.
  eexists. eexists.
  split; [reflexivity|].
  split; [vm_compute; reflexivity|].
  split; [vm_compute; reflexivity|].
  split; [vm_compute; reflexivity|].
  split; [vm_compute; reflexivity|].
  split; [vm_compute; reflexivity|].
  split; [vm_compute; reflexivity|].
  split; [vm_compute; reflexivity|].
  split; [vm_compute; reflexivity|].
  split; vm_compute; reflexivity.
Qed.

(** The first of the two toggles unpins both pins; the clicked one, whose
    timer came first, has its thumb tack back after the spinner. *)
Example toggle_once_sample :
  editor.classes
  <$> (editor.toggle sampleMessages 0 true (true, samplePage)).2
  = [ ["fa"; "editor-switcher-pin"; "fa-thumb-tack"; "editor-switcher-unpinned"];
      ["hidden"];
      ["fa"; "fa-thumb-tack"; "editor-switcher-pin"; "editor-switcher-unpinned"] ].
Proof. vm_compute. reflexivity. Qed.

(** * Further properties *)

(** ** The class ErrorMessage *)

Lemma stringElements_Some (elems : list JsValue) (strs : list string) :
  stringElements elems = Some strs -> elems = JString <$> strs.
Proof.
  revert strs. induction elems as [|ele rest IH]; intros strs; cbn.
  - now intros [= <-].
  - destruct (String.eqb (typeof ele) "string"); [|discriminate].
    destruct ele; try discriminate.
    destruct (stringElements rest) as [strs'|]; [|discriminate].
    intros [= <-]. cbn. now rewrite (IH strs').
Qed.

(** X1.  Construction succeeds exactly when the message key is truthy and
    the parameters are falsy or an array of strings. *)
Theorem new_ErrorMessage_succeeds_iff (k ps oe : JsValue) :
  throws (new_ErrorMessage k ps oe) = false
  <-> truthy k = true
      /\ (truthy ps = false \/ exists strs, ps = JArray (JString <$> strs)).
Proof.
  unfold new_ErrorMessage. split.
  - destruct (truthy k); [|discriminate]. cbn [negb].
    destruct (truthy ps) eqn:Hps; cbn [negb andb]; [|auto].
    destruct ps; try discriminate. cbn [isArray negb].
    destruct (stringElements elems) as [strs|] eqn:E; [|discriminate].
    intros _. split; [reflexivity|]. right. exists strs.
    now rewrite (stringElements_Some _ _ E).
  - intros [-> [Hps | [strs ->]]]; cbn [negb].
    + now rewrite Hps.
    + cbn. now rewrite stringElements_strings.
Qed.

(** X2.  A constructed message gives back what it was constructed from:
    [toArray()] is the key followed by the elements of the array passed as
    parameters, and the original error is stored as it is. *)
Theorem new_ErrorMessage_toArray (k oe : JsValue) (elems : list JsValue)
  (em : ErrorMessage) :
  new_ErrorMessage k (JArray elems) oe = Ok em ->
  toArray em = k :: elems /\ originalError em = oe /\ msgKey em = k.
Proof.
  unfold new_ErrorMessage. destruct (truthy k); [|discriminate]. cbn.
  destruct (stringElements elems) as [strs|] eqn:E; [|discriminate].
  intros [= <-]. unfold toArray. cbn.
  now rewrite (stringElements_Some _ _ E).
Qed.

Lemma new_ErrorMessage_toArray_witness :
  toArray (MkErrorMessage (JString "k") ["p"; "q"] JNull)
  = JString "k" :: [JString "p"; JString "q"]
  /\ originalError (MkErrorMessage (JString "k") ["p"; "q"] JNull) = JNull
  /\ msgKey (MkErrorMessage (JString "k") ["p"; "q"] JNull) = JString "k".
Proof.
  exact (new_ErrorMessage_toArray (JString "k") JNull
           [JString "p"; JString "q"]
           (MkErrorMessage (JString "k") ["p"; "q"] JNull) eq_refl).
Defined.

(** escape-html never shortens a string, and changes it exactly when it
    has one of the five characters. *)
Lemma string_length_app (s1 s2 : string) :
  String.length (s1 +:+ s2) = String.length s1 + String.length s2.
Proof.
  induction s1 as [|c s1 IH]; [reflexivity|].
  change (String c s1 +:+ s2) with (String c (s1 +:+ s2)).
  cbn [String.length]. now rewrite IH.
Qed.

Lemma escapeHTML_length (s : string) :
  String.length s <= String.length (escapeHTML s).
Proof.
  induction s as [|c s IH]; [reflexivity|].
  cbn [escapeHTML]. rewrite string_length_app. unfold escapeChar.
  repeat match goal with
         | |- context [if ?b then _ else _] => destruct b
         end;
    cbn [String.length]; lia.
Qed.

Lemma escapeChar_length (c : ascii) :
  String.length (escapeChar c) = 1 /\ needsEscape c = false
  /\ escapeChar c = String c ""
  \/ 4 <= String.length (escapeChar c) /\ needsEscape c = true.
Proof.
  unfold escapeChar, needsEscape.
  destruct (Ascii.eqb c dquote); [right; cbn; split; [lia|reflexivity]|].
  destruct (Ascii.eqb c "&"); [right; cbn; split; [lia|reflexivity]|].
  destruct (Ascii.eqb c "'"); [right; cbn; split; [lia|reflexivity]|].
  destruct (Ascii.eqb c "<"); [right; cbn; split; [lia|reflexivity]|].
  destruct (Ascii.eqb c ">"); [right; cbn; split; [lia|reflexivity]|].
  left. repeat split.
Qed.

Lemma escapeHTML_plain (s : string) :
  escapeHTML s = s <-> plainText s = true.
Proof.
  induction s as [|c s IH]; [easy|].
  cbn [escapeHTML plainText].
  destruct (escapeChar_length c) as [(_ & -> & ->)|[Hlen ->]]; cbn [negb andb].
  - change (String c "" +:+ escapeHTML s) with (String c (escapeHTML s)).
    rewrite <- IH. split; [now intros [= ->]|now intros ->].
  - split; [|discriminate]. intros Heq.
    apply (f_equal String.length) in Heq.
    rewrite string_length_app in Heq. cbn [String.length] in Heq.
    pose proof (escapeHTML_length s). lia.
Qed.

(** X3.  [toEscapedArray()] returns what [toArray()] returns exactly when
    no parameter has a double quote, an ampersand, an apostrophe, a
    less-than or a greater-than sign. *)
Theorem toEscapedArray_eq_toArray_iff (em : ErrorMessage) :
  toEscapedArray em = toArray em
  <-> forallb plainText (msgParams em) = true.
Proof.
  unfold toEscapedArray, toArray. generalize (msgParams em) as ps.
  intros ps. split.
  - intros Heq. apply (app_inv_head [msgKey em]) in Heq.
    induction ps as [|p ps IH]; [reflexivity|].
    cbn in Heq. injection Heq as Hp Hps. cbn.
    rewrite (proj1 (escapeHTML_plain p) Hp). now apply IH.
  - intros Hplain. f_equal.
    induction ps as [|p ps IH]; [reflexivity|].
    cbn in Hplain. apply andb_true_iff in Hplain as [Hp Hps].
    cbn. rewrite (proj2 (escapeHTML_plain p) Hp). f_equal. now apply IH.
Qed.

(** ** search.js: search and suggestion requests *)

Section SearchRequests.
Context `{Languages}.

Lemma append_star_inj (s1 s2 : string) : s1 +:+ "*" = s2 +:+ "*" -> s1 = s2.
Proof.
  revert s2. induction s1 as [|c1 s1 IH]; intros [|c2 s2] Heq; cbn in Heq.
  - reflexivity.
  - destruct s2; discriminate.
  - destruct s1; discriminate.
  - injection Heq as -> Heq. f_equal. now apply IH.
Qed.

Lemma string_app_assoc (s1 s2 s3 : string) :
  (s1 +:+ s2) +:+ s3 = s1 +:+ (s2 +:+ s3).
Proof.
  induction s1 as [|c s1 IH]; [reflexivity|].
  change (String c ((s1 +:+ s2) +:+ s3) = String c (s1 +:+ (s2 +:+ s3))).
  now rewrite IH.
Qed.

Lemma fieldPattern_star (fieldPrefix lang : string) :
  search.fieldPattern fieldPrefix lang = (fieldPrefix +:+ "." +:+ lang) +:+ "*".
Proof.
  unfold search.fieldPattern. now rewrite !string_app_assoc.
Qed.

Lemma dom_foldl_insert {V} (key : string -> string) (v : string -> V)
  (langs : list string) (acc : gmap string V) :
  dom (foldl (fun m lang => <[key lang := v lang]> m) acc langs)
  = dom acc ∪ list_to_set (key <$> langs).
Proof.
  revert acc. induction langs as [|lang langs IH]; intros acc; cbn.
  - now rewrite (right_id_L ∅ (∪)).
  - rewrite IH, dom_insert_L, (comm_L (∪) {[key lang]} (dom acc)).
    now rewrite <- (assoc_L (∪)).
Qed.

(** X4.  [getSearchOptions] highlights exactly the fields it searches: a
    field has an entry in [highlight.fields] if and only if its pattern,
    the name followed by [*], is in [fields]. *)
Theorem getSearchOptions_highlights_searched_fields
  (type fieldPrefix lang field : string) :
  is_Some (search.highlight_fields
             (search.highlight (search.getSearchOptions type fieldPrefix lang))
           !! field)
  <-> field +:+ "*"
      ∈ search.fields (search.getSearchOptions type fieldPrefix lang).
Proof.
  unfold search.getSearchOptions. cbn [search.fields search.highlight
    search.highlight_fields].
  generalize (if negb (String.eqb lang "en")
              then lang :: getFallbacks lang else getFallbacks lang) as langs.
  intros langs. rewrite <- elem_of_dom.
  rewrite (dom_foldl_insert (fun l => fieldPrefix +:+ "." +:+ l)
             (fun _ => tt)).
  rewrite dom_empty_L, (left_id_L ∅ (∪)), elem_of_list_to_set.
  rewrite list_elem_of_fmap, list_elem_of_In, in_map_iff. split.
  - intros (l & -> & Hl). exists l. split; [|now apply list_elem_of_In].
    now rewrite fieldPattern_star.
  - intros (l & Heq & Hl). exists l. split; [|now apply list_elem_of_In].
    rewrite fieldPattern_star in Heq. now apply append_star_inj.
Qed.

(** X5.  [searchThings] and [searchReviews] search the same languages in
    the same order, in the labels of things and in the texts of reviews,
    with the operator [and]; both ask for documents of type [things] in
    the index [libreviews], the reviews as children.  A search without a
    language is the search for [en]. *)
Theorem search_requests_cover_same_languages
  (query : string) (lang : option string) :
  exists langs : list string,
    langs = (if negb (String.eqb (default "en" lang) "en")
             then default "en" lang :: getFallbacks (default "en" lang)
             else getFallbacks (default "en" lang))
    /\ search.searchThingsRequest query lang
       = search.mkSearchRequest "libreviews" "things"
           (search.QueryBody
              (search.simple_query_string
                 (search.mkSimpleQueryString
                    (map (search.fieldPattern "label") langs) query "and"))
              (Some (search.highlight
                       (search.getSearchOptions "things" "label"
                          (default "en" lang)))))
    /\ search.searchReviewsRequest query lang
       = search.mkSearchRequest "libreviews" "things"
           (search.QueryBody
              (search.has_child "reviews"
                 (search.mkSimpleQueryString
                    (map (search.fieldPattern "text") langs) query "and")
                 (search.highlight
                    (search.getSearchOptions "reviews" "text"
                       (default "en" lang))))
              None)
    /\ search.searchThingsRequest query None
       = search.searchThingsRequest query (Some "en")
    /\ search.searchReviewsRequest query None
       = search.searchReviewsRequest query (Some "en").
Proof.
  eexists. split; [reflexivity|].
  unfold search.searchThingsRequest, search.searchReviewsRequest,
    search.getSearchOptions. cbn [search.fields].
  now destruct (String.eqb _ "en").
Qed.

Lemma lookup_foldl_insert {V} (key : string -> string) (v : string -> V)
  (langs : list string) (acc : gmap string V) (lang : string) :
  (forall l1 l2, key l1 = key l2 -> l1 = l2) ->
  foldl (fun m l => <[key l := v l]> m) acc langs !! key lang
  = if bool_decide (lang ∈ langs) then Some (v lang) else acc !! key lang.
Proof.
  intros Hinj. revert acc.
  induction langs as [|l langs IH]; intros acc; cbn [foldl].
  - rewrite bool_decide_eq_false_2; [reflexivity|apply not_elem_of_nil].
  - rewrite IH. destruct (bool_decide_reflect (lang ∈ langs)) as [Hin|Hnin].
    + rewrite bool_decide_eq_true_2; [reflexivity|now apply elem_of_cons; right].
    + destruct (decide (l = lang)) as [->|Hne].
      * rewrite lookup_insert_eq, bool_decide_eq_true_2;
          [reflexivity|apply list_elem_of_here].
      * rewrite lookup_insert_ne by (intros Heq; apply Hne, Hinj, Heq).
        rewrite bool_decide_eq_false_2; [reflexivity|].
        rewrite elem_of_cons. intros [->|?]; tauto.
Qed.

(** X6.  [suggestThing] asks for one completion per language of the list
    (the requested language, unless it is [en], then its fallbacks): the
    suggestions are those named [labels-] followed by such a language,
    each with the prefix (empty when left out) and the field
    [label.<language>.completion]. *)
Theorem suggestThing_one_completion_per_language
  (prefix lang : option string) :
  exists (langs : list string) (suggest : gmap string search.Suggestion),
    langs = (if negb (String.eqb (default "en" lang) "en")
             then default "en" lang :: getFallbacks (default "en" lang)
             else getFallbacks (default "en" lang))
    /\ search.suggestThingRequest prefix lang
       = search.mkSearchRequest "libreviews" "things"
           (search.SuggestBody suggest)
    /\ dom suggest = list_to_set ((fun l => "labels-" +:+ l) <$> langs)
    /\ forall l : string,
         l ∈ langs ->
         suggest !! ("labels-" +:+ l)
         = Some (search.mkSuggestion (default "" prefix)
                   ("label." +:+ l +:+ ".completion")).
Proof.
  eexists. eexists. split; [reflexivity|].
  split; [reflexivity|]. split.
  - rewrite (dom_foldl_insert (fun l => "labels-" +:+ l)
               (fun l => search.mkSuggestion (default "" prefix)
                           ("label." +:+ l +:+ ".completion"))).
    now rewrite dom_empty_L, (left_id_L ∅ (∪)).
  - intros l Hl.
    rewrite (lookup_foldl_insert (fun l => "labels-" +:+ l)
               (fun l => search.mkSuggestion (default "" prefix)
                           ("label." +:+ l +:+ ".completion")))
      by (intros l1 l2; apply String.app_inj).
    now rewrite bool_decide_eq_true_2.
Qed.

End SearchRequests.

(** ** search.js: completion fields of the mappings *)

(** X7.  In the mappings of [createIndices()] the labels and the aliases
    of things have, for each of their languages, a [completion] sub-field
    with the analyzer [label] and an input length of 256; the description
    of a thing and the title and the text of a review have none.  A
    language without a stemmer, for which [suggestThing] may still ask,
    has no field in the label mapping at all. *)
Theorem completion_fields_of_mappings (lang : string) (field : mapping.LangField) :
  (mapping.things_label (mapping.mappings search.createIndicesRequest) !! lang
     = Some field
   \/ mapping.things_aliases (mapping.mappings search.createIndicesRequest)
        !! lang = Some field ->
   mapping.completion field
   = Some (mapping.mkCompletion "completion" "label" 256))
  /\ (mapping.things_description (mapping.mappings search.createIndicesRequest)
        !! lang = Some field
      \/ mapping.reviews_title (mapping.mappings search.createIndicesRequest)
           !! lang = Some field
      \/ mapping.reviews_text (mapping.mappings search.createIndicesRequest)
           !! lang = Some field ->
      mapping.completion field = None)
  /\ (lang ∉ search.analyzers.*1 ->
      mapping.things_label (mapping.mappings search.createIndicesRequest)
        !! lang = None).
Proof.
  cbn [mapping.mappings search.createIndicesRequest mapping.things_label
       mapping.things_aliases mapping.things_description
       mapping.reviews_title mapping.reviews_text].
  rewrite !getMultilingualTextProperties_lookup.
  destruct (list_to_map search.analyzers !! lang) as [a|] eqn:E;
    cbn [fmap option_fmap option_map].
  - split; [|split].
    + now intros [[= <-]|[= <-]].
    + now intros [[= <-]|[[= <-]|[= <-]]].
    + intros Hnin. apply elem_of_list_to_map_2 in E.
      destruct Hnin. apply list_elem_of_fmap. now exists (lang, a).
  - split; [|split]; [intros [|]; discriminate
                     |intros [|[|]]; discriminate|reflexivity].
Qed.

Lemma completion_fields_of_mappings_witness :
  (mapping.things_label (mapping.mappings search.createIndicesRequest) !! "fr"
     = Some (search.langField true "french")
   \/ mapping.things_aliases (mapping.mappings search.createIndicesRequest)
        !! "fr" = Some (search.langField true "french") ->
   mapping.completion (search.langField true "french")
   = Some (mapping.mkCompletion "completion" "label" 256))
  /\ mapping.things_label (mapping.mappings search.createIndicesRequest)
       !! "eo" = None.
Proof.
  split.
  - exact (proj1 (completion_fields_of_mappings "fr"
                    (search.langField true "french"))).
  - apply (proj2 (proj2 (completion_fields_of_mappings "eo"
                           (search.langField true "french")))).
    apply (bool_decide_unpack _). vm_compute. exact I.
Defined.

(** ** search.js: deleting, creating the index *)

Section Deleting.
Context `{search.Searcher}.

(** X8.  [deleteThing] and [createIndices] return a promise that is
    fulfilled whatever the client's promise settles with; a rejection
    leaves exactly one entry in the diagnostic log, a success none. *)
Theorem deleteThing_createIndices_never_reject
  (thing : Thing.t) (create : mapping.CreateRequest -> Settled JsValue)
  (log : list LogEntry) :
  fulfilled (search.deleteThing thing log).1 = true
  /\ (search.deleteThing thing log).2
     = match search.client_delete
               (search.mkDeleteRequest "libreviews" "things" None
                  (Thing.id thing)) with
       | Fulfilled _ => log
       | Rejected error => log ++ [mkLogEntry None None error]
       end
  /\ fulfilled (search.createIndices create log).1 = true
  /\ (search.createIndices create log).2
     = match create search.createIndicesRequest with
       | Fulfilled _ => log
       | Rejected error => log ++ [mkLogEntry None None error]
       end.
Proof.
  unfold search.deleteThing, search.createIndices.
  repeat split; auto using catch_and_log_fulfilled, catch_and_log_log.
Qed.

(** X9.  [deleteReview] needs the thing of the review.  For a review
    without one, the call itself throws a [TypeError]: there is no promise,
    no request and no log entry.  With the thing, the request names the
    thing as the parent, and the promise is fulfilled whatever the client
    answers. *)
Theorem deleteReview_needs_thing
  (review : Review.t) (thing : Thing.t) (log : list LogEntry) :
  search.deleteReview review None log
  = (Throw (TypeError "Cannot read property 'id' of undefined"), log)
  /\ exists p : Settled JsValue,
       (search.deleteReview review (Some thing) log).1 = Ok p
       /\ fulfilled p = true
       /\ (search.deleteReview review (Some thing) log).2
          = match search.client_delete
                    (search.mkDeleteRequest "libreviews" "reviews"
                       (Some (Thing.id thing)) (Review.id review)) with
            | Fulfilled _ => log
            | Rejected error => log ++ [mkLogEntry None None error]
            end.
Proof.
  split; [reflexivity|]. unfold search.deleteReview.
  pose proof (catch_and_log_fulfilled
                (search.client_delete
                   (search.mkDeleteRequest "libreviews" "reviews"
                      (Some (Thing.id thing)) (Review.id review))) log) as Hf.
  pose proof (catch_and_log_log
                (search.client_delete
                   (search.mkDeleteRequest "libreviews" "reviews"
                      (Some (Thing.id thing)) (Review.id review))) log) as Hl.
  destruct (search.catch_and_log _ log) as [p log'].
  exists p. cbn in *. auto.
Qed.

End Deleting.

(** ** routes/helpers/render.js: what the view receives *)

Section RenderRuns.
Context `{Languages} `{Runtime}.

(** [render.template] with a locale of the language table, in full. *)
Lemma template_run req view extra extraConfig (w : World) (info : LangInfo) :
  getAll !! Req.locale req = Some info ->
  render.template req view extra extraConfig w
  = (Ok tt,
     {| flash := delete "siteErrors" (delete "siteMessages" (flash w));
        log := log w;
        res :=
          {| statusCode := statusCode (res w);
             sent :=
               Some (Rendered view
                 {| configScript :=
                      "window.config = "
                      +:+ JSON_stringify
                            (match extraConfig with
                             | Some extraC =>
                                 extraC ∪
                                 {[ "userName" :=
                                      match Req.user req with
                                      | Some u => JString (User.displayName u)
                                      | None => JUndefined
                                      end;
                                    "language" := JString (Req.locale req) ]}
                             | None =>
                                 {[ "userName" :=
                                      match Req.user req with
                                      | Some u => JString (User.displayName u)
                                      | None => JUndefined
                                      end;
                                    "language" := JString (Req.locale req) ]}
                             end)
                      +:+ ";";
                    extraVars := extra;
                    user := Req.user req;
                    scripts :=
                      match extra with
                      | Some {| extraScripts := Some more |} =>
                          ["lib.min.js"] ++ more
                      | _ => ["lib.min.js"]
                      end;
                    languages :=
                      <[Req.locale req := mkLangInfo (messageKey info) true]>
                        getAll;
                    currentLanguage :=
                      {| langKey := Req.locale req;
                         currentMessageKey := messageKey info;
                         currentLabel :=
                           __ (Req.locale req) [JString (messageKey info)] |};
                    csrfToken := Req.csrfToken req;
                    siteMessages := default [] (flash w !! "siteMessages");
                    siteErrors := default [] (flash w !! "siteErrors") |}) |};
        revisions := revisions w |}).
Proof.
  intros Hinfo. unfold render.template.
  rewrite Hinfo, lookup_insert_eq.
  unfold bind, res_render, res_send. cbn [req_flash flash log res revisions].
  rewrite (lookup_delete_ne (flash w) "siteMessages" "siteErrors")
    by discriminate.
  reflexivity.
Qed.

End RenderRuns.

Section RenderProperties.
Context `{Languages} `{Runtime}.

(** X10.  Site messages and site errors are shown once.  A render hands
    the view the messages flashed under [siteMessages] and [siteErrors]
    and takes them out of the flash store, leaving the messages of every
    other type; the next render finds none. *)
Theorem template_shows_site_messages_once
  (req req' : Req.t) (view view' : string) (extra extra' : option ExtraVars)
  (extraConfig extraConfig' : option (gmap string JsValue)) (w : World) :
  is_Some (getAll !! Req.locale req) ->
  is_Some (getAll !! Req.locale req') ->
  exists vars vars' : Vars,
    sent (res (render.template req view extra extraConfig w).2)
    = Some (Rendered view vars)
    /\ siteMessages vars = default [] (flash w !! "siteMessages")
    /\ siteErrors vars = default [] (flash w !! "siteErrors")
    /\ (forall type : string,
          type <> "siteMessages" -> type <> "siteErrors" ->
          flash (render.template req view extra extraConfig w).2 !! type
          = flash w !! type)
    /\ sent (res (render.template req' view' extra' extraConfig'
                    (render.template req view extra extraConfig w).2).2)
       = Some (Rendered view' vars')
    /\ siteMessages vars' = []
    /\ siteErrors vars' = [].
Proof.
  intros [info Hinfo] [info' Hinfo'].
  rewrite (template_run req view extra extraConfig w info Hinfo).
  cbn [snd]. rewrite (template_run req' view' extra' extraConfig' _ info' Hinfo').
  cbn [snd res sent flash].
  eexists. eexists. split; [reflexivity|]. cbn [siteMessages siteErrors].
  split; [reflexivity|]. split; [reflexivity|]. split.
  - intros type Hm He. now rewrite !lookup_delete_ne by congruence.
  - split; [reflexivity|].
    rewrite (lookup_delete_ne _ "siteErrors" "siteMessages") by discriminate.
    now rewrite !lookup_delete_eq.
Qed.

(** X11.  The language table handed to the view is that of
    [languages.getAll()] with one change: the entry of the request's
    locale is marked as the current language, with its message key
    kept.  The current language names that locale, its message key and
    the translation of the key, and the scripts are [lib.min.js]
    followed by the scripts of the extra variables. *)
Theorem template_marks_current_language
  (req : Req.t) (view : string) (extra : option ExtraVars)
  (extraConfig : option (gmap string JsValue)) (w : World) (info : LangInfo) :
  getAll !! Req.locale req = Some info ->
  exists vars : Vars,
    sent (res (render.template req view extra extraConfig w).2)
    = Some (Rendered view vars)
    /\ languages vars !! Req.locale req
       = Some (mkLangInfo (messageKey info) true)
    /\ (forall lang : string,
          lang <> Req.locale req -> languages vars !! lang = getAll !! lang)
    /\ dom (languages vars) = dom getAll
    /\ currentLanguage vars
       = mkCurrentLanguage (Req.locale req) (messageKey info)
           (__ (Req.locale req) [JString (messageKey info)])
    /\ scripts vars
       = "lib.min.js" :: default [] (extra ≫= extraScripts).
Proof.
  intros Hinfo. rewrite (template_run req view extra extraConfig w info Hinfo).
  cbn [snd res sent]. eexists. split; [reflexivity|].
  cbn [languages currentLanguage scripts].
  split; [apply lookup_insert_eq|]. split.
  - intros lang Hne. now rewrite lookup_insert_ne.
  - split.
    + rewrite dom_insert_L.
      apply subseteq_union_1_L, singleton_subseteq_l, elem_of_dom. eauto.
    + split; [reflexivity|].
      destruct extra as [[? ? ? ? ? ? [more|]]|]; reflexivity.
Qed.

(** X12.  A locale that the language table has no entry for, and that
    names no property that the table inherits as an object, makes
    [render.template] throw a [TypeError] before it reads the flash store
    and before it renders: the state is as it was.  [permissionError] has
    set the status 403 by then, and has rendered nothing. *)
Theorem template_unknown_locale
  (req : Req.t) (view : string) (extra : option ExtraVars)
  (extraConfig : option (gmap string JsValue)) (w : World) :
  getAll !! Req.locale req = None ->
  inheritedProperty (Req.locale req) = false ->
  render.template req view extra extraConfig w
  = (Throw (TypeError "Cannot read property 'messageKey' of undefined"), w)
  /\ render.permissionError req extra w
     = (Throw (TypeError "Cannot read property 'messageKey' of undefined"),
        {| flash := flash w; log := log w;
           res := {| statusCode := 403; sent := sent (res w) |};
           revisions := revisions w |}).
Proof.
  intros Hnone _.
  assert (forall w', render.template req view extra extraConfig w'
            = (Throw (TypeError "Cannot read property 'messageKey' of undefined"),
               w')) as Ht.
  { intros w'. unfold render.template. now rewrite Hnone, Hnone. }
  split; [apply Ht|].
  unfold render.permissionError, bind. cbn [res_status].
  unfold render.template. now rewrite Hnone, Hnone.
Qed.

End RenderProperties.

Lemma template_shows_site_messages_once_witness :
  exists vars vars' : Vars,
    sent (res (render.template (sampleReq "bob" "GET" ∅) "thing" None None
                 emptyWorld).2)
    = Some (Rendered "thing" vars)
    /\ siteMessages vars = default [] (flash emptyWorld !! "siteMessages")
    /\ siteErrors vars = default [] (flash emptyWorld !! "siteErrors")
    /\ (forall type : string,
          type <> "siteMessages" -> type <> "siteErrors" ->
          flash (render.template (sampleReq "bob" "GET" ∅) "thing" None None
                   emptyWorld).2 !! type
          = flash emptyWorld !! type)
    /\ sent (res (render.template (sampleReq "bob" "GET" ∅) "thing" None None
                    (render.template (sampleReq "bob" "GET" ∅) "thing" None
                       None emptyWorld).2).2)
       = Some (Rendered "thing" vars')
    /\ siteMessages vars' = []
    /\ siteErrors vars' = [].
Proof.
  apply (template_shows_site_messages_once (sampleReq "bob" "GET" ∅)
           (sampleReq "bob" "GET" ∅) "thing" "thing" None None None None
           emptyWorld); eexists; vm_compute; reflexivity.
Defined.

Lemma template_marks_current_language_witness :
  exists vars : Vars,
    sent (res (render.template (sampleReq "bob" "GET" ∅) "thing" None None
                 emptyWorld).2)
    = Some (Rendered "thing" vars)
    /\ languages vars !! "en" = Some (mkLangInfo "english" true)
    /\ (forall lang : string,
          lang <> "en" -> languages vars !! lang = getAll !! lang)
    /\ dom (languages vars) = dom getAll
    /\ currentLanguage vars = mkCurrentLanguage "en" "english" "english"
    /\ scripts vars = ["lib.min.js"].
Proof.
  assert (getAll !! Req.locale (sampleReq "bob" "GET" ∅)
          = Some (mkLangInfo "english" false)) as Hlocale
    by (vm_compute; reflexivity).
  exact (template_marks_current_language (sampleReq "bob" "GET" ∅) "thing"
           None None emptyWorld (mkLangInfo "english" false) Hlocale).
Defined.

Lemma template_unknown_locale_witness :
  render.template
    (Req.mk "t1" None ∅ "GET" "tlh" None) "thing" None None emptyWorld
  = (Throw (TypeError "Cannot read property 'messageKey' of undefined"),
     emptyWorld)
  /\ render.permissionError
       (Req.mk "t1" None ∅ "GET" "tlh" None) None emptyWorld
     = (Throw (TypeError "Cannot read property 'messageKey' of undefined"),
        {| flash := flash emptyWorld; log := log emptyWorld;
           res := {| statusCode := 403; sent := sent (res emptyWorld) |};
           revisions := revisions emptyWorld |}).
Proof.
  apply (template_unknown_locale (Req.mk "t1" None ∅ "GET" "tlh" None)
           "thing" None None emptyWorld); vm_compute; reflexivity.
Defined.

(** ** routes/things.js: what the handlers answer *)

Section ThingPages.
Context `{Languages} `{Runtime} `{ThingModel}.

Lemma shiftURLs_run (t : Thing.t) (w : World) :
  things.shiftURLs (t, w) = (Ok tt, (afterSendThing t, w)).
Proof.
  unfold things.shiftURLs, afterSendThing. cbn [fst snd].
  now destruct (Thing.urls t) as [[|first others]|].
Qed.

(** [sendThing] once its notice is computed: the page errors leave the
    flash store, the URL block runs, and the view [thing] is rendered
    with the thing as the URL block left it. *)
Lemma sendThing_run (req : Req.t) (ed : option Edit) (t : Thing.t)
  (w : World) (notice : bool) :
  match ed with
  | None => notice = false
  | Some _ =>
      if String.eqb (Req.method req) "GET"
      then exists u, Req.user req = Some u
                     /\ notice = match User.suppressedNotices u with
                                 | None => true
                                 | Some notices =>
                                     bool_decide
                                       ("language-notice-thing" ∉ notices)
                                 end
      else notice = false
  end ->
  things.sendThing req ed (t, w)
  = ((render.template req "thing"
        (Some {| deferHeader := Some (bool_decide (is_Some ed));
                 titleKey := edit_titleKey <$> ed;
                 thing := Some (afterSendThing t);
                 edit := ed;
                 pageErrors := Some (default [] (flash w !! "pageErrors"));
                 showLanguageNotice := Some notice;
                 extraScripts := None |})
        None
        {| flash := delete "pageErrors" (flash w); log := log w;
           res := res w; revisions := revisions w |}).1,
     (afterSendThing t,
      (render.template req "thing"
         (Some {| deferHeader := Some (bool_decide (is_Some ed));
                  titleKey := edit_titleKey <$> ed;
                  thing := Some (afterSendThing t);
                  edit := ed;
                  pageErrors := Some (default [] (flash w !! "pageErrors"));
                  showLanguageNotice := Some notice;
                  extraScripts := None |})
         None
         {| flash := delete "pageErrors" (flash w); log := log w;
            res := res w; revisions := revisions w |}).2)).
Proof.
  intros Hnotice.
  unfold things.sendThing.
  unfold bind at 1 2. unfold onWorld at 1. cbn [req_flash fst snd].
  rewrite shiftURLs_run.
  assert (forall (x : M (Thing.t * World) bool) (s : Thing.t * World),
            x s = (Ok notice, s) ->
            forall k : bool -> M (Thing.t * World) unit,
              bind x k s = k notice s) as Hbind.
  { intros x s Hx k. unfold bind. now rewrite Hx. }
  rewrite (Hbind _ _).
  - unfold onWorld. cbn [fst snd].
    now destruct (render.template _ _ _ _ _).
  - destruct ed as [e|]; [|now subst notice].
    destruct (String.eqb (Req.method req) "GET"); [|now subst notice].
    now destruct Hnotice as (u & -> & ->).
Qed.

Lemma flashErrorMessage_run (req : Req.t) (v : JsValue) (context : string)
  (w : World) :
  namedLikeErrorMessage v = false ->
  flashErrorMessage req v context w
  = (Ok tt,
     {| flash := <["errors" := default [] (flash w !! "errors")
                               ++ [flashedMessage req v]]> (flash w);
        log := log w ++ loggedError req context v;
        res := res w; revisions := revisions w |}).
Proof.
  intros Hv. unfold flashErrorMessage, flashedMessage, loggedError.
  destruct v as [| |b|x|s|elems|[name|] props|em]; cbn in *;
    rewrite ?andb_false_r, ?Hv, ?app_nil_r; reflexivity.
Qed.

(** X13.  Without a signed-in user, [GET /thing/:id/edit/label] renders
    the view [signin-required] with the status code as it was (no 401 or
    403 is set), whether or not the thing exists: the thing is not looked
    up. *)
Theorem edit_label_page_asks_to_sign_in (req : Req.t) (w : World) :
  Req.user req = None ->
  is_Some (getAll !! Req.locale req) ->
  exists vars : Vars,
    things.get_thing_edit_label req w
    = (Ok tt,
       {| flash := delete "siteErrors" (delete "siteMessages" (flash w));
          log := log w;
          res := {| statusCode := statusCode (res w);
                    sent := Some (Rendered "signin-required" vars) |};
          revisions := revisions w |})
    /\ extraVars vars = things.editLabelVars
    /\ user vars = None.
Proof.
  intros Huser [info Hinfo]. unfold things.get_thing_edit_label.
  rewrite Huser. unfold render.signinRequired.
  rewrite (template_run req _ _ _ w info Hinfo). rewrite Huser.
  eexists. split; [reflexivity|]. split; reflexivity.
Qed.

(** X14.  [GET /thing/:id/edit/label] by a user who may edit the thing
    renders the view [thing] in edit mode, with the status code as it
    was.  The language notice is shown unless the user has suppressed
    [language-notice-thing]; the page errors are taken out of the flash
    store; the thing is shown after the URL block of [sendThing]. *)
Theorem edit_label_page_for_editor
  (req : Req.t) (u : User.t) (t : Thing.t) (w : World) :
  Req.method req = "GET" ->
  Req.user req = Some u ->
  getNotStaleOrDeleted (trim (Req.params_id req)) = Fulfilled t ->
  Thing.userCanEdit (populateUserInfo (Req.user req) t) = true ->
  is_Some (getAll !! Req.locale req) ->
  exists vars : Vars,
    (things.get_thing_edit_label req w).1 = Ok tt
    /\ res (things.get_thing_edit_label req w).2
       = {| statusCode := statusCode (res w);
            sent := Some (Rendered "thing" vars) |}
    /\ extraVars vars
       = Some {| deferHeader := Some true;
                 titleKey := Some "edit label";
                 thing :=
                   Some (afterSendThing (populateUserInfo (Req.user req) t));
                 edit := Some (mkEdit true "edit label");
                 pageErrors := Some (default [] (flash w !! "pageErrors"));
                 showLanguageNotice :=
                   Some match User.suppressedNotices u with
                        | None => true
                        | Some notices =>
                            bool_decide ("language-notice-thing" ∉ notices)
                        end;
                 extraScripts := None |}
    /\ flash (things.get_thing_edit_label req w).2 !! "pageErrors" = None
    /\ revisions (things.get_thing_edit_label req w).2 = revisions w.
Proof.
  intros Hmethod Huser Hthing Hedit [info Hinfo].
  unfold things.get_thing_edit_label. rewrite Huser in Hedit |- *.
  unfold catch, bind. rewrite Hthing. cbn [await ret].
  rewrite Hedit. cbn [negb]. unfold withObject.
  rewrite (sendThing_run req _ _ w
             match User.suppressedNotices u with
             | None => true
             | Some notices => bool_decide ("language-notice-thing" ∉ notices)
             end)
    by (rewrite Hmethod; cbn; eauto).
  rewrite (template_run req _ _ _ _ info Hinfo). cbn.
  eexists. split; [reflexivity|]. split; [reflexivity|].
  split; [reflexivity|]. split; [|reflexivity].
  rewrite !lookup_delete_ne by discriminate. apply lookup_delete_eq.
Qed.

(** X15.  [GET /thing/:id] renders the view [thing] for every visitor,
    signed in or not: not in edit mode, without the language notice, with
    the status code as it was, and without a revision call. *)
Theorem thing_page_for_everyone (req : Req.t) (t : Thing.t) (w : World) :
  getNotStaleOrDeleted (trim (Req.params_id req)) = Fulfilled t ->
  is_Some (getAll !! Req.locale req) ->
  exists vars : Vars,
    (things.get_thing req w).1 = Ok tt
    /\ res (things.get_thing req w).2
       = {| statusCode := statusCode (res w);
            sent := Some (Rendered "thing" vars) |}
    /\ extraVars vars
       = Some {| deferHeader := Some false;
                 titleKey := None;
                 thing :=
                   Some (afterSendThing (populateUserInfo (Req.user req) t));
                 edit := None;
                 pageErrors := Some (default [] (flash w !! "pageErrors"));
                 showLanguageNotice := Some false;
                 extraScripts := None |}
    /\ user vars = Req.user req
    /\ revisions (things.get_thing req w).2 = revisions w.
Proof.
  intros Hthing [info Hinfo]. unfold things.get_thing.
  unfold catch, bind. rewrite Hthing. cbn [await ret]. unfold withObject.
  rewrite (sendThing_run req None _ w false) by reflexivity.
  rewrite (template_run req _ _ _ _ info Hinfo). cbn.
  eexists. repeat split.
Qed.

Lemma detached_record (ev : RevisionEvent) (k : unit -> M World unit)
  (handler : JsValue -> M World unit) (w : World) :
  detached (catch (bind (record ev) k) handler) w
  = detached (catch (k tt) handler) (record ev w).2.
Proof. reflexivity. Qed.

Lemma detached_detached {S} (m : M S unit) (handler : JsValue -> M S unit)
  (s : S) :
  detached (catch (detached m) handler) s = detached m s.
Proof.
  pose proof (detached_returns m s) as Hret.
  unfold detached at 1. unfold catch at 1 2.
  destruct (detached m s) as [r s']. cbn in Hret. now subst r.
Qed.

(** The POST handler up to the call of [save]. *)
Lemma post_run_to_save (req : Req.t) (t newRev : Thing.t) (w : World) :
  getNotStaleOrDeleted (trim (Req.params_id req)) = Fulfilled t ->
  Thing.userCanEdit (populateUserInfo (Req.user req) t) = true ->
  newRevision (Req.user req) (populateUserInfo (Req.user req) t)
  = Fulfilled newRev ->
  things.post_thing_edit_label req w
  = detached
      (catch
         (bind (await (save (things.setLabel (Req.body req) newRev)))
            (fun _ => res_redirect ("/thing/" +:+ trim (Req.params_id req))))
         (fun error =>
            bind (flashErrorMessage req (resolveError error)
                    "editing label - saving")
              (fun _ =>
                 withObject
                   (if newRevisionIsThing (Req.user req)
                         (populateUserInfo (Req.user req) t)
                    then things.setLabel (Req.body req) newRev
                    else populateUserInfo (Req.user req) t)
                   (things.sendThing req None))))
      {| flash := flash w; log := log w; res := res w;
         revisions :=
           revisions w
           ++ [NewRevision (Req.user req) (populateUserInfo (Req.user req) t);
               Save (things.setLabel (Req.body req) newRev)] |}.
Proof.
  intros Hthing Hedit Hrev. unfold things.post_thing_edit_label.
  rewrite Hthing.
  match goal with
  | |- context [catch (bind (await (Fulfilled t)) ?f) ?h w] =>
      change (catch (bind (await (Fulfilled t)) f) h w)
        with (catch (f t) h w)
  end.
  cbv beta zeta. rewrite Hedit, Hrev. cbn [negb].
  rewrite catch_returned by now rewrite detached_returns.
  rewrite detached_record. cbv beta.
  match goal with
  | |- context [bind (await (Fulfilled newRev)) ?k] =>
      change (bind (await (Fulfilled newRev)) k) with (k newRev)
  end.
  cbv beta zeta. rewrite detached_detached, detached_record.
  cbn [record snd revisions flash log res]. now rewrite <- app_assoc.
Qed.

(** X16.  When the new revision is saved, the POST handler redirects to
    the page of the thing, under the trimmed id.  Nothing is flashed or
    logged, the status code is as it was, and [newRevision] and [save]
    were called once each. *)
Theorem edit_label_saved_redirects
  (req : Req.t) (t newRev saved : Thing.t) (w : World) :
  getNotStaleOrDeleted (trim (Req.params_id req)) = Fulfilled t ->
  Thing.userCanEdit (populateUserInfo (Req.user req) t) = true ->
  newRevision (Req.user req) (populateUserInfo (Req.user req) t)
  = Fulfilled newRev ->
  save (things.setLabel (Req.body req) newRev) = Fulfilled saved ->
  things.post_thing_edit_label req w
  = (Ok tt,
     {| flash := flash w; log := log w;
        res := {| statusCode := statusCode (res w);
                  sent := Some (Redirected
                                  ("/thing/" +:+ trim (Req.params_id req))) |};
        revisions :=
          revisions w
          ++ [NewRevision (Req.user req) (populateUserInfo (Req.user req) t);
              Save (things.setLabel (Req.body req) newRev)] |}).
Proof.
  intros Hthing Hedit Hrev Hsave.
  rewrite (post_run_to_save req t newRev w Hthing Hedit Hrev).
  unfold detached, catch, bind. now rewrite Hsave.
Qed.

(** X17.  When [save] rejects, the POST handler flashes the error that
    [Thing.resolveError] makes of the rejection, under the type [errors],
    and renders the page of the thing with the status code as it was.
    The page shows the object that was looked up, as it is by then: the
    thing as it was looked up when [newRevision] resolved with a copy,
    and the revision with the submitted label when [newRevision] resolved
    with the thing itself.  It shows the page errors that were in the
    flash store before: the message just flashed stays in the store. *)
Theorem edit_label_save_rejected
  (req : Req.t) (t newRev : Thing.t) (error : JsValue) (w : World) :
  getNotStaleOrDeleted (trim (Req.params_id req)) = Fulfilled t ->
  Thing.userCanEdit (populateUserInfo (Req.user req) t) = true ->
  newRevision (Req.user req) (populateUserInfo (Req.user req) t)
  = Fulfilled newRev ->
  save (things.setLabel (Req.body req) newRev) = Rejected error ->
  namedLikeErrorMessage (resolveError error) = false ->
  is_Some (getAll !! Req.locale req) ->
  exists vars : Vars,
    (things.post_thing_edit_label req w).1 = Ok tt
    /\ res (things.post_thing_edit_label req w).2
       = {| statusCode := statusCode (res w);
            sent := Some (Rendered "thing" vars) |}
    /\ extraVars vars
       = Some {| deferHeader := Some false;
                 titleKey := None;
                 thing :=
                   Some (afterSendThing
                           (if newRevisionIsThing (Req.user req)
                                 (populateUserInfo (Req.user req) t)
                            then things.setLabel (Req.body req) newRev
                            else populateUserInfo (Req.user req) t));
                 edit := None;
                 pageErrors := Some (default [] (flash w !! "pageErrors"));
                 showLanguageNotice := Some false;
                 extraScripts := None |}
    /\ flash (things.post_thing_edit_label req w).2 !! "errors"
       = Some (default [] (flash w !! "errors")
               ++ [flashedMessage req (resolveError error)])
    /\ log (things.post_thing_edit_label req w).2
       = log w ++ loggedError req "editing label - saving" (resolveError error)
    /\ revisions (things.post_thing_edit_label req w).2
       = revisions w
         ++ [NewRevision (Req.user req) (populateUserInfo (Req.user req) t);
             Save (things.setLabel (Req.body req) newRev)].
Proof.
  intros Hthing Hedit Hrev Hsave Hnamed [info Hinfo].
  destruct (things.post_thing_edit_label req w) as [r w'] eqn:E.
  rewrite (post_run_to_save req t newRev w Hthing Hedit Hrev) in E.
  unfold detached, catch in E. unfold bind at 1 in E. rewrite Hsave in E.
  cbn [await throw] in E.
  unfold bind in E. rewrite flashErrorMessage_run in E by exact Hnamed.
  unfold withObject in E.
  rewrite (sendThing_run req None _ _ false) in E by reflexivity.
  rewrite (template_run req _ _ _ _ info Hinfo) in E. cbn in E.
  injection E as <- <-. cbn.
  eexists. split; [reflexivity|]. split; [reflexivity|].
  split.
  - rewrite lookup_insert_ne by discriminate. reflexivity.
  - split; [|split; reflexivity].
    rewrite !lookup_delete_ne by discriminate. apply lookup_insert_eq.
Qed.

(** X18.  When [newRevision] rejects, [save] is never called.  The
    rejection itself (it does not go through [Thing.resolveError]) is
    flashed under [errors], and the page of the thing is rendered with the
    status code as it was. *)
Theorem edit_label_no_revision_no_save
  (req : Req.t) (t : Thing.t) (error : JsValue) (w : World) :
  getNotStaleOrDeleted (trim (Req.params_id req)) = Fulfilled t ->
  Thing.userCanEdit (populateUserInfo (Req.user req) t) = true ->
  newRevision (Req.user req) (populateUserInfo (Req.user req) t)
  = Rejected error ->
  namedLikeErrorMessage error = false ->
  is_Some (getAll !! Req.locale req) ->
  exists vars : Vars,
    (things.post_thing_edit_label req w).1 = Ok tt
    /\ res (things.post_thing_edit_label req w).2
       = {| statusCode := statusCode (res w);
            sent := Some (Rendered "thing" vars) |}
    /\ thing <$> extraVars vars
       = Some (Some (afterSendThing (populateUserInfo (Req.user req) t)))
    /\ flash (things.post_thing_edit_label req w).2 !! "errors"
       = Some (default [] (flash w !! "errors") ++ [flashedMessage req error])
    /\ log (things.post_thing_edit_label req w).2
       = log w
         ++ loggedError req "editing label - creating new revision" error
    /\ revisions (things.post_thing_edit_label req w).2
       = revisions w
         ++ [NewRevision (Req.user req) (populateUserInfo (Req.user req) t)].
Proof.
  intros Hthing Hedit Hrev Hnamed [info Hinfo].
  destruct (things.post_thing_edit_label req w) as [r w'] eqn:E.
  unfold things.post_thing_edit_label in E. rewrite Hthing in E.
  match type of E with
  | context [catch (bind (await (Fulfilled t)) ?f) ?h w] =>
      change (catch (bind (await (Fulfilled t)) f) h w)
        with (catch (f t) h w) in E
  end.
  cbv beta zeta in E. rewrite Hedit, Hrev in E. cbn [negb] in E.
  rewrite catch_returned in E by now rewrite detached_returns.
  rewrite detached_record in E. cbv beta in E.
  unfold detached, catch in E. unfold bind at 1 in E.
  cbn [await throw record snd] in E.
  unfold bind in E. rewrite flashErrorMessage_run in E by exact Hnamed.
  unfold withObject in E.
  rewrite (sendThing_run req None _ _ false) in E by reflexivity.
  rewrite (template_run req _ _ _ _ info Hinfo) in E. cbn in E.
  injection E as <- <-. cbn.
  eexists. split; [reflexivity|]. split; [reflexivity|].
  split.
  - rewrite lookup_insert_ne by discriminate. reflexivity.
  - split; [|split; reflexivity].
    rewrite !lookup_delete_ne by discriminate. apply lookup_insert_eq.
Qed.

(** X19.  The POST handler stores the submitted label under the submitted
    language: in the revision handed to [save], the translation for that
    language is the label passed through [escapeHTML], an HTML-escaped
    string, and every other translation is as the new revision had it.
    A field that is missing from the body counts as the string
    [undefined].  The one language that stores nothing is [__proto__]:
    the translations handed to [save] are then those of the new
    revision. *)
Theorem edit_label_stores_escaped_label
  (req : Req.t) (t newRev : Thing.t) (w : World) :
  getNotStaleOrDeleted (trim (Req.params_id req)) = Fulfilled t ->
  Thing.userCanEdit (populateUserInfo (Req.user req) t) = true ->
  newRevision (Req.user req) (populateUserInfo (Req.user req) t)
  = Fulfilled newRev ->
  exists saved : Thing.t,
    revisions (things.post_thing_edit_label req w).2
    = revisions w
      ++ [NewRevision (Req.user req) (populateUserInfo (Req.user req) t);
          Save saved]
    /\ (default "undefined" (Req.body req !! "thing-label-language")
        <> "__proto__" ->
        default ∅ (Thing.label saved)
          !! default "undefined" (Req.body req !! "thing-label-language")
        = Some (escapeHTML
                  (default "undefined" (Req.body req !! "thing-label"))))
    /\ (default "undefined" (Req.body req !! "thing-label-language")
        = "__proto__" ->
        Thing.label saved = Some (default ∅ (Thing.label newRev)))
    /\ html_escaped
         (escapeHTML (default "undefined" (Req.body req !! "thing-label")))
       = true
    /\ (forall lang : string,
          lang <> default "undefined" (Req.body req !! "thing-label-language") ->
          default ∅ (Thing.label saved) !! lang
          = default ∅ (Thing.label newRev) !! lang)
    /\ Thing.urls saved = Thing.urls newRev
    /\ Thing.description saved = Thing.description newRev
    /\ Thing.aliases saved = Thing.aliases newRev.
Proof.
  intros Hthing Hedit Hrev.
  exists (things.setLabel (Req.body req) newRev).
  split; [now apply post_revision_calls|].
  split.
  { intros Hne. rewrite setLabel_label by exact Hne.
    cbn [from_option id]. rewrite lookup_insert_eq.
    now destruct (Req.body req !! "thing-label"). }
  split; [apply setLabel_proto|].
  split; [apply escapeHTML_escaped|].
  split; [|repeat split].
  intros lang Hne. now apply setLabel_other_language.
Qed.

(** X20.  When the thing is not found, each of the three handlers hands
    the rejection to the resource error handler, with the type [thing]
    and the trimmed id, in the state the request came in: nothing was
    rendered, flashed, logged or recorded before.  The page of the thing
    and the POST handler do so for every visitor, signed in or not; the
    edit page does so for a signed-in user (another visitor is asked to
    sign in, and nothing is looked up). *)
Theorem thing_not_found_goes_to_resource_handler
  (req : Req.t) (error : JsValue) (w : World) :
  getNotStaleOrDeleted (trim (Req.params_id req)) = Rejected error ->
  things.get_thing req w
  = getResourceErrorHandler req "thing" (trim (Req.params_id req)) error w
  /\ things.post_thing_edit_label req w
     = getResourceErrorHandler req "thing" (trim (Req.params_id req)) error w
  /\ (is_Some (Req.user req) ->
      things.get_thing_edit_label req w
      = getResourceErrorHandler req "thing" (trim (Req.params_id req))
          error w)
  /\ (Req.user req = None ->
      things.get_thing_edit_label req w
      = render.signinRequired req things.editLabelVars w).
Proof.
  intros Hthing.
  unfold things.get_thing, things.get_thing_edit_label,
    things.post_thing_edit_label.
  split; [unfold catch, bind; now rewrite Hthing|].
  split; [unfold catch, bind; now rewrite Hthing|].
  split.
  - intros [u ->]. unfold catch, bind. now rewrite Hthing.
  - now intros ->.
Qed.

End ThingPages.

Lemma edit_label_page_asks_to_sign_in_witness :
  exists vars : Vars,
    things.get_thing_edit_label anonymousReq emptyWorld
    = (Ok tt,
       {| flash := delete "siteErrors" (delete "siteMessages" (flash emptyWorld));
          log := log emptyWorld;
          res := {| statusCode := statusCode (res emptyWorld);
                    sent := Some (Rendered "signin-required" vars) |};
          revisions := revisions emptyWorld |})
    /\ extraVars vars = things.editLabelVars
    /\ user vars = None.
Proof.
  apply (edit_label_page_asks_to_sign_in anonymousReq emptyWorld).
  - reflexivity.
  - eexists. vm_compute. reflexivity.
Defined.

Lemma edit_label_page_for_editor_witness :
  exists vars : Vars,
    (things.get_thing_edit_label (sampleReq "alice" "GET" ∅) emptyWorld).1
    = Ok tt
    /\ res (things.get_thing_edit_label (sampleReq "alice" "GET" ∅)
              emptyWorld).2
       = {| statusCode := statusCode (res emptyWorld);
            sent := Some (Rendered "thing" vars) |}
    /\ extraVars vars
       = Some {| deferHeader := Some true;
                 titleKey := Some "edit label";
                 thing :=
                   Some (afterSendThing
                           (populateUserInfo
                              (Req.user (sampleReq "alice" "GET" ∅))
                              sampleThing));
                 edit := Some (mkEdit true "edit label");
                 pageErrors :=
                   Some (default [] (flash emptyWorld !! "pageErrors"));
                 showLanguageNotice :=
                   Some match User.suppressedNotices (User.mk "alice" None) with
                        | None => true
                        | Some notices =>
                            bool_decide ("language-notice-thing" ∉ notices)
                        end;
                 extraScripts := None |}
    /\ flash (things.get_thing_edit_label (sampleReq "alice" "GET" ∅)
                emptyWorld).2 !! "pageErrors" = None
    /\ revisions (things.get_thing_edit_label (sampleReq "alice" "GET" ∅)
                    emptyWorld).2 = revisions emptyWorld.
Proof.
  apply (edit_label_page_for_editor (sampleReq "alice" "GET" ∅)
           (User.mk "alice" None) sampleThing emptyWorld);
    try reflexivity.
  eexists. vm_compute. reflexivity.
Defined.

Lemma thing_page_for_everyone_witness :
  exists vars : Vars,
    (things.get_thing anonymousReq emptyWorld).1 = Ok tt
    /\ res (things.get_thing anonymousReq emptyWorld).2
       = {| statusCode := statusCode (res emptyWorld);
            sent := Some (Rendered "thing" vars) |}
    /\ extraVars vars
       = Some {| deferHeader := Some false;
                 titleKey := None;
                 thing :=
                   Some (afterSendThing
                           (populateUserInfo (Req.user anonymousReq)
                              sampleThing));
                 edit := None;
                 pageErrors :=
                   Some (default [] (flash emptyWorld !! "pageErrors"));
                 showLanguageNotice := Some false;
                 extraScripts := None |}
    /\ user vars = Req.user anonymousReq
    /\ revisions (things.get_thing anonymousReq emptyWorld).2
       = revisions emptyWorld.
Proof.
  apply (thing_page_for_everyone anonymousReq sampleThing emptyWorld).
  - reflexivity.
  - eexists. vm_compute. reflexivity.
Defined.

Lemma edit_label_saved_redirects_witness :
  things.post_thing_edit_label (sampleReq "alice" "POST" frenchLabelBody)
    emptyWorld
  = (Ok tt,
     {| flash := flash emptyWorld; log := log emptyWorld;
        res := {| statusCode := statusCode (res emptyWorld);
                  sent := Some (Redirected
                    ("/thing/" +:+ trim (Req.params_id
                       (sampleReq "alice" "POST" frenchLabelBody)))) |};
        revisions :=
          revisions emptyWorld
          ++ [NewRevision (Req.user (sampleReq "alice" "POST" frenchLabelBody))
                (populateUserInfo
                   (Req.user (sampleReq "alice" "POST" frenchLabelBody))
                   sampleThing);
              Save (things.setLabel
                      (Req.body (sampleReq "alice" "POST" frenchLabelBody))
                      (populateUserInfo
                         (Req.user (sampleReq "alice" "POST" frenchLabelBody))
                         sampleThing))] |}).
Proof.
  apply (edit_label_saved_redirects (sampleReq "alice" "POST" frenchLabelBody)
           sampleThing
           (populateUserInfo
              (Req.user (sampleReq "alice" "POST" frenchLabelBody)) sampleThing)
           (things.setLabel
              (Req.body (sampleReq "alice" "POST" frenchLabelBody))
              (populateUserInfo
                 (Req.user (sampleReq "alice" "POST" frenchLabelBody))
                 sampleThing))
           emptyWorld); reflexivity.
Defined.

Lemma edit_label_save_rejected_witness :
  exists vars : Vars,
    (@things.post_thing_edit_label sampleLanguages sampleRuntime rejectingSave
       (sampleReq "alice" "POST" frenchLabelBody) emptyWorld).1 = Ok tt
    /\ res (@things.post_thing_edit_label sampleLanguages sampleRuntime
              rejectingSave (sampleReq "alice" "POST" frenchLabelBody)
              emptyWorld).2
       = {| statusCode := 200; sent := Some (Rendered "thing" vars) |}
    /\ extraVars vars
       = Some {| deferHeader := Some false;
                 titleKey := None;
                 thing :=
                   Some (afterSendThing
                           (things.setLabel frenchLabelBody
                              (@populateUserInfo rejectingSave
                                 (Some (User.mk "alice" None)) sampleThing)));
                 edit := None;
                 pageErrors := Some [];
                 showLanguageNotice := Some false;
                 extraScripts := None |}
    /\ flash (@things.post_thing_edit_label sampleLanguages sampleRuntime
                rejectingSave (sampleReq "alice" "POST" frenchLabelBody)
                emptyWorld).2 !! "errors"
       = Some ([] ++ [flashedMessage (sampleReq "alice" "POST" frenchLabelBody)
                        sampleSaveError])
    /\ log (@things.post_thing_edit_label sampleLanguages sampleRuntime
              rejectingSave (sampleReq "alice" "POST" frenchLabelBody)
              emptyWorld).2
       = [] ++ loggedError (sampleReq "alice" "POST" frenchLabelBody)
                 "editing label - saving" sampleSaveError
    /\ revisions (@things.post_thing_edit_label sampleLanguages sampleRuntime
                    rejectingSave (sampleReq "alice" "POST" frenchLabelBody)
                    emptyWorld).2
       = [] ++ [NewRevision (Some (User.mk "alice" None))
                  (@populateUserInfo rejectingSave
                     (Some (User.mk "alice" None)) sampleThing);
                Save (things.setLabel frenchLabelBody
                        (@populateUserInfo rejectingSave
                           (Some (User.mk "alice" None)) sampleThing))].
Proof.
  assert (is_Some (getAll
                   !! Req.locale (sampleReq "alice" "POST" frenchLabelBody)))
    as Hlocale by (eexists; vm_compute; reflexivity).
  exact (@edit_label_save_rejected sampleLanguages sampleRuntime rejectingSave
           (sampleReq "alice" "POST" frenchLabelBody) sampleThing
           (@populateUserInfo rejectingSave (Some (User.mk "alice" None))
              sampleThing)
           sampleSaveError emptyWorld eq_refl eq_refl eq_refl eq_refl eq_refl
           Hlocale).
Defined.

Lemma edit_label_no_revision_no_save_witness :
  exists vars : Vars,
    (@things.post_thing_edit_label sampleLanguages sampleRuntime
       rejectingNewRevision (sampleReq "alice" "POST" frenchLabelBody)
       emptyWorld).1 = Ok tt
    /\ res (@things.post_thing_edit_label sampleLanguages sampleRuntime
              rejectingNewRevision (sampleReq "alice" "POST" frenchLabelBody)
              emptyWorld).2
       = {| statusCode := 200; sent := Some (Rendered "thing" vars) |}
    /\ thing <$> extraVars vars
       = Some (Some (afterSendThing
                       (@populateUserInfo rejectingNewRevision
                          (Some (User.mk "alice" None)) sampleThing)))
    /\ flash (@things.post_thing_edit_label sampleLanguages sampleRuntime
                rejectingNewRevision
                (sampleReq "alice" "POST" frenchLabelBody) emptyWorld).2
         !! "errors"
       = Some ([] ++ [flashedMessage (sampleReq "alice" "POST" frenchLabelBody)
                        (Error "database is down")])
    /\ log (@things.post_thing_edit_label sampleLanguages sampleRuntime
              rejectingNewRevision (sampleReq "alice" "POST" frenchLabelBody)
              emptyWorld).2
       = [] ++ loggedError (sampleReq "alice" "POST" frenchLabelBody)
                 "editing label - creating new revision"
                 (Error "database is down")
    /\ revisions (@things.post_thing_edit_label sampleLanguages sampleRuntime
                    rejectingNewRevision
                    (sampleReq "alice" "POST" frenchLabelBody) emptyWorld).2
       = [] ++ [NewRevision (Some (User.mk "alice" None))
                  (@populateUserInfo rejectingNewRevision
                     (Some (User.mk "alice" None)) sampleThing)].
Proof.
  assert (is_Some (getAll
                   !! Req.locale (sampleReq "alice" "POST" frenchLabelBody)))
    as Hlocale by (eexists; vm_compute; reflexivity).
  exact (@edit_label_no_revision_no_save sampleLanguages sampleRuntime
           rejectingNewRevision (sampleReq "alice" "POST" frenchLabelBody)
           sampleThing (Error "database is down") emptyWorld
           eq_refl eq_refl eq_refl eq_refl Hlocale).
Defined.

Lemma edit_label_stores_escaped_label_witness :
  exists saved : Thing.t,
    revisions (things.post_thing_edit_label
                 (sampleReq "alice" "POST" frenchLabelBody) emptyWorld).2
    = [] ++ [NewRevision (Some (User.mk "alice" None))
               (populateUserInfo (Some (User.mk "alice" None)) sampleThing);
             Save saved]
    /\ default ∅ (Thing.label saved) !! "fr" = Some "Chapeau &lt;vert&gt;"
    /\ html_escaped "Chapeau &lt;vert&gt;" = true
    /\ (forall lang : string,
          lang <> "fr" ->
          default ∅ (Thing.label saved) !! lang
          = default ∅ (Thing.label
              (populateUserInfo (Some (User.mk "alice" None)) sampleThing))
              !! lang)
    /\ Thing.urls saved
       = Thing.urls (populateUserInfo (Some (User.mk "alice" None)) sampleThing)
    /\ Thing.description saved
       = Thing.description
           (populateUserInfo (Some (User.mk "alice" None)) sampleThing)
    /\ Thing.aliases saved
       = Thing.aliases
           (populateUserInfo (Some (User.mk "alice" None)) sampleThing).
Proof.
  pose proof (edit_label_stores_escaped_label
                (sampleReq "alice" "POST" frenchLabelBody) sampleThing
                (populateUserInfo (Some (User.mk "alice" None)) sampleThing)
                emptyWorld) as Hstores.
  destruct Hstores as (saved & Hcalls & Hstored & _ & Hrest);
    [reflexivity | reflexivity | reflexivity |].
  exists saved. split; [exact Hcalls|].
  split; [apply Hstored; vm_compute; discriminate|]. exact Hrest.
Defined.

Lemma thing_not_found_goes_to_resource_handler_witness :
  things.get_thing missingThingReq emptyWorld
  = getResourceErrorHandler missingThingReq "thing"
      (trim (Req.params_id missingThingReq)) (Error "not found") emptyWorld
  /\ things.post_thing_edit_label missingThingReq emptyWorld
     = getResourceErrorHandler missingThingReq "thing"
         (trim (Req.params_id missingThingReq)) (Error "not found") emptyWorld
  /\ things.get_thing_edit_label missingThingReq emptyWorld
     = getResourceErrorHandler missingThingReq "thing"
         (trim (Req.params_id missingThingReq)) (Error "not found") emptyWorld.
Proof.
  pose proof (thing_not_found_goes_to_resource_handler missingThingReq
                (Error "not found") emptyWorld) as Hmissing.
  destruct Hmissing as (Hpage & Hpost & Hedit & _); [reflexivity|].
  split; [exact Hpage|]. split; [exact Hpost|].
  apply Hedit. eexists. reflexivity.
Defined.

(** ** The editor-switcher pin: every reply *)

Section PinReplies.
Import editor.
Variable messages : gmap string string.

Ltac classes_simpl :=
  repeat first [ rewrite hasClass_attr
               | rewrite hasClass_addClass
               | rewrite hasClass_removeClass ].

(** A click acts on the page element by element. *)
Lemma clickPin_lookup (this k : nat) (timerFirst : bool) (reply : Reply)
  (page : list Element) :
  clickPin messages this timerFirst reply page !! k
  = (fun el =>
       afterReply messages reply
         (if bool_decide (k = this) then afterSpinner timerFirst el else el))
    <$> page !! k.
Proof.
  assert (clickPin messages this timerFirst reply page
          = afterReply messages reply
            <$> alter (afterSpinner timerFirst) this page) as ->.
  { unfold clickPin, onReply, onTimeout, unspin, spin, onPins, onThis,
      afterReply, afterSpinner.
    destruct timerFirst; rewrite ?list_alter_alter_eq;
      (destruct reply as [newValue|]; [|reflexivity]);
      now destruct (String.eqb newValue "true"). }
  rewrite list_lookup_fmap, list_lookup_alter.
  destruct (decide (this = k)) as [->|Hne].
  - rewrite bool_decide_eq_true_2 by reflexivity.
    now destruct (page !! k).
  - rewrite bool_decide_eq_false_2 by congruence.
    now destruct (page !! k).
Qed.

Ltac decide_classes el :=
  repeat match goal with
         | |- context [hasClass ?c el] =>
             let b := fresh "b" in
             generalize (hasClass c el); intros b; destruct b
         end;
  vm_compute; reflexivity.

Lemma attrs_afterSpinner (timerFirst : bool) (el : Element) :
  attrs (afterSpinner timerFirst el) = attrs el.
Proof. now destruct timerFirst. Qed.

Lemma attrs_afterReply_Fail (el : Element) :
  attrs (afterReply messages Fail el) = attrs el.
Proof. unfold afterReply. now destruct (bool_decide _). Qed.

(** X21.  The spinner never sticks.  Whatever the reply (a new value or a
    failure) and whichever of the timer and the reply comes first, the
    clicked pin ends without the classes [fa-spinner], [fa-spin] and
    [editor-switcher-working] and with the class [fa-thumb-tack]. *)
Theorem clicked_pin_stops_spinning (this : nat) (timerFirst : bool)
  (reply : Reply) (page : list Element) (pin : Element) :
  page !! this = Some pin ->
  exists pin' : Element,
    clickPin messages this timerFirst reply page !! this = Some pin'
    /\ hasClass "fa-spinner" pin' = false
    /\ hasClass "fa-spin" pin' = false
    /\ hasClass "editor-switcher-working" pin' = false
    /\ hasClass "fa-thumb-tack" pin' = true.
Proof.
  intros Hthis. rewrite clickPin_lookup, Hthis.
  rewrite bool_decide_eq_true_2 by reflexivity.
  cbn [fmap option_fmap option_map]. eexists. split; [reflexivity|].
  unfold afterReply.
  destruct reply as [newValue|];
    [destruct (isPin _); [destruct (String.eqb newValue "true")|]
    |destruct (bool_decide _)];
    unfold afterSpinner; destruct timerFirst;
    (split; [|split; [|split]]); classes_simpl; decide_classes pin.
Qed.

(** X22.  A failed request changes no preference on the page: every
    element keeps its attributes, its title among them, and the classes
    [editor-switcher-pin], [editor-switcher-pinned] and
    [editor-switcher-unpinned] as they were.  The element with the id
    [generic-action-error] ends without the class [hidden]. *)
Theorem failed_toggle_keeps_pins (this k : nat) (timerFirst : bool)
  (page : list Element) (el : Element) :
  page !! k = Some el ->
  exists el' : Element,
    clickPin messages this timerFirst Fail page !! k = Some el'
    /\ attrs el' = attrs el
    /\ isPin el' = isPin el
    /\ hasClass "editor-switcher-pinned" el'
       = hasClass "editor-switcher-pinned" el
    /\ hasClass "editor-switcher-unpinned" el'
       = hasClass "editor-switcher-unpinned" el
    /\ (attrs el !! "id" = Some "generic-action-error" ->
        hasClass "hidden" el' = false).
Proof.
  intros Hk. rewrite clickPin_lookup, Hk.
  cbn [fmap option_fmap option_map]. eexists. split; [reflexivity|].
  split.
  { rewrite attrs_afterReply_Fail.
    destruct (bool_decide (k = this)); [apply attrs_afterSpinner|reflexivity]. }
  assert (attrs (if bool_decide (k = this)
                 then afterSpinner timerFirst el else el) = attrs el) as Hattrs
    by (destruct (bool_decide (k = this));
        [apply attrs_afterSpinner|reflexivity]).
  unfold afterReply, isPin. rewrite Hattrs.
  destruct (bool_decide_reflect (attrs el !! "id"
                                 = Some "generic-action-error")) as [Hid|Hid];
    destruct (bool_decide (k = this)); unfold afterSpinner;
    destruct timerFirst;
    (split; [|split; [|split]]); try (intros Hid'; try congruence);
    classes_simpl; decide_classes el.
Qed.

(** X23.  After a reply with a new value, every pin of the page is pinned
    if the value is exactly the string [true] and unpinned for every other
    value, and has the matching title if the page has a message for it
    (and keeps its title otherwise).  Elements that are neither pins nor
    the clicked element are not changed. *)
Theorem reply_restyles_every_pin (this k : nat) (timerFirst : bool)
  (newValue : string) (page : list Element) (el : Element) :
  page !! k = Some el ->
  exists el' : Element,
    clickPin messages this timerFirst (Done newValue) page !! k = Some el'
    /\ isPin el' = isPin el
    /\ (isPin el = true ->
        hasClass "editor-switcher-pinned" el' = String.eqb newValue "true"
        /\ hasClass "editor-switcher-unpinned" el'
           = negb (String.eqb newValue "true")
        /\ attrs el' !! "title"
           = match messages !! (if String.eqb newValue "true"
                                then "forget rte preference"
                                else "remember rte preference") with
             | Some title => Some title
             | None => attrs el !! "title"
             end)
    /\ (isPin el = false -> k <> this -> el' = el).
Proof.
  intros Hk. rewrite clickPin_lookup, Hk.
  cbn [fmap option_fmap option_map]. eexists. split; [reflexivity|].
  assert (isPin (if bool_decide (k = this)
                 then afterSpinner timerFirst el else el) = isPin el) as Hpin.
  { unfold afterSpinner, isPin.
    destruct (bool_decide (k = this)); [|reflexivity].
    destruct timerFirst; classes_simpl; decide_classes el. }
  assert (attrs (if bool_decide (k = this)
                 then afterSpinner timerFirst el else el) = attrs el) as Hattrs
    by (destruct (bool_decide (k = this));
        [apply attrs_afterSpinner|reflexivity]).
  unfold afterReply. rewrite Hpin.
  destruct (isPin el) eqn:Hel.
  - split; [|split; [|discriminate]].
    + unfold isPin in *. revert Hel.
      destruct (String.eqb newValue "true"), (bool_decide (k = this));
        unfold afterSpinner; destruct timerFirst; classes_simpl;
        intros ->; vm_compute; reflexivity.
    + intros _.
      assert (forall (value : option string) (e : Element),
                attrs (attr "title" value e) !! "title"
                = match value with
                  | Some title => Some title
                  | None => attrs e !! "title"
                  end) as Htitle.
      { intros [title|] e; [apply lookup_insert_eq|reflexivity]. }
      destruct (String.eqb newValue "true");
        (split; [|split; [|rewrite Htitle; cbn [addClass removeClass attrs];
                           now rewrite Hattrs]]);
        destruct (bool_decide (k = this)); unfold afterSpinner;
        destruct timerFirst; classes_simpl; decide_classes el.
  - split; [exact Hpin|]. split; [discriminate|].
    intros _ Hne. now rewrite bool_decide_eq_false_2.
Qed.

End PinReplies.

Lemma clicked_pin_stops_spinning_witness :
  exists pin' : editor.Element,
    editor.clickPin sampleMessages 0 true editor.Fail samplePage !! 0
    = Some pin'
    /\ editor.hasClass "fa-spinner" pin' = false
    /\ editor.hasClass "fa-spin" pin' = false
    /\ editor.hasClass "editor-switcher-working" pin' = false
    /\ editor.hasClass "fa-thumb-tack" pin' = true.
Proof.
  exact (clicked_pin_stops_spinning sampleMessages 0 true editor.Fail
           samplePage samplePin eq_refl).
Defined.

Lemma failed_toggle_keeps_pins_witness :
  exists el' : editor.Element,
    editor.clickPin sampleMessages 0 true editor.Fail samplePage !! 2
    = Some el'
    /\ editor.attrs el' = editor.attrs samplePin
    /\ editor.isPin el' = editor.isPin samplePin
    /\ editor.hasClass "editor-switcher-pinned" el'
       = editor.hasClass "editor-switcher-pinned" samplePin
    /\ editor.hasClass "editor-switcher-unpinned" el'
       = editor.hasClass "editor-switcher-unpinned" samplePin
    /\ (editor.attrs samplePin !! "id" = Some "generic-action-error" ->
        editor.hasClass "hidden" el' = false).
Proof.
  exact (failed_toggle_keeps_pins sampleMessages 0 2 true samplePage samplePin
           eq_refl).
Defined.

Lemma reply_restyles_every_pin_witness :
  exists el' : editor.Element,
    editor.clickPin sampleMessages 0 false (editor.Done "yes") samplePage !! 2
    = Some el'
    /\ editor.isPin el' = editor.isPin samplePin
    /\ (editor.isPin samplePin = true ->
        editor.hasClass "editor-switcher-pinned" el' = String.eqb "yes" "true"
        /\ editor.hasClass "editor-switcher-unpinned" el'
           = negb (String.eqb "yes" "true")
        /\ editor.attrs el' !! "title"
           = match sampleMessages !! (if String.eqb "yes" "true"
                                      then "forget rte preference"
                                      else "remember rte preference") with
             | Some title => Some title
             | None => editor.attrs samplePin !! "title"
             end)
    /\ (editor.isPin samplePin = false -> 2 <> 0 -> el' = samplePin).
Proof.
  exact (reply_restyles_every_pin sampleMessages 0 2 false "yes" samplePage
           samplePin eq_refl).
Defined.

(** ** The textarea behind a rich-text editor *)

Section Textarea.
Context `{textarea.Browser}.

Lemma attr_lookup_other (name other : string) (v : option string)
  (ta : textarea.t) :
  other <> name ->
  textarea.attrs (textarea.attr name v ta) !! other
  = textarea.attrs ta !! other.
Proof.
  intros Hne. destruct v as [s|]; [|reflexivity].
  cbn. now rewrite lookup_insert_ne.
Qed.

Lemma attr_value (name : string) (v : option string) (ta : textarea.t) :
  textarea.value (textarea.attr name v ta) = textarea.value ta.
Proof. now destruct v. Qed.

(** Storing the selection touches only the three selection attributes. *)
Lemma updateRTESelectionData_frame (saveSelection : option JsValue)
  (scrollY : option float) (ta ta' : textarea.t) :
  textarea.updateRTESelectionData saveSelection scrollY ta = Ok ta' ->
  textarea.value ta' = textarea.value ta
  /\ forall name : string,
       name <> "data-rte-sel-start" -> name <> "data-rte-sel-end" ->
       name <> "data-rte-scroll-y" ->
       textarea.attrs ta' !! name = textarea.attrs ta !! name.
Proof.
  unfold textarea.updateRTESelectionData.
  destruct saveSelection as [sel|]; [|now intros [= <-]].
  destruct (String.eqb (typeof sel) "object");
    [destruct sel; try discriminate;
     repeat match goal with
            | |- context [match ?x with _ => _ end] => destruct x
            end|];
    intros [= <-]; rewrite ?attr_value;
    (split; [reflexivity|]); intros name H1 H2 H3;
    rewrite ?attr_lookup_other by assumption; cbn;
    now rewrite ?lookup_insert_ne by congruence.
Qed.

(** X24.  The caret and the scroll position survive a blur only if the
    Markdown did not change.  When the serialized document differs from
    the value of a textarea with [data-markdown], the handler stores the
    new value, marks the textarea with [data-reset-textarea] and leaves
    none of [data-rte-sel-start], [data-rte-sel-end] and
    [data-rte-scroll-y], although it had just written them.  When the
    document is the value, the textarea keeps its value and gets no
    [data-reset-textarea].  A selection that is [null] makes the handler
    throw before the textarea is touched. *)
Theorem blur_forgets_selection_when_markdown_changed
  (saveSelection : option JsValue) (scrollY : option float)
  (markdown : string) (ta : textarea.t) :
  (saveSelection = Some JNull ->
   textarea.onBlur saveSelection scrollY markdown ta
   = Throw (TypeError "Cannot read property 'start' of null"))
  /\ forall ta' : textarea.t,
       textarea.onBlur saveSelection scrollY markdown ta = Ok ta' ->
       (markdown <> textarea.value ta ->
        is_Some (textarea.attrs ta !! "data-markdown") ->
        textarea.value ta' = markdown
        /\ textarea.attrs ta' !! "data-reset-textarea" = Some ""
        /\ textarea.attrs ta' !! "data-rte-sel-start" = None
        /\ textarea.attrs ta' !! "data-rte-sel-end" = None
        /\ textarea.attrs ta' !! "data-rte-scroll-y" = None)
       /\ (markdown = textarea.value ta ->
           textarea.value ta' = textarea.value ta
           /\ textarea.attrs ta' !! "data-reset-textarea"
              = textarea.attrs ta !! "data-reset-textarea"
           /\ textarea.updateRTESelectionData saveSelection scrollY ta
              = Ok ta').
Proof.
  split; [now intros ->|].
  intros ta'. unfold textarea.onBlur.
  destruct (textarea.updateRTESelectionData saveSelection scrollY ta)
    as [ta1|e] eqn:E; [|discriminate].
  destruct (updateRTESelectionData_frame _ _ _ _ E) as [Hvalue Hattrs].
  intros [= <-]. unfold textarea.updateTextarea. rewrite Hvalue. split.
  - intros Hne Hmd.
    destruct (String.eqb_spec markdown (textarea.value ta)) as [?|_];
      [done|]. cbn [negb].
    unfold textarea.onChange. cbn [textarea.attrs].
    rewrite Hattrs by discriminate.
    rewrite bool_decide_eq_true_2 by exact Hmd.
    cbn. rewrite lookup_insert_eq.
    rewrite !lookup_insert_ne by discriminate.
    repeat split.
    + rewrite !lookup_delete_ne by discriminate. apply lookup_delete_eq.
    + rewrite lookup_delete_ne by discriminate. apply lookup_delete_eq.
    + apply lookup_delete_eq.
  - intros ->. rewrite String.eqb_refl. cbn [negb].
    split; [exact Hvalue|]. split; [|reflexivity].
    now apply Hattrs.
Qed.

End Textarea.

Lemma blur_forgets_selection_when_markdown_changed_witness :
  exists ta' : textarea.t,
    @textarea.onBlur sampleBrowser (Some sampleSelection) (Some 120%float)
      "A *short* review" sampleTextarea = Ok ta'
    /\ textarea.value ta' = "A *short* review"
    /\ textarea.attrs ta' !! "data-reset-textarea" = Some ""
    /\ textarea.attrs ta' !! "data-rte-sel-start" = None
    /\ textarea.attrs ta' !! "data-rte-sel-end" = None
    /\ textarea.attrs ta' !! "data-rte-scroll-y" = None.
Proof.
  eexists. split; [vm_compute; reflexivity|].
  apply (proj2 (@blur_forgets_selection_when_markdown_changed sampleBrowser
                  (Some sampleSelection) (Some 120%float)
                  "A *short* review" sampleTextarea)).
  - vm_compute; reflexivity.
  - vm_compute. discriminate.
  - vm_compute. eexists; reflexivity.
Defined.

(** ** The switcher between Markdown and the rich-text editor *)

Section Switcher.
Import switcher.

Lemma Node_ind' (P : Node -> Prop) :
  (forall e cs, Forall P cs -> P (mkNode e cs)) -> forall n, P n.
Proof.
  intros step. fix IH 1. intros [e cs]. apply step.
  induction cs as [|c cs IHcs]; constructor; [apply IH | exact IHcs].
Qed.

Lemma element_onFound selector f n :
  element (onFound selector f n) = element n.
Proof. now destruct n. Qed.

Lemma element_removeFound ancestor selector inside n :
  element (removeFound ancestor selector inside n) = element n.
Proof. now destruct n. Qed.

Lemma descendants_onElement g n :
  descendants (onElement g n) = descendants n.
Proof. now destruct n. Qed.

Lemma descendants_restyled selector g d :
  descendants (restyled selector g d)
  = descendants (onFound selector (onElement g) d).
Proof.
  unfold restyled. destruct (selector (element d)); [|reflexivity].
  apply descendants_onElement.
Qed.

Lemma descendants_onFound selector g n :
  descendants (onFound selector (onElement g) n)
  = restyled selector g <$> descendants n.
Proof.
  induction n as [e cs IH] using Node_ind'. cbn [onFound descendants].
  induction IH as [|c cs Hc _ IHcs]; [reflexivity|].
  cbn [map flat_map]. rewrite IHcs. clear IHcs.
  change (restyled selector g c
            :: descendants (restyled selector g c)
            ++ (restyled selector g <$> flat_map (fun c0 => c0 :: descendants c0) cs)
          = restyled selector g <$> (c :: descendants c
               ++ flat_map (fun c0 => c0 :: descendants c0) cs)).
  rewrite descendants_restyled, Hc, fmap_cons, fmap_app. reflexivity.
Qed.

Lemma elem_of_descendants_onFound selector g n i d :
  descendants (onFound selector (onElement g) n) !! i = Some d ->
  exists d0, descendants n !! i = Some d0 /\ d = restyled selector g d0.
Proof.
  rewrite descendants_onFound, list_lookup_fmap.
  destruct (descendants n !! i) as [d0|]; [|discriminate].
  intros [= <-]. now exists d0.
Qed.

Lemma element_restyled selector g d :
  element (restyled selector g d)
  = if selector (element d) then g (element d) else element d.
Proof.
  unfold restyled. destruct (selector (element d)); destruct d; reflexivity.
Qed.

Lemma children_restyled selector g d :
  children (restyled selector g d) = restyled selector g <$> children d.
Proof.
  unfold restyled. destruct (selector (element d)); destruct d; reflexivity.
Qed.

Lemma byAttr_addClass name names e :
  byAttr name (editor.addClass names e) = byAttr name e.
Proof. reflexivity. Qed.

Lemma byAttr_removeClass name names e :
  byAttr name (editor.removeClass names e) = byAttr name e.
Proof. reflexivity. Qed.

(** X25.  [toggleSwitcher] always leaves the switcher with exactly one of
    the two mode attributes: [data-markdown-enabled] if it had
    [data-rte-enabled], and [data-rte-enabled] otherwise, also when it
    began with both or with neither.  Its classes and its other
    attributes stay. *)
Theorem toggleSwitcher_flips_mode (sw : Node) :
  hasAttribute "data-rte-enabled" (toggleSwitcher sw)
  = negb (hasAttribute "data-rte-enabled" sw)
  /\ hasAttribute "data-markdown-enabled" (toggleSwitcher sw)
     = hasAttribute "data-rte-enabled" sw
  /\ editor.classes (element (toggleSwitcher sw))
     = editor.classes (element sw)
  /\ forall name : string,
       name <> "data-rte-enabled" -> name <> "data-markdown-enabled" ->
       editor.attrs (element (toggleSwitcher sw)) !! name
       = editor.attrs (element sw) !! name.
Proof.
  unfold toggleSwitcher, hasAttribute, addIndicator, removeIndicator.
  destruct (byAttr "data-rte-enabled" (element sw)) eqn:Hrte;
    cbn [negb];
    repeat first [rewrite element_onFound | rewrite element_removeFound];
    unfold byAttr;
    cbn [onElement element editor.attr removeAttr editor.attrs
         editor.classes];
    repeat first [rewrite element_onFound | rewrite element_removeFound].
  - rewrite lookup_insert_ne, lookup_delete_eq by discriminate.
    rewrite lookup_insert_eq.
    split; [apply bool_decide_eq_false_2; now intros [? [=]]|].
    split; [now apply bool_decide_eq_true_2|].
    split; [reflexivity|].
    intros name H1 H2.
    now rewrite lookup_insert_ne, lookup_delete_ne by congruence.
  - rewrite lookup_insert_eq.
    rewrite lookup_insert_ne, lookup_delete_eq by discriminate.
    split; [now apply bool_decide_eq_true_2|].
    split; [apply bool_decide_eq_false_2; now intros [? [=]]|].
    split; [reflexivity|].
    intros name H1 H2.
    now rewrite lookup_insert_ne, lookup_delete_ne by congruence.
Qed.

(** X26.  [isSelectable] refuses exactly when the switcher has the
    attribute it is asked about, and then changes nothing.  When it
    accepts, the switcher ends with that attribute only if the attribute
    is [data-rte-enabled], or is [data-markdown-enabled] and the switcher
    had [data-rte-enabled]: on a switcher with neither mode attribute,
    asking for [data-markdown-enabled] is accepted and leaves the switcher
    in the RTE state. *)
Theorem isSelectable_refuses_current_mode (sw : Node)
  (activeOptionAttr : string) :
  (isSelectable sw activeOptionAttr).1
  = negb (hasAttribute activeOptionAttr sw)
  /\ (hasAttribute activeOptionAttr sw = true ->
      (isSelectable sw activeOptionAttr).2 = sw)
  /\ (hasAttribute activeOptionAttr sw = false ->
      (isSelectable sw activeOptionAttr).2 = toggleSwitcher sw
      /\ hasAttribute activeOptionAttr (toggleSwitcher sw)
         = String.eqb activeOptionAttr "data-rte-enabled"
           || String.eqb activeOptionAttr "data-markdown-enabled"
              && hasAttribute "data-rte-enabled" sw).
Proof.
  unfold isSelectable.
  destruct (hasAttribute activeOptionAttr sw) eqn:Hattr; cbn [fst snd negb].
  - split; [reflexivity|]. split; [reflexivity|discriminate].
  - split; [reflexivity|]. split; [discriminate|]. intros _.
    split; [reflexivity|].
    destruct (toggleSwitcher_flips_mode sw) as (Hrte & Hmd & _ & Hother).
    destruct (String.eqb_spec activeOptionAttr "data-rte-enabled") as [->|H1].
    { rewrite Hrte, Hattr. reflexivity. }
    destruct (String.eqb_spec activeOptionAttr "data-markdown-enabled")
      as [->|H2].
    { rewrite Hmd. reflexivity. }
    cbn [orb andb]. rewrite <- Hattr. unfold hasAttribute, byAttr.
    now rewrite Hother.
Qed.

Ltac classes_simpl :=
  repeat first [ rewrite hasClass_addClass
               | rewrite hasClass_removeClass
               | rewrite byAttr_addClass
               | rewrite byAttr_removeClass ].

Ltac decide_selectors el :=
  repeat (cbv iota; classes_simpl;
          match goal with
          | |- context [byAttr ?a el] => destruct (byAttr a el)
          end);
  cbv iota.

Ltac decide_classes el :=
  repeat match goal with
         | |- context [editor.hasClass ?c el] =>
             let b := fresh "b" in
             generalize (editor.hasClass c el); intros b; destruct b
         end;
  vm_compute; first [reflexivity | discriminate].

(** A chain of class changes makes of the elements below a node what it
    makes of each. *)
Lemma descendants_restyled_fmap selector g n :
  descendants (restyled selector g n)
  = restyled selector g <$> descendants n.
Proof. now rewrite descendants_restyled, descendants_onFound. Qed.

(** X27.  After [toggleSwitcher] the pins of the switcher are hidden in
    Markdown mode and shown in RTE mode: a pin below the switcher has the
    class [hidden] exactly if the switcher had [data-rte-enabled]. *)
Theorem toggleSwitcher_pins_follow_mode (sw : Node) (i : nat) (d : Node) :
  descendants (toggleSwitcher sw) !! i = Some d ->
  editor.isPin (element d) = true ->
  editor.hasClass "hidden" (element d) = hasAttribute "data-rte-enabled" sw.
Proof.
  unfold toggleSwitcher, addIndicator, removeIndicator.
  destruct (hasAttribute "data-rte-enabled" sw);
    intros Hd;
    apply elem_of_descendants_onFound in Hd as (d2 & Hd & ->);
    apply elem_of_descendants_onFound in Hd as (d1 & Hd & ->);
    rewrite descendants_onElement in Hd;
    apply elem_of_descendants_onFound in Hd as (d0 & _ & ->);
    rewrite !element_restyled;
    generalize (element d0) as e0; intros e0;
    destruct (editor.isPin e0) eqn:Hpin;
    decide_selectors e0;
    revert Hpin; unfold editor.isPin;
    classes_simpl; decide_classes e0.
Qed.

Lemma restyled_selectedIndicator selector g :
  selector (element selectedIndicator) = false ->
  restyled selector g selectedIndicator = selectedIndicator.
Proof. unfold restyled. now intros ->. Qed.

Lemma head_children_restyled selector g n :
  head (children (restyled selector g n))
  = restyled selector g <$> head (children n).
Proof. rewrite children_restyled. now destruct (children n). Qed.

Lemma byAttr_restyled_addClass name selector names n :
  byAttr name (element (restyled selector (editor.addClass names) n))
  = byAttr name (element n).
Proof. rewrite element_restyled. now destruct (selector _). Qed.

Lemma byAttr_restyled_removeClass name selector names n :
  byAttr name (element (restyled selector (editor.removeClass names) n))
  = byAttr name (element n).
Proof. rewrite element_restyled. now destruct (selector _). Qed.

(** Every chosen element begins with what [.prepend] gave it. *)
Lemma onFound_prepend_head name n :
  Forall (fun d => byAttr name (element d) = true ->
                   head (children d) = Some selectedIndicator)
    (descendants (onFound (byAttr name) (prepend selectedIndicator) n)).
Proof.
  induction n as [e cs IH] using Node_ind'. cbn [onFound descendants].
  induction IH as [|c cs Hc _ IHcs]; [constructor|].
  cbn [map flat_map]. rewrite <- app_comm_cons.
  apply List.Forall_cons; [|apply Forall_app; split; [|exact IHcs]].
  - destruct (byAttr name (element c)) eqn:Hsel.
    + reflexivity.
    + rewrite element_onFound, Hsel. discriminate.
  - destruct (byAttr name (element c)); [|exact Hc].
    cbn [prepend descendants flat_map selectedIndicator app].
    apply List.Forall_cons; [discriminate|].
    destruct (onFound _ _ c); exact Hc.
Qed.

(** X28.  Switching to the RTE marks the RTE options: when the switcher
    has no [data-rte-enabled], after [toggleSwitcher] every element with
    [data-enable-rte] below it has the indicator as its first child. *)
Theorem switch_to_rte_marks_rte_options (sw : Node) (i : nat) (d : Node) :
  hasAttribute "data-rte-enabled" sw = false ->
  descendants (toggleSwitcher sw) !! i = Some d ->
  byAttr "data-enable-rte" (element d) = true ->
  head (children d) = Some selectedIndicator.
Proof.
  unfold toggleSwitcher, addIndicator. intros ->. intros Hd.
  apply elem_of_descendants_onFound in Hd as (d2 & Hd & ->).
  apply elem_of_descendants_onFound in Hd as (d1 & Hd & ->).
  rewrite descendants_onElement in Hd.
  apply elem_of_descendants_onFound in Hd as (d0 & Hd & ->).
  rewrite byAttr_restyled_addClass, byAttr_restyled_removeClass,
    byAttr_restyled_removeClass.
  intros Hopt.
  pose proof (proj1 (Forall_lookup _ _)
                (onFound_prepend_head "data-enable-rte" _) _ _ Hd Hopt)
    as Hhead.
  rewrite !head_children_restyled, Hhead. cbn [fmap option_fmap option_map].
  now rewrite !restyled_selectedIndicator.
Qed.

(** Below an element that [.find(ancestor + ' ' + selector)] passes,
    [.remove()] leaves no element that matches [selector]. *)
Lemma removeFound_clears ancestor selector n :
  forall inside : bool,
    (inside = true ->
     Forall (fun d => selector (element d) = false)
       (descendants (removeFound ancestor selector inside n)))
    /\ Forall (fun a => ancestor (element a) = true ->
                        Forall (fun d => selector (element d) = false)
                          (descendants a))
         (descendants (removeFound ancestor selector inside n)).
Proof.
  induction n as [e cs IH] using Node_ind'. intros inside.
  cbn [removeFound descendants].
  induction IH as [|c cs Hc _ IHcs]; [now split; constructor|].
  cbn [flat_map]. destruct IHcs as [IH1 IH2].
  destruct (inside && selector (element c)) eqn:Hgo; [now split|].
  cbn [app flat_map].
  destruct (Hc (inside || ancestor (element c))) as [Hc1 Hc2].
  split.
  - intros ->. cbn [andb orb] in *.
    apply List.Forall_cons; [now rewrite element_removeFound|].
    apply Forall_app. split; [now apply Hc1 | now apply IH1].
  - apply List.Forall_cons; [|apply Forall_app; split; assumption].
    rewrite element_removeFound. intros Hanc. apply Hc1.
    rewrite Hanc. apply orb_true_r.
Qed.

(** X29.  Switching to Markdown unmarks the RTE options: when the
    switcher has [data-rte-enabled], after [toggleSwitcher] no element
    below an element with [data-enable-rte] is an indicator. *)
Theorem switch_to_markdown_clears_rte_options (sw : Node) (i j : nat)
  (a d : Node) :
  hasAttribute "data-rte-enabled" sw = true ->
  descendants (toggleSwitcher sw) !! i = Some a ->
  byAttr "data-enable-rte" (element a) = true ->
  descendants a !! j = Some d ->
  byClass "editor-switcher-selected-indicator" (element d) = false.
Proof.
  unfold toggleSwitcher, removeIndicator. intros ->. intros Ha.
  apply elem_of_descendants_onFound in Ha as (a2 & Ha & ->).
  apply elem_of_descendants_onFound in Ha as (a1 & Ha & ->).
  rewrite descendants_onElement in Ha.
  apply elem_of_descendants_onFound in Ha as (a0 & Ha & ->).
  rewrite byAttr_restyled_addClass, byAttr_restyled_removeClass,
    byAttr_restyled_addClass.
  intros Hopt.
  rewrite !descendants_restyled_fmap, !list_lookup_fmap.
  destruct (descendants a0 !! j) as [d0|] eqn:Hd; [|discriminate].
  intros [= <-].
  pose proof (proj2 (removeFound_clears (byAttr "data-enable-rte")
                       (byClass "editor-switcher-selected-indicator")
                       (addIndicator None "data-enable-markdown" sw) false))
    as Hclear.
  pose proof (proj1 (Forall_lookup _ _)
                (proj1 (Forall_lookup _ _) Hclear _ _ Ha Hopt) _ _ Hd)
    as Hnone.
  revert Hnone. cbv beta. rewrite !element_restyled. unfold byClass.
  generalize (element d0) as e0; intros e0.
  destruct (editor.isPin e0);
    decide_selectors e0; classes_simpl; decide_classes e0.
Qed.

End Switcher.

Lemma toggleSwitcher_pins_follow_mode_witness :
  exists d : switcher.Node,
    switcher.descendants (switcher.toggleSwitcher sampleSwitcher) !! 5
    = Some d
    /\ editor.isPin (switcher.element d) = true
    /\ editor.hasClass "hidden" (switcher.element d)
       = switcher.hasAttribute "data-rte-enabled" sampleSwitcher.
Proof.
  eexists. split; [vm_compute; reflexivity|].
  split; [vm_compute; reflexivity|].
  apply (toggleSwitcher_pins_follow_mode sampleSwitcher 5);
    vm_compute; reflexivity.
Defined.

Lemma switch_to_rte_marks_rte_options_witness :
  exists d : switcher.Node,
    switcher.hasAttribute "data-rte-enabled" sampleSwitcher = false
    /\ switcher.descendants (switcher.toggleSwitcher sampleSwitcher) !! 2
       = Some d
    /\ switcher.byAttr "data-enable-rte" (switcher.element d) = true
    /\ head (switcher.children d) = Some switcher.selectedIndicator.
Proof.
  eexists. split; [vm_compute; reflexivity|].
  split; [vm_compute; reflexivity|].
  split; [vm_compute; reflexivity|].
  apply (switch_to_rte_marks_rte_options sampleSwitcher 2);
    vm_compute; reflexivity.
Defined.

Lemma switch_to_markdown_clears_rte_options_witness :
  exists a d : switcher.Node,
    switcher.hasAttribute "data-rte-enabled"
      (switcher.toggleSwitcher sampleSwitcher) = true
    /\ switcher.descendants
         (switcher.toggleSwitcher (switcher.toggleSwitcher sampleSwitcher))
       !! 3 = Some a
    /\ switcher.byAttr "data-enable-rte" (switcher.element a) = true
    /\ switcher.descendants a !! 0 = Some d
    /\ switcher.byClass "editor-switcher-selected-indicator"
         (switcher.element d) = false.
Proof.
  eexists. eexists. split; [vm_compute; reflexivity|].
  split; [vm_compute; reflexivity|].
  split; [vm_compute; reflexivity|].
  split; [vm_compute; reflexivity|].
  eapply (switch_to_markdown_clears_rte_options
            (switcher.toggleSwitcher sampleSwitcher) 3 0);
    vm_compute; reflexivity.
Defined.
